(** * s2t: the dictation toggle of [macos/s2t.py]

    A shallow embedding of the toggle script: the persisted session
    record, the stop-side pipeline of [main], the capture callback of
    [record_audio], the blank-transcript filter and the paste step,
    followed by the properties of the toggle/worker life cycle. *)

From Stdlib Require Import ZArith NArith List String Ascii Bool Lia.
From Stdlib Require Import Floats.PrimFloat Floats.FloatOps Floats.SpecFloat.
From stdpp Require Import base option list gmap.

Open Scope Z_scope.

(** ** Python strings

    A Python [str] is a sequence of Unicode code points.  The ASCII
    range of [str.isalpha], [str.lower] and [str.isspace] is written
    out; what these methods do on the other code points is the
    interpreter's Unicode table, taken as a parameter. *)

Abbreviation pystr := (list N) (only parsing).

Definition py (s : string) : pystr := map N_of_ascii (list_ascii_of_string s).

Record unicode := {
  u_isalpha : N -> bool;
  u_lower : N -> pystr;
  u_isspace : N -> bool
}.

(** A table that knows no letter and no space outside ASCII. *)
Definition ascii_only : unicode :=
  {| u_isalpha := fun _ => false;
     u_lower := fun c => [c];
     u_isspace := fun _ => false |}.

Module Str.

Definition is_ascii (c : N) : bool := (c <? 128)%N.

Definition ascii_upper (c : N) : bool := ((65 <=? c) && (c <=? 90))%N.
Definition ascii_lower (c : N) : bool := ((97 <=? c) && (c <=? 122))%N.

(** [c.isalpha()] for a one-character string. *)
Definition isalpha (U : unicode) (c : N) : bool :=
  if is_ascii c then ascii_upper c || ascii_lower c else u_isalpha U c.

(** [c.lower()] for a one-character string; the result may be longer
    than one code point outside ASCII. *)
Definition lower (U : unicode) (c : N) : pystr :=
  if is_ascii c then (if ascii_upper c then [(c + 32)%N] else [c])
  else u_lower U c.

(** [c.isspace()]: TAB..CR, FS..US and SPACE in the ASCII range. *)
Definition isspace (U : unicode) (c : N) : bool :=
  if is_ascii c
  then ((9 <=? c) && (c <=? 13) || (28 <=? c) && (c <=? 32))%N
  else u_isspace U c.

Fixpoint lstrip (U : unicode) (s : pystr) : pystr :=
  match s with
  | c :: s' => if isspace U c then lstrip U s' else s
  | [] => []
  end.

(** [s.strip()] *)
Definition strip (U : unicode) (s : pystr) : pystr :=
  rev (lstrip U (rev (lstrip U s))).

(** [str.maketrans('', '', z)]: every code point of [z] is mapped to
    [None]. *)
Definition maketrans_delete (z : pystr) : gmap N (option N) :=
  foldr (fun c t => <[c := None]> t) ∅ z.

(** [s.translate(table)]: a code point mapped to [None] is dropped, a
    mapped one is replaced, one without an entry is kept. *)
Definition translate (table : gmap N (option N)) (s : pystr) : pystr :=
  flat_map (fun c => match table !! c with
                     | Some None => []
                     | Some (Some d) => [d]
                     | None => [c]
                     end) s.

Definition eqb (a b : pystr) : bool := bool_decide (a = b).

End Str.

(** ** The blank filter *)

(** The deletion set of check 1: space, TAB, LF, CR and the eight
    marks . , ! ? ; : apostrophe and double quote, as code points. *)
Definition blank_deletions : pystr :=
  [32; 9; 10; 13; 46; 44; 33; 63; 59; 58; 39; 34]%N.

Definition is_blank_audio (U : unicode) (text : pystr) : bool :=
  let check := Str.translate (Str.maketrans_delete blank_deletions) text in
  if bool_decide (check = []) then true
  else
    let canon := concat (map (Str.lower U)
                           (filter (fun c => Str.isalpha U c = true) text)) in
    if Str.eqb canon (py "blankaudio") then true
    else false.

(** The classifier as the specification words it. *)
Module BlankSpec.

Definition is_whitespace (c : N) : bool :=
  bool_decide (c ∈ [32; 9; 10; 13]%N).

Definition is_common_punctuation (c : N) : bool :=
  bool_decide (c ∈ py ".,!?;:'" ++ [34%N]).

Definition without_space_and_punctuation (text : pystr) : pystr :=
  filter (fun c => is_whitespace c || is_common_punctuation c = false) text.

Definition letters_case_folded (U : unicode) (text : pystr) : pystr :=
  mbind (Str.lower U) (filter (fun c => Str.isalpha U c = true) text).

Definition blank (U : unicode) (text : pystr) : Prop :=
  without_space_and_punctuation text = []
  ∨ letters_case_folded U text = py "blankaudio".

End BlankSpec.

(** ** Python floats

    A Python [float] is an IEEE 754 binary64 number; its arithmetic is
    that of the primitive floats, rounding to nearest, ties to even. *)

(** [f >= n] for a float and an integer.  Python compares the two
    exactly, without converting the integer; a NaN compares false. *)
Definition float_ge_int (f : float) (n : Z) : bool :=
  match Prim2SF f with
  | S754_zero _ => n <=? 0
  | S754_infinity negative => negb negative
  | S754_nan => false
  | S754_finite negative m e =>
      let v := if negative then Z.neg m else Z.pos m in
      if 0 <=? e then n <=? v * 2 ^ e else n * 2 ^ (- e) <=? v
  end.

(** ** Python values and exceptions *)

#[local] Set Warnings "-register-all".

(** What [json.load] can return.  A float is the dyadic [m * 2^e];
    the program only ever tests it for truth. *)
Inductive pyval :=
| PNone
| PBool (b : bool)
| PInt (z : Z)
| PFloat (m e : Z)
| PStr (s : pystr)
| PList (l : list pyval)
| PDict (d : list (pystr * pyval)).

(** [bool(v)] *)
Definition truthy (v : pyval) : bool :=
  match v with
  | PNone => false
  | PBool b => b
  | PInt z => negb (z =? 0)
  | PFloat m _ => negb (m =? 0)
  | PStr s => negb (bool_decide (s = []))
  | PList l => match l with [] => false | _ => true end
  | PDict d => match d with [] => false | _ => true end
  end.

Definition is_none (v : pyval) : bool :=
  match v with PNone => true | _ => false end.

Inductive exn :=
| ProcessLookupError
| PermissionError
| OSError
| TypeError
| OverflowError
| AttributeError
| ValueError
| JSONDecodeError
| ImportError
| RuntimeError
| PyperclipException
| PortAudioError.

(** What can travel up the stack: a subclass of [Exception], or
    KeyboardInterrupt, which derives from BaseException only.  No
    operation below raises KeyboardInterrupt: Ctrl-C arrives
    asynchronously, which this model leaves out; the clause that
    catches it in the main block is kept. *)
Inductive raised :=
| Exception (x : exn)
| KeyboardInterrupt.

(** ** What a run leaves behind *)

Inductive level := INFO | WARNING | ERROR.

Inductive device_sel := DevIndex (i : Z) | DevName (name : pystr).

(** One constructor per logging call of the script. *)
Inductive logmsg :=
| MsgFailedToReadState (x : exn)
| MsgFailedToWriteState (x : exn)
| MsgFailedToClearState (x : exn)
| MsgMissingDependencies (names : list pystr)
| MsgInstallWith (names : list pystr)
| MsgUsingDefaultInputDevice (name : pystr)
| MsgUsingInputDevice (name : pystr)
| MsgCouldNotQueryDevice (x : exn)
| MsgAudioStatus
| MsgMaxRecordingTimeReached (seconds : Z)
| MsgRecordingTo (wav : pystr)
| MsgMaxDuration (seconds : Z)
| MsgMaxDurationUnlimited
| MsgWritingWav
| MsgRecordingSaved (wav : pystr)
| MsgNoAudioData
| MsgRecordingError (x : exn)
| MsgRecordingStarted
| MsgDaemonError (x : exn)
| MsgDaemonDidNotExit
| MsgFailedToStopDaemon (x : exn)
| MsgLoadingModel
| MsgTranscribing
| MsgTranscription (shown : pystr) (ellipsis : bool)
| MsgFailedToPaste (x : exn)
| MsgInvalidStateFile
| MsgStoppingRecording
| MsgRecordingFileMissing
| MsgRecordingFileEmpty
| MsgBlankAudio
| MsgDone
| MsgError (x : exn).

Inductive signal := SIGINT | SIGTERM | SIG0.

Inductive pause := PollInterval | RestoreDelay.

Inductive sink := Stderr | LogFile.

(** The calls one process makes to the outside, oldest first.  An
    event records that the call was made, with its arguments, whether
    or not it succeeds; what a successful call changes is in the
    state. *)
Inductive event :=
| EvLog (l : level) (m : logmsg)
| EvFork
| EvSetsid
| EvRedirectStdio
| EvStateWrite (pid : Z) (wav : pystr)
| EvStateUnlink
| EvTerminalNotifier (remove : bool)
| EvOsascriptNotify
| EvKill (pid : Z) (sig : signal)
| EvSleep (p : pause)
| EvProbe (path : pystr)
| EvTranscribe (wav : pystr)
| EvClipboardCopy (text : pystr)
| EvKeystroke
| EvStopSet (by_timer : bool)
| EvWavWrite (wav : pystr) (rate : Z) (samples : list Z).

(** ** The environment of a run *)

(** The state file as the script finds it.  It is there and parses to
    a value; or it is there and opening or parsing it raises; or the
    look whether it is there raises already ([Path.exists] answers
    False for a missing file and re-raises what else [stat] raises, a
    PermissionError for a directory that may not be searched). *)
Inductive file_content :=
| Unreadable (x : exn)
| Parsed (v : pyval)
| Inaccessible (x : exn).

(** A process in the table: whether this user may signal it, and how
    many polling intervals after a SIGINT it takes to be gone ([None]:
    it never goes). *)
Record proc := {
  may_signal : bool;
  exit_after : option nat;
  got_sigint : bool
}.

(** What the audio stream and the operating system deliver to the
    worker while the stream is open: a chunk (with what
    [time.monotonic()] answers in its callback, a float of seconds), or
    SIGINT/SIGTERM. *)
Inductive stream_event :=
| Chunk (clock : float) (status : bool) (indata : list Z)
| Signal (sig : signal).

Inductive fs_op := MkdirStateDir | MkdirTmpDir | WriteStateFile | UnlinkStateFile.

(** Configuration, and the part of the world the script does not
    control. [None] as a fault means the operation succeeds. *)
Record env := {
  (* configuration *)
  S2T_MAX_SECONDS : Z;
  S2T_CLIPBOARD_preserve : bool;
  S2T_CLIPBOARD_RESTORE_DELAY : float;
  S2T_AUDIO_DEVICE : option device_sel;
  TMP_DIR : pystr;
  (* the interpreter *)
  py_unicode : unicode;
  missing_modules : list pystr;
  (* the file system *)
  fs_fault : fs_op -> option exn;
  file_size : gmap pystr N;
  (* processes *)
  fork_outcome : exn + N;
  setsid_fault : option exn;
  redirect_fault : option exn;
  (* [shutil.which] finds terminal-notifier; a program that is found is
     taken to start when it is run *)
  have_terminal_notifier : bool;
  (* clocks: the timestamp of [main], and what [time.monotonic()]
     answers when the recording starts *)
  timestamp : pystr;
  start_clock : float;
  (* collaborators *)
  model_load_fault : option exn;
  whisper : pystr -> exn + list pystr;
  clipboard_read_fault : option exn;
  clipboard_copy_faults : list (option exn);
  osascript_fault : option exn;
  query_devices : exn + pystr;
  input_stream : exn + list stream_event;
  wav_write_fault : option exn
}.

(** What the script changes. *)
Record st := {
  state_file : option file_content;
  procs : gmap Z proc;
  clipboard : pystr;
  copies : nat;
  log_sink : option sink;
  stop_event : bool;
  audio_data : list (list Z);
  trace : list event
}.

(** A process as it starts: the module-level [stop_event] is unset,
    [audio_data] is empty, logging is not configured, nothing has
    happened yet. *)
Definition launch (sf : option file_content) (ps : gmap Z proc) (cb : pystr) : st :=
  {| state_file := sf; procs := ps; clipboard := cb; copies := 0%nat;
     log_sink := None; stop_event := false; audio_data := []; trace := [] |}.

Definition set_state_file (v : option file_content) (s : st) : st :=
  {| state_file := v; procs := procs s; clipboard := clipboard s;
     copies := copies s; log_sink := log_sink s; stop_event := stop_event s;
     audio_data := audio_data s; trace := trace s |}.

Definition set_procs (v : gmap Z proc) (s : st) : st :=
  {| state_file := state_file s; procs := v; clipboard := clipboard s;
     copies := copies s; log_sink := log_sink s; stop_event := stop_event s;
     audio_data := audio_data s; trace := trace s |}.

Definition set_clipboard (v : pystr) (s : st) : st :=
  {| state_file := state_file s; procs := procs s; clipboard := v;
     copies := copies s; log_sink := log_sink s; stop_event := stop_event s;
     audio_data := audio_data s; trace := trace s |}.

Definition set_copies (v : nat) (s : st) : st :=
  {| state_file := state_file s; procs := procs s; clipboard := clipboard s;
     copies := v; log_sink := log_sink s; stop_event := stop_event s;
     audio_data := audio_data s; trace := trace s |}.

Definition set_log_sink (v : option sink) (s : st) : st :=
  {| state_file := state_file s; procs := procs s; clipboard := clipboard s;
     copies := copies s; log_sink := v; stop_event := stop_event s;
     audio_data := audio_data s; trace := trace s |}.

Definition set_stop_event (v : bool) (s : st) : st :=
  {| state_file := state_file s; procs := procs s; clipboard := clipboard s;
     copies := copies s; log_sink := log_sink s; stop_event := v;
     audio_data := audio_data s; trace := trace s |}.

Definition set_audio_data (v : list (list Z)) (s : st) : st :=
  {| state_file := state_file s; procs := procs s; clipboard := clipboard s;
     copies := copies s; log_sink := log_sink s; stop_event := stop_event s;
     audio_data := v; trace := trace s |}.

Definition set_trace (v : list event) (s : st) : st :=
  {| state_file := state_file s; procs := procs s; clipboard := clipboard s;
     copies := copies s; log_sink := log_sink s; stop_event := stop_event s;
     audio_data := audio_data s; trace := v |}.

(** ** The monad of the script

    A computation reads the environment, changes the state, and ends
    in a value, in [sys.exit(code)], in an exception, or never (the
    worker waiting for a stop that does not come). *)

Inductive res (A : Type) :=
| Ret (a : A)
| Exit (code : Z)
| Raise (x : raised)
| Blocked.

Arguments Ret {A} a.
Arguments Exit {A} code.
Arguments Raise {A} x.
Arguments Blocked {A}.

Definition M (A : Type) : Type := env -> st -> res A * st.

Definition ret {A} (a : A) : M A := fun _ s => (Ret a, s).

Definition bind {A B} (m : M A) (k : A -> M B) : M B :=
  fun e s =>
    match m e s with
    | (Ret a, s') => k a e s'
    | (Exit c, s') => (Exit c, s')
    | (Raise x, s') => (Raise x, s')
    | (Blocked, s') => (Blocked, s')
    end.

Declare Scope py_scope.
Delimit Scope py_scope with py.
Notation "x <- m ; k" := (bind m (fun x => k))
  (at level 20, m at level 100, k at level 200, only parsing) : py_scope.
Notation "m ;; k" := (bind m (fun _ => k))
  (at level 100, k at level 200, only parsing, right associativity) : py_scope.
Open Scope py_scope.

Definition ask : M env := fun e s => (Ret e, s).
Definition get : M st := fun _ s => (Ret s, s).
Definition modify (f : st -> st) : M unit := fun _ s => (Ret tt, f s).
Definition sys_exit {A} (code : Z) : M A := fun _ s => (Exit code, s).
Definition raise {A} (x : exn) : M A := fun _ s => (Raise (Exception x), s).
Definition blocked {A} : M A := fun _ s => (Blocked, s).

(** [try: m  except ...: h]: the handler answers [None] for an
    exception no clause matches; [sys.exit] passes through. *)
Definition try_except {A} (m : M A) (h : raised -> option (M A)) : M A :=
  fun e s =>
    match m e s with
    | (Raise x, s') =>
        match h x with
        | Some k => k e s'
        | None => (Raise x, s')
        end
    | r => r
    end.

(** The clause [except Exception as x]. *)
Definition except_Exception {A} (k : exn -> M A) : raised -> option (M A) :=
  fun r => match r with Exception x => Some (k x) | KeyboardInterrupt => None end.

(** The clause [except ProcessLookupError]. *)
Definition except_ProcessLookupError {A} (k : M A) : raised -> option (M A) :=
  fun r => match r with Exception ProcessLookupError => Some k | _ => None end.

(** The clause [except KeyboardInterrupt]. *)
Definition except_KeyboardInterrupt {A} (k : M A) : raised -> option (M A) :=
  fun r => match r with KeyboardInterrupt => Some k | _ => None end.

(** Two clauses of one [try], tried in order. *)
Definition or_else {A} (h1 h2 : raised -> option (M A)) : raised -> option (M A) :=
  fun r => match h1 r with Some k => Some k | None => h2 r end.

Definition when (b : bool) (m : M unit) : M unit := if b then m else ret tt.

Definition emit (ev : event) : M unit :=
  modify (fun s => set_trace (trace s ++ [ev]) s).

Definition logging (l : level) (m : logmsg) : M unit := emit (EvLog l m).

(** An outside operation that may fail. *)
Definition attempt (fault : option exn) : M unit :=
  match fault with
  | Some x => raise x
  | None => ret tt
  end.

(** ** Library calls *)

(** [Path.mkdir(parents=True, exist_ok=True)] *)
Definition mkdir (d : fs_op) : M unit :=
  e <- ask; attempt (fs_fault e d).

(** [operator.index]: what [os.kill] accepts as a pid. *)
Definition as_index (v : pyval) : option Z :=
  match v with
  | PInt z => Some z
  | PBool b => Some (if b then 1 else 0)
  | _ => None
  end.

Definition fits_pid_t (z : Z) : bool := (- 2 ^ 31 <=? z) && (z <? 2 ^ 31).

Definition mark_signalled (p : proc) : proc :=
  {| may_signal := may_signal p; exit_after := exit_after p; got_sigint := true |}.

(** [os.kill(pid, sig)]: TypeError for what is not an integer,
    OverflowError for what does not fit a pid_t, ProcessLookupError
    when nothing answers to [pid], PermissionError when this user may
    not signal it.  (A negative [pid] names a process group; the table
    has an entry for whatever can be signalled.) *)
Definition os_kill (pid : pyval) (sig : signal) : M unit :=
  match as_index pid with
  | None => raise TypeError
  | Some z =>
      if fits_pid_t z then
        emit (EvKill z sig);;
        s <- get;
        match procs s !! z with
        | None => raise ProcessLookupError
        | Some p =>
            if may_signal p then
              match sig with
              | SIG0 => ret tt
              | _ => modify (set_procs (<[z := mark_signalled p]> (procs s)))
              end
            else raise PermissionError
        end
      else raise OverflowError
  end.

(** One polling interval in the life of a process. *)
Definition tick (p : proc) : option proc :=
  if got_sigint p then
    match exit_after p with
    | Some O => None
    | Some (S n) =>
        Some {| may_signal := may_signal p; exit_after := Some n; got_sigint := true |}
    | None => Some p
    end
  else Some p.

(** What [time.sleep(seconds)] raises for a float, before it sleeps.
    A NaN is refused with ValueError.  The length is scaled to
    nanoseconds, a float product, and has to fit the 64-bit range of
    the clock, or OverflowError is raised.  A negative length is
    refused with ValueError. *)
Definition sleep_fault (seconds : float) : option exn :=
  if PrimFloat.is_nan seconds then Some ValueError
  else
    let ns := PrimFloat.mul seconds 1e9%float in
    if PrimFloat.ltb ns (-9223372036854775808)%float
       || PrimFloat.leb 9223372036854775808%float ns
    then Some OverflowError
    else if PrimFloat.ltb ns 0%float then Some ValueError
    else None.

(** [time.sleep]: the polling interval is the constant 0.1; the delay
    before the clipboard is restored is [S2T_CLIPBOARD_RESTORE_DELAY],
    whatever float the configuration gave. *)
Definition time_sleep (p : pause) : M unit :=
  emit (EvSleep p);;
  match p with
  | PollInterval => modify (fun s => set_procs (omap tick (procs s)) s)
  | RestoreDelay => e <- ask; attempt (sleep_fault (S2T_CLIPBOARD_RESTORE_DELAY e))
  end.

(** [os.fork()]: 0 in the child, the child's pid in the parent. *)
Definition os_fork : M Z :=
  emit EvFork;;
  e <- ask;
  match fork_outcome e with
  | inl x => raise x
  | inr n => ret (Z.of_N n)
  end.

Definition os_setsid : M unit :=
  emit EvSetsid;; e <- ask; attempt (setsid_fault e).

(** The [os.open]/[os.dup2]/[os.close] block of the child. *)
Definition redirect_stdio : M unit :=
  emit EvRedirectStdio;; e <- ask; attempt (redirect_fault e).

(** [Path(v)]; the path is kept as the string it was built from. *)
Definition Path (v : pyval) : M pystr :=
  match v with
  | PStr s => ret s
  | _ => raise TypeError
  end.

Definition Path_exists (p : pystr) : M bool :=
  emit (EvProbe p);;
  e <- ask; ret (bool_decide (is_Some (file_size e !! p))).

(** [p.stat().st_size] *)
Definition Path_stat_size (p : pystr) : M N :=
  e <- ask;
  match file_size e !! p with
  | Some n => ret n
  | None => raise OSError
  end.

(** [state.get(key)]: the value under [key], [None] without one.  A
    dictionary has each key once; should the list repeat one, its first
    entry counts. *)
Fixpoint assoc (key : pystr) (d : list (pystr * pyval)) : pyval :=
  match d with
  | [] => PNone
  | (k, v) :: d' => if bool_decide (k = key) then v else assoc key d'
  end.

Definition dict_get (state : pyval) (key : pystr) : M pyval :=
  match state with
  | PDict d => ret (assoc key d)
  | _ => raise AttributeError
  end.

Definition pyperclip_paste : M pystr :=
  e <- ask; attempt (clipboard_read_fault e);;
  s <- get; ret (clipboard s).

(** [pyperclip.copy(text)]; the n-th call of the run fails as the
    environment says. *)
Definition pyperclip_copy (text : pystr) : M unit :=
  emit (EvClipboardCopy text);;
  e <- ask; s <- get;
  modify (set_copies (S (copies s)));;
  attempt (mjoin (clipboard_copy_faults e !! copies s));;
  modify (set_clipboard text).

(** ** The script *)

(** [logging.basicConfig] does nothing once the root logger has a
    handler. *)
Definition setup_logging (daemon : bool) : M unit :=
  modify (fun s =>
    match log_sink s with
    | Some _ => s
    | None => set_log_sink (Some (if daemon then LogFile else Stderr)) s
    end).

(** [notify(title, message)]: the notification through osascript; any
    failure is swallowed. *)
Definition notify : M unit :=
  try_except (emit EvOsascriptNotify;; e <- ask; attempt (osascript_fault e))
    (except_Exception (fun _ => ret tt)).

(** [notify_start]: through terminal-notifier when [shutil.which]
    finds it, through osascript otherwise.  The call of
    terminal-notifier is outside every [try]; with [check=False] it
    raises only when the program cannot be started, which the
    environment leaves out for a program that was just found. *)
Definition notify_start : M unit :=
  e <- ask;
  if have_terminal_notifier e then emit (EvTerminalNotifier false)
  else notify.

(** [notify_end]; the call is as in [notify_start]. *)
Definition notify_end : M unit :=
  e <- ask;
  when (have_terminal_notifier e) (emit (EvTerminalNotifier true)).

(** [STATE_FILE.exists()] *)
Definition STATE_FILE_exists : M bool :=
  s <- get;
  match state_file s with
  | None => ret false
  | Some (Inaccessible x) => raise x
  | Some _ => ret true
  end.

(** [open(STATE_FILE)] followed by [json.load]. *)
Definition json_load : M pyval :=
  s <- get;
  match state_file s with
  | Some (Parsed v) => ret v
  | Some (Unreadable x) => raise x
  | Some (Inaccessible x) => raise x
  | None => raise OSError
  end.

(** [read_state]: the look whether the file is there comes before the
    [try]. *)
Definition read_state : M pyval :=
  present <- STATE_FILE_exists;
  if negb present then ret PNone
  else
    try_except json_load
      (except_Exception (fun x =>
         logging ERROR (MsgFailedToReadState x);; ret PNone)).

(** The dictionary [write_state] dumps, as [json.load] gives it back. *)
Definition session (pid : Z) (wav_path : pystr) : pyval :=
  PDict [(py "pid", PInt pid); (py "wav_path", PStr wav_path)].

(** [write_state]; a failing write leaves the file as it was. *)
Definition write_state (pid : Z) (wav_path : pystr) : M unit :=
  mkdir MkdirStateDir;;
  try_except
    (emit (EvStateWrite pid wav_path);;
     e <- ask; attempt (fs_fault e WriteStateFile);;
     modify (set_state_file (Some (Parsed (session pid wav_path)))))
    (except_Exception (fun x =>
       logging ERROR (MsgFailedToWriteState x);; sys_exit 1)).

(** [clear_state]: the look whether the file is there and the unlink
    are both inside the [try]; what either raises is logged and
    swallowed. *)
Definition clear_state : M unit :=
  try_except
    (present <- STATE_FILE_exists;
     when present
       (emit EvStateUnlink;;
        e <- ask; attempt (fs_fault e UnlinkStateFile);;
        modify (set_state_file None)))
    (except_Exception (fun x => logging ERROR (MsgFailedToClearState x))).

(** [check_dependencies]: the environment says which of the four
    imports fail. *)
Definition check_dependencies : M unit :=
  e <- ask;
  let missing := missing_modules e in
  when (negb (bool_decide (missing = [])))
    (logging ERROR (MsgMissingDependencies missing);;
     logging ERROR (MsgInstallWith missing);;
     sys_exit 1).

Definition SAMPLE_RATE : Z := 16000.

(** The timer test of the callback,
    [time.monotonic() - start_time >= S2T_MAX_SECONDS]: a float
    subtraction, then the comparison with the integer. *)
Definition timer_expired (start_time clock : float) (max_seconds : Z) : bool :=
  float_ge_int (PrimFloat.sub clock start_time) max_seconds.

(** [signal_handler] *)
Definition signal_handler (sig : signal) : M unit :=
  emit (EvStopSet false);; modify (set_stop_event true).

(** The [callback] closure of [record_audio]; [timer_triggered] is its
    nonlocal flag, passed in and handed back. *)
Definition callback (start_time : float) (timer_triggered : bool)
    (clock : float) (status : bool) (indata : list Z) : M bool :=
  when status (logging WARNING MsgAudioStatus);;
  e <- ask;
  if (0 <? S2T_MAX_SECONDS e) && negb timer_triggered
     && timer_expired start_time clock (S2T_MAX_SECONDS e)
  then
    emit (EvStopSet true);; modify (set_stop_event true);;
    logging INFO (MsgMaxRecordingTimeReached (S2T_MAX_SECONDS e));;
    ret true
  else
    s <- get;
    when (negb (stop_event s))
      (modify (set_audio_data (audio_data s ++ [indata])));;
    ret timer_triggered.

(** What happens while the stream is open and the main thread sleeps
    in its waiting loop: callbacks and signal handlers, in order.  The
    result is the final value of [timer_triggered]. *)
Fixpoint pump (start_time : float) (timer_triggered : bool)
    (evs : list stream_event) : M bool :=
  match evs with
  | [] => ret timer_triggered
  | Chunk clock status indata :: evs' =>
      t <- callback start_time timer_triggered clock status indata;
      pump start_time t evs'
  | Signal sig :: evs' =>
      signal_handler sig;; pump start_time timer_triggered evs'
  end.

(** [while not stop_event.is_set(): time.sleep(0.1)], once the stream
    has nothing more to deliver. *)
Definition wait_for_stop : M unit :=
  s <- get; if stop_event s then ret tt else blocked.

(** The logging of the selected device, with its own [try]. *)
Definition log_device : M unit :=
  e <- ask;
  try_except
    (match query_devices e with
     | inl x => raise x
     | inr name =>
         match S2T_AUDIO_DEVICE e with
         | None => logging INFO (MsgUsingDefaultInputDevice name)
         | Some _ => logging INFO (MsgUsingInputDevice name)
         end
     end)
    (except_Exception (fun x => logging WARNING (MsgCouldNotQueryDevice x))).

(** [scipy.io.wavfile.write] *)
Definition wav_write (wav_path : pystr) (rate : Z) (samples : list Z) : M unit :=
  emit (EvWavWrite wav_path rate samples);;
  e <- ask; attempt (wav_write_fault e).

(** [record_audio].  The two [signal.signal] calls are what makes a
    [Signal] of the stream run [signal_handler]; the device selector is
    taken as already parsed. *)
Definition record_audio (wav_path : pystr) : M unit :=
  modify (set_audio_data []);;
  e <- ask;
  let start_time := start_clock e in
  log_device;;
  try_except
    (match input_stream e with
     | inl x => raise x
     | inr evs =>
         logging INFO (MsgRecordingTo wav_path);;
         (if 0 <? S2T_MAX_SECONDS e
          then logging INFO (MsgMaxDuration (S2T_MAX_SECONDS e))
          else logging INFO MsgMaxDurationUnlimited);;
         pump start_time false evs;;
         wait_for_stop
     end;;
     s <- get;
     if negb (bool_decide (audio_data s = [])) then
       logging INFO MsgWritingWav;;
       wav_write wav_path SAMPLE_RATE (concat (audio_data s));;
       logging INFO (MsgRecordingSaved wav_path)
     else logging WARNING MsgNoAudioData)
    (except_Exception (fun x =>
       logging ERROR (MsgRecordingError x);; sys_exit 1)).

(** [daemonize_and_record]: the parent and the child run the same
    code and differ in what [os.fork] answered. *)
Definition daemonize_and_record (wav_path : pystr) : M unit :=
  mkdir MkdirTmpDir;;
  pid <- os_fork;
  when (0 <? pid)
    (write_state pid wav_path;;
     notify_start;;
     logging INFO MsgRecordingStarted;;
     sys_exit 0);;
  try_except
    (os_setsid;;
     setup_logging true;;
     redirect_stdio;;
     record_audio wav_path)
    (except_Exception (fun x =>
       logging ERROR (MsgDaemonError x);; sys_exit 1)).

(** The [for _ in range(n)] loop of [stop_daemon] and what follows it. *)
Fixpoint poll (pid : pyval) (n : nat) : M bool :=
  match n with
  | O => logging WARNING MsgDaemonDidNotExit;; ret false
  | S n' =>
      gone <- try_except
                (os_kill pid SIG0;; time_sleep PollInterval;; ret false)
                (except_ProcessLookupError (ret true));
      if gone : bool then ret true else poll pid n'
  end.

(** [stop_daemon]; [pid] is whatever the state file held. *)
Definition stop_daemon (pid : pyval) : M bool :=
  try_except
    (os_kill pid SIGINT;; poll pid 50)
    (or_else
       (except_ProcessLookupError (ret true))
       (except_Exception (fun x =>
          logging ERROR (MsgFailedToStopDaemon x);; ret false))).

(** [transcribe]: loading the model and running it may each raise. *)
Definition transcribe (wav_path : pystr) : M pystr :=
  emit (EvTranscribe wav_path);;
  e <- ask;
  logging INFO MsgLoadingModel;;
  attempt (model_load_fault e);;
  logging INFO MsgTranscribing;;
  match whisper e wav_path with
  | inl x => raise x
  | inr text_parts =>
      let text := Str.strip (py_unicode e) (concat text_parts) in
      (if (100 <? length text)%nat
       then logging INFO (MsgTranscription (take 100 text) true)
       else logging INFO (MsgTranscription text false));;
      ret text
  end.

(** [paste_text] *)
Definition paste_text (text : pystr) : M unit :=
  e <- ask;
  saved_clipboard <-
    (if S2T_CLIPBOARD_preserve e then
       try_except (c <- pyperclip_paste; ret (Some c))
         (except_Exception (fun _ => ret None))
     else ret None);
  pyperclip_copy text;;
  try_except (emit EvKeystroke;; attempt (osascript_fault e))
    (except_Exception (fun x => logging WARNING (MsgFailedToPaste x)));;
  match saved_clipboard with
  | Some c =>
      time_sleep RestoreDelay;;
      try_except (pyperclip_copy c) (except_Exception (fun _ => ret tt))
  | None => ret tt
  end.

(** [main].  [state.get] raises AttributeError on what is not a
    dictionary; [Path(wav_path)] raises TypeError on what is not a
    string. *)
Definition main : M unit :=
  setup_logging false;;
  check_dependencies;;
  mkdir MkdirStateDir;;
  mkdir MkdirTmpDir;;
  state <- read_state;
  if negb (is_none state) then
    pid <- dict_get state (py "pid");
    wav_path <- dict_get state (py "wav_path");
    when (negb (truthy pid) || negb (truthy wav_path))
      (logging ERROR MsgInvalidStateFile;;
       clear_state;;
       sys_exit 1);;
    logging INFO MsgStoppingRecording;;
    stop_daemon pid;;
    clear_state;;
    notify_end;;
    wav_file <- Path wav_path;
    present <- Path_exists wav_file;
    when (negb present)
      (logging ERROR MsgRecordingFileMissing;; sys_exit 1);;
    size <- Path_stat_size wav_file;
    when (size =? 0)%N
      (logging ERROR MsgRecordingFileEmpty;; sys_exit 1);;
    text <- transcribe wav_file;
    e <- ask;
    when (is_blank_audio (py_unicode e) text)
      (logging INFO MsgBlankAudio;; sys_exit 0);;
    paste_text text;;
    logging INFO MsgDone;;
    sys_exit 0
  else
    e <- ask;
    let wav_path := TMP_DIR e ++ py "/rec-" ++ timestamp e ++ py ".wav" in
    daemonize_and_record wav_path.

(** The [if __name__ == "__main__"] block. *)
Definition script : M unit :=
  try_except main
    (or_else
       (except_KeyboardInterrupt (sys_exit 130))
       (except_Exception (fun x =>
          logging ERROR (MsgError x);; sys_exit 1))).

(** The exit status of the process: falling off the end is 0, an
    exception nobody caught is 1, a blocked process has none. *)
Definition exit_status {A} (r : res A) : option Z :=
  match r with
  | Ret _ => Some 0
  | Exit c => Some c
  | Raise _ => Some 1
  | Blocked => None
  end.

Definition run (e : env) (s : st) : option Z * st :=
  let (r, s') := script e s in (exit_status r, s').

(** ** Sample environments *)

(** An environment in which every outside operation succeeds: [sizes]
    are the files on disk, [fk] is what [os.fork] answers, [parts] are
    the segments the transcription returns, [evs] is what the audio
    stream delivers.  The restore delay is the default, the double
    nearest to 0.15. *)
Definition calm (sizes : gmap pystr N) (fk : N) (parts : list pystr)
    (evs : list stream_event) : env :=
  {| S2T_MAX_SECONDS := 300;
     S2T_CLIPBOARD_preserve := false;
     S2T_CLIPBOARD_RESTORE_DELAY := 0x1.3333333333333p-3%float;
     S2T_AUDIO_DEVICE := None;
     TMP_DIR := py "/tmp/s2t";
     py_unicode := ascii_only;
     missing_modules := [];
     fs_fault := fun _ => None;
     file_size := sizes;
     fork_outcome := inr fk;
     setsid_fault := None;
     redirect_fault := None;
     have_terminal_notifier := false;
     timestamp := py "20240101-120000";
     start_clock := 0%float;
     model_load_fault := None;
     whisper := fun _ => inr parts;
     clipboard_read_fault := None;
     clipboard_copy_faults := [];
     osascript_fault := None;
     query_devices := inr (py "Built-in Microphone");
     input_stream := inr evs;
     wav_write_fault := None |}.

Definition with_max_seconds (d : Z) (e : env) : env :=
  {| S2T_MAX_SECONDS := d;
     S2T_CLIPBOARD_preserve := S2T_CLIPBOARD_preserve e;
     S2T_CLIPBOARD_RESTORE_DELAY := S2T_CLIPBOARD_RESTORE_DELAY e;
     S2T_AUDIO_DEVICE := S2T_AUDIO_DEVICE e;
     TMP_DIR := TMP_DIR e;
     py_unicode := py_unicode e;
     missing_modules := missing_modules e;
     fs_fault := fs_fault e;
     file_size := file_size e;
     fork_outcome := fork_outcome e;
     setsid_fault := setsid_fault e;
     redirect_fault := redirect_fault e;
     have_terminal_notifier := have_terminal_notifier e;
     timestamp := timestamp e;
     start_clock := start_clock e;
     model_load_fault := model_load_fault e;
     whisper := whisper e;
     clipboard_read_fault := clipboard_read_fault e;
     clipboard_copy_faults := clipboard_copy_faults e;
     osascript_fault := osascript_fault e;
     query_devices := query_devices e;
     input_stream := input_stream e;
     wav_write_fault := wav_write_fault e |}.

(** The delivery step misbehaves: the clipboard is to be preserved,
    reading it fails as [rd] says, the copies fail as [cp] says, the
    keystroke fails as [ks] says. *)
Definition with_delivery (preserve : bool) (rd : option exn)
    (cp : list (option exn)) (ks : option exn) (e : env) : env :=
  {| S2T_MAX_SECONDS := S2T_MAX_SECONDS e;
     S2T_CLIPBOARD_preserve := preserve;
     S2T_CLIPBOARD_RESTORE_DELAY := S2T_CLIPBOARD_RESTORE_DELAY e;
     S2T_AUDIO_DEVICE := S2T_AUDIO_DEVICE e;
     TMP_DIR := TMP_DIR e;
     py_unicode := py_unicode e;
     missing_modules := missing_modules e;
     fs_fault := fs_fault e;
     file_size := file_size e;
     fork_outcome := fork_outcome e;
     setsid_fault := setsid_fault e;
     redirect_fault := redirect_fault e;
     have_terminal_notifier := have_terminal_notifier e;
     timestamp := timestamp e;
     start_clock := start_clock e;
     model_load_fault := model_load_fault e;
     whisper := whisper e;
     clipboard_read_fault := rd;
     clipboard_copy_faults := cp;
     osascript_fault := ks;
     query_devices := query_devices e;
     input_stream := input_stream e;
     wav_write_fault := wav_write_fault e |}.

(** A worker that honours SIGINT after [n] polling intervals. *)
Definition worker (n : nat) : proc :=
  {| may_signal := true; exit_after := Some n; got_sigint := false |}.

(** A worker that ignores SIGINT. *)
Definition stuck_worker : proc :=
  {| may_signal := true; exit_after := None; got_sigint := false |}.

(** Somebody else's process. *)
Definition foreign_process : proc :=
  {| may_signal := false; exit_after := None; got_sigint := false |}.

(** ** Reading the outcome of a run *)

(** The events of a trace that satisfy [q]. *)
Definition only (q : event -> bool) (t : list event) : list event :=
  List.filter q t.

Definition is_fork (ev : event) : bool :=
  match ev with EvFork => true | _ => false end.

Definition is_state_write (ev : event) : bool :=
  match ev with EvStateWrite _ _ => true | _ => false end.

Definition is_transcribe (ev : event) : bool :=
  match ev with EvTranscribe _ => true | _ => false end.

Definition is_timer_stop (ev : event) : bool :=
  match ev with EvStopSet true => true | _ => false end.

Definition is_wav_write (ev : event) : bool :=
  match ev with EvWavWrite _ _ _ => true | _ => false end.

Definition is_log (ev : event) : bool :=
  match ev with EvLog _ _ => true | _ => false end.

(** The two events of a start: the fork and the writing of a session. *)
Definition is_start_event (ev : event) : bool := is_fork ev || is_state_write ev.

(** The events the callback and the signal handler can add to the
    trace. *)
Definition capture_event (ev : event) : bool :=
  match ev with
  | EvStopSet _ => true
  | EvLog WARNING MsgAudioStatus => true
  | EvLog INFO (MsgMaxRecordingTimeReached _) => true
  | _ => false
  end.

(** The session, the audio file and the worker of the sample runs. *)
Definition sample_wav : pystr := py "/tmp/s2t/rec-20240101-115900.wav".

Definition sample_session : option file_content :=
  Some (Parsed (session 4242 sample_wav)).

(** Neither the timer raising the stop nor the writing of the file. *)
Definition quiet_event (ev : event) : bool :=
  negb (is_timer_stop ev) && negb (is_wav_write ev).

(** A worker that has received SIGINT and goes after [n] more polling
    intervals. *)
Definition leaving (n : nat) : proc :=
  {| may_signal := true; exit_after := Some n; got_sigint := true |}.

(** A worker that has received SIGINT and ignores it. *)
Definition lingering : proc :=
  {| may_signal := true; exit_after := None; got_sigint := true |}.

Definition sample_table : gmap Z proc := {[ 4242 := worker 3 ]}.

(** Nothing on disk; [os.fork] answers 4242. *)
Definition bare_env : env := calm ∅ 4242 [] [].

(** The audio file is there and transcribes to two words. *)
Definition stop_env : env :=
  calm {[ sample_wav := 1000%N ]} 0 [py " hello there "] [].

(** As [stop_env], with a delivery step in which the keystroke and the
    restoring of the clipboard fail. *)
Definition flaky_delivery_env : env :=
  with_delivery true None [None; Some PyperclipException] (Some OSError) stop_env.

(** The clock readings 0.3 and 2.3 as [time.monotonic()] gives them:
    the doubles nearest to these two numbers. *)
Definition clock_0_3 : float := 0x1.3333333333333p-2%float.
Definition clock_2_3 : float := 0x1.2666666666666p+1%float.

(** A recording capped at two seconds that starts at the reading 0.3.
    Three chunks come while the timer test fails, the last of them at
    the reading 2.3, where the float difference is
    1.9999999999999998; the chunk at 2.5 trips the timer; one more
    chunk and a signal follow. *)
Definition sample_pre : list stream_event :=
  [Chunk 1%float false [1; 2]; Chunk 1.5%float true [3]; Chunk clock_2_3 false [4]].

Definition sample_post : list stream_event :=
  [Chunk 2.75%float false [6]; Signal SIGINT].

Definition with_start_clock (t0 : float) (e : env) : env :=
  {| S2T_MAX_SECONDS := S2T_MAX_SECONDS e;
     S2T_CLIPBOARD_preserve := S2T_CLIPBOARD_preserve e;
     S2T_CLIPBOARD_RESTORE_DELAY := S2T_CLIPBOARD_RESTORE_DELAY e;
     S2T_AUDIO_DEVICE := S2T_AUDIO_DEVICE e;
     TMP_DIR := TMP_DIR e;
     py_unicode := py_unicode e;
     missing_modules := missing_modules e;
     fs_fault := fs_fault e;
     file_size := file_size e;
     fork_outcome := fork_outcome e;
     setsid_fault := setsid_fault e;
     redirect_fault := redirect_fault e;
     have_terminal_notifier := have_terminal_notifier e;
     timestamp := timestamp e;
     start_clock := t0;
     model_load_fault := model_load_fault e;
     whisper := whisper e;
     clipboard_read_fault := clipboard_read_fault e;
     clipboard_copy_faults := clipboard_copy_faults e;
     osascript_fault := osascript_fault e;
     query_devices := query_devices e;
     input_stream := input_stream e;
     wav_write_fault := wav_write_fault e |}.

(** As [e], with [S2T_CLIPBOARD_RESTORE_DELAY] set to [d]. *)
Definition with_restore_delay (d : float) (e : env) : env :=
  {| S2T_MAX_SECONDS := S2T_MAX_SECONDS e;
     S2T_CLIPBOARD_preserve := S2T_CLIPBOARD_preserve e;
     S2T_CLIPBOARD_RESTORE_DELAY := d;
     S2T_AUDIO_DEVICE := S2T_AUDIO_DEVICE e;
     TMP_DIR := TMP_DIR e;
     py_unicode := py_unicode e;
     missing_modules := missing_modules e;
     fs_fault := fs_fault e;
     file_size := file_size e;
     fork_outcome := fork_outcome e;
     setsid_fault := setsid_fault e;
     redirect_fault := redirect_fault e;
     have_terminal_notifier := have_terminal_notifier e;
     timestamp := timestamp e;
     start_clock := start_clock e;
     model_load_fault := model_load_fault e;
     whisper := whisper e;
     clipboard_read_fault := clipboard_read_fault e;
     clipboard_copy_faults := clipboard_copy_faults e;
     osascript_fault := osascript_fault e;
     query_devices := query_devices e;
     input_stream := input_stream e;
     wav_write_fault := wav_write_fault e |}.

Definition is_keystroke (ev : event) : bool :=
  match ev with EvKeystroke => true | _ => false end.

Definition capped_env : env :=
  with_start_clock clock_0_3
    (with_max_seconds 2
       (calm ∅ 0 [] (sample_pre ++ Chunk 2.5%float false [5] :: sample_post))).

(** What the delivery step adds to the trace when the text gets onto
    the clipboard: the copy and the keystroke; a warning when the
    keystroke fails; the delayed copy of the previous clipboard when it
    was to be preserved and could be read.  A failure to read or to
    restore the previous clipboard adds nothing. *)
Definition delivery_events (e : env) (text previous : pystr) : list event :=
  [EvClipboardCopy text; EvKeystroke]
  ++ match osascript_fault e with
     | Some x => [EvLog WARNING (MsgFailedToPaste x)]
     | None => []
     end
  ++ (if S2T_CLIPBOARD_preserve e
      then match clipboard_read_fault e with
           | None => [EvSleep RestoreDelay; EvClipboardCopy previous]
           | Some _ => []
           end
      else []).

(** The environment lets [main] reach its reading of the state. *)
Definition boots (e : env) : Prop :=
  missing_modules e = []
  ∧ fs_fault e MkdirStateDir = None
  ∧ fs_fault e MkdirTmpDir = None.

(** Nothing raises between the keystroke and the restoring copy: the
    previous clipboard is not to be preserved, or it could not be read
    (there is no sleep then), or the configured delay is a length that
    [time.sleep] accepts. *)
Definition restore_delay_ok (e : env) : Prop :=
  S2T_CLIPBOARD_preserve e = true -> clipboard_read_fault e = None ->
  sleep_fault (S2T_CLIPBOARD_RESTORE_DELAY e) = None.

(** The look whether the state file is there does not raise. *)
Definition accessible (s : st) : Prop :=
  ∀ x, state_file s ≠ Some (Inaccessible x).

(** A record with the two fields of a session: an integer process
    identifier and a string path, both of them usable. *)
Definition well_formed (v : pyval) (pid : Z) (wav : pystr) : Prop :=
  ∃ d, v = PDict d
       ∧ assoc (py "pid") d = PInt pid
       ∧ assoc (py "wav_path") d = PStr wav
       ∧ pid ≠ 0 ∧ wav ≠ [].

(** The key is not in the dictionary. *)
Definition lacks (key : pystr) (d : list (pystr * pyval)) : Prop :=
  key ∉ d.*1.

(** The chunks a stream delivers, in order of arrival. *)
Definition chunks_of (evs : list stream_event) : list (list Z) :=
  omap (fun ev => match ev with
                  | Chunk _ _ indata => Some indata
                  | Signal _ => None
                  end) evs.

(** The part of a stream that comes before its first signal. *)
Fixpoint before_signal (evs : list stream_event) : list stream_event :=
  match evs with
  | [] => []
  | Signal _ :: _ => []
  | ev :: evs' => ev :: before_signal evs'
  end.

(** The chunk arrives while the timer test of the callback fails: the
    elapsed time, as the callback measures it, has not reached the
    maximum. *)
Definition early (e : env) (ev : stream_event) : Prop :=
  match ev with
  | Chunk clock _ _ => timer_expired (start_clock e) clock (S2T_MAX_SECONDS e) = false
  | Signal _ => True
  end.

(** The events [stop_daemon] can add to the trace. *)
Definition stop_daemon_event (ev : event) : bool :=
  match ev with
  | EvKill _ _ => true
  | EvSleep PollInterval => true
  | EvLog WARNING MsgDaemonDidNotExit => true
  | EvLog ERROR (MsgFailedToStopDaemon _) => true
  | _ => false
  end.

(** What the stop branch can add to the trace before it looks at the
    audio file. *)
Definition stop_prefix_event (ev : event) : bool :=
  stop_daemon_event ev
  || match ev with
     | EvLog INFO MsgStoppingRecording => true
     | EvStateUnlink => true
     | EvLog ERROR (MsgFailedToClearState _) => true
     | EvTerminalNotifier true => true
     | _ => false
     end.

(** ** The parts of [main] *)

(** Everything before the state is read. *)
Definition prelude : M unit :=
  setup_logging false;;
  check_dependencies;;
  mkdir MkdirStateDir;;
  mkdir MkdirTmpDir.

(** The stop branch once the transcript is there. *)
Definition after_transcribe (text : pystr) : M unit :=
  e <- ask;
  when (is_blank_audio (py_unicode e) text)
    (logging INFO MsgBlankAudio;; sys_exit 0);;
  paste_text text;;
  logging INFO MsgDone;;
  sys_exit 0.

(** The stop branch once the audio file has been looked for. *)
Definition after_probe (wav_file : pystr) (present : bool) : M unit :=
  when (negb present)
    (logging ERROR MsgRecordingFileMissing;; sys_exit 1);;
  size <- Path_stat_size wav_file;
  when (size =? 0)%N
    (logging ERROR MsgRecordingFileEmpty;; sys_exit 1);;
  text <- transcribe wav_file;
  after_transcribe text.

(** The stop branch from the validation of the audio file on. *)
Definition validate_and_deliver (wav_path : pyval) : M unit :=
  wav_file <- Path wav_path;
  present <- Path_exists wav_file;
  after_probe wav_file present.

(** The stop branch once the record has passed the check. *)
Definition stop_pipeline (pid wav_path : pyval) : M unit :=
  logging INFO MsgStoppingRecording;;
  stop_daemon pid;;
  clear_state;;
  notify_end;;
  validate_and_deliver wav_path.

Definition reject_state : M unit :=
  logging ERROR MsgInvalidStateFile;;
  clear_state;;
  sys_exit 1.

Definition stop_path (state : pyval) : M unit :=
  pid <- dict_get state (py "pid");
  wav_path <- dict_get state (py "wav_path");
  when (negb (truthy pid) || negb (truthy wav_path)) reject_state;;
  stop_pipeline pid wav_path.

(** [daemonize_and_record] once [os.fork] has answered. *)
Definition after_fork (wav_path : pystr) (pid : Z) : M unit :=
  when (0 <? pid)
    (write_state pid wav_path;;
     notify_start;;
     logging INFO MsgRecordingStarted;;
     sys_exit 0);;
  try_except
    (os_setsid;;
     setup_logging true;;
     redirect_stdio;;
     record_audio wav_path)
    (except_Exception (fun x =>
       logging ERROR (MsgDaemonError x);; sys_exit 1)).

Definition start_path : M unit :=
  e <- ask;
  daemonize_and_record (TMP_DIR e ++ py "/rec-" ++ timestamp e ++ py ".wav").

Definition dispatch (state : pyval) : M unit :=
  if negb (is_none state) then stop_path state else start_path.

(** The state after [setup_logging(daemon=False)]. *)
Definition configured (s : st) : st :=
  match log_sink s with
  | Some _ => s
  | None => set_log_sink (Some Stderr) s
  end.

(** ** Frame reasoning

    [steps R m]: whatever the environment and however [m] ends, the
    state it leaves is related by [R] to the state it started in.  Two
    relations are used: an observation of the state is kept, and the
    trace grows by events of a given kind. *)

Definition steps {A} (R : relation st) (m : M A) : Prop :=
  ∀ e s, R s (m e s).2.

Definition handler_steps {A} (R : relation st) (h : raised -> option (M A)) : Prop :=
  ∀ r k, h r = Some k -> steps R k.

(** [m] ends in a value or in a subclass of [Exception]: it neither
    exits, nor blocks, nor is interrupted. *)
Definition soft {A} (m : M A) : Prop :=
  ∀ e s, (∃ a, (m e s).1 = Ret a) ∨ (∃ x, (m e s).1 = Raise (Exception x)).

Definition kept {X} (f : st -> X) : relation st := fun s s' => f s' = f s.

(** The trace has grown, by events that all satisfy [P]. *)
Definition emits (P : event -> bool) : relation st :=
  fun s s' => ∃ t, trace s' = trace s ++ t ∧ Forall (fun ev => P ev = true) t.

(** ** The notification script *)

Definition backslash : N := 92.
Definition double_quote : N := 34.

(** [s.replace(old, new)] for a one-character [old]. *)
Definition replace_char (old : N) (new : pystr) (s : pystr) : pystr :=
  flat_map (fun c => if (c =? old)%N then new else [c]) s.

(** The escaping at the head of [notify]: every backslash is doubled
    first, then every double quote gets a backslash in front. *)
Definition escape (s : pystr) : pystr :=
  replace_char double_quote [backslash; double_quote]
    (replace_char backslash [backslash; backslash] s).

(** The script [notify] hands to osascript. *)
Definition notify_script (title message : pystr) : pystr :=
  py "display notification " ++ [double_quote] ++ escape message ++ [double_quote]
  ++ py " with title " ++ [double_quote] ++ escape title ++ [double_quote].

(** The reading side, as AppleScript has it: what a backslash followed
    by [d] stands for inside a string literal. *)
Definition escaped_char (d : N) : option N :=
  if (d =? backslash)%N then Some backslash
  else if (d =? double_quote)%N then Some double_quote
  else if (d =? 110)%N then Some 10%N
  else if (d =? 114)%N then Some 13%N
  else if (d =? 116)%N then Some 9%N
  else None.

(** A string literal read from behind its opening quote: the text it
    denotes and what follows its closing quote. *)
Fixpoint read_literal (s : pystr) : option (pystr * pystr) :=
  match s with
  | [] => None
  | c :: s' =>
      if (c =? double_quote)%N then Some ([], s')
      else if (c =? backslash)%N then
        match s' with
        | [] => None
        | d :: s'' =>
            match escaped_char d, read_literal s'' with
            | Some d', Some (text, rest) => Some (d' :: text, rest)
            | _, _ => None
            end
        end
      else
        match read_literal s' with
        | Some (text, rest) => Some (c :: text, rest)
        | None => None
        end
  end.

(** [s] without its prefix [p], when it starts with it. *)
Fixpoint expect (p s : pystr) : option pystr :=
  match p, s with
  | [], _ => Some s
  | a :: p', b :: s' => if (a =? b)%N then expect p' s' else None
  | _ :: _, [] => None
  end.

(** The command [display notification "m" with title "t"], read back:
    the title and the message it carries. *)
Definition read_notification (script : pystr) : option (pystr * pystr) :=
  match expect (py "display notification " ++ [double_quote]) script with
  | None => None
  | Some r1 =>
      match read_literal r1 with
      | None => None
      | Some (message, r2) =>
          match expect (py " with title " ++ [double_quote]) r2 with
          | None => None
          | Some r3 =>
              match read_literal r3 with
              | Some (title, []) => Some (title, message)
              | _ => None
              end
          end
      end
  end.

(** ** More ways to read a run *)

(** The path [main] gives a new recording. *)
Definition new_wav_path (e : env) : pystr :=
  TMP_DIR e ++ py "/rec-" ++ timestamp e ++ py ".wav".

(** What [notify_start] adds to the trace. *)
Definition start_notification (e : env) : list event :=
  if have_terminal_notifier e then [EvTerminalNotifier false] else [EvOsascriptNotify].

Definition is_sigint (ev : event) : bool :=
  match ev with EvKill _ SIGINT => true | _ => false end.

(** [os.kill(pid, 0)], the look whether the process is still there. *)
Definition is_existence_check (ev : event) : bool :=
  match ev with EvKill _ SIG0 => true | _ => false end.

Definition is_poll_sleep (ev : event) : bool :=
  match ev with EvSleep PollInterval => true | _ => false end.

(** The events that touch the clipboard or the focused application. *)
Definition is_delivery (ev : event) : bool :=
  match ev with
  | EvClipboardCopy _ => true
  | EvKeystroke => true
  | _ => false
  end.

(** One round of the polling loop on a process that is still there. *)
Definition poll_round_events (pid : Z) : list event :=
  [EvKill pid SIG0; EvSleep PollInterval].

(** The chunk does not trip the timer: there is no maximum duration,
    or the timer test of the callback fails for it. *)
Definition uncut (e : env) (ev : stream_event) : Prop :=
  S2T_MAX_SECONDS e <= 0 ∨ early e ev.

Definition has_signal (evs : list stream_event) : bool :=
  existsb (fun ev => match ev with Signal _ => true | Chunk _ _ _ => false end) evs.

(** The ways an invocation may end without waiting for anything: a
    value, status 0 or 1, or a subclass of [Exception] on its way to the
    main block. *)
Definition tame {A} (r : res A) : Prop :=
  match r with
  | Ret _ => True
  | Exit c => c = 0 ∨ c = 1
  | Raise (Exception _) => True
  | Raise KeyboardInterrupt => False
  | Blocked => False
  end.

Definition tamed {A} (e : env) (m : M A) : Prop := ∀ s, tame (m e s).1.

(** Logging, once configured, stays as it is. *)
Definition sink_stays : relation st :=
  fun s s' => ∀ k, log_sink s = Some k -> log_sink s' = Some k.

(** Once the stop is set it stays set, and the buffer is left alone. *)
Definition frozen : relation st :=
  fun s s' => stop_event s = true ->
              stop_event s' = true ∧ audio_data s' = audio_data s.

(** The buffer keeps what it has. *)
Definition buffer_grows : relation st :=
  fun s s' => audio_data s `prefix_of` audio_data s'.

(** What an [os.kill] call of an invocation may be given: [target] as
    its first argument, SIGINT or the existence check as its second. *)
Definition signals_only (target : option Z) (ev : event) : bool :=
  match ev with
  | EvKill p sig =>
      match target, sig with
      | Some z, SIGINT => bool_decide (p = z)
      | Some z, SIG0 => bool_decide (p = z)
      | _, _ => false
      end
  | _ => true
  end.

(** The pid value of a stored record as [os.kill] will take it, if
    any.  It is passed on as it is: a positive one names a process, a
    negative one a process group, -1 every process the user may
    signal. *)
Definition recorded_pid (sf : option file_content) : option Z :=
  match sf with
  | Some (Parsed (PDict d)) => as_index (assoc (py "pid") d)
  | _ => None
  end.

(** The previous clipboard comes back: it is to be preserved, it could
    be read, and the copy after [first_copy] goes through. *)
Definition restored (e : env) (first_copy : nat) : bool :=
  S2T_CLIPBOARD_preserve e
  && match clipboard_read_fault e with None => true | Some _ => false end
  && match mjoin (clipboard_copy_faults e !! S first_copy) with
     | None => true
     | Some _ => false
     end.

(** ** More sample environments *)

Definition with_fs (f : fs_op -> option exn) (e : env) : env :=
  {| S2T_MAX_SECONDS := S2T_MAX_SECONDS e;
     S2T_CLIPBOARD_preserve := S2T_CLIPBOARD_preserve e;
     S2T_CLIPBOARD_RESTORE_DELAY := S2T_CLIPBOARD_RESTORE_DELAY e;
     S2T_AUDIO_DEVICE := S2T_AUDIO_DEVICE e;
     TMP_DIR := TMP_DIR e;
     py_unicode := py_unicode e;
     missing_modules := missing_modules e;
     fs_fault := f;
     file_size := file_size e;
     fork_outcome := fork_outcome e;
     setsid_fault := setsid_fault e;
     redirect_fault := redirect_fault e;
     have_terminal_notifier := have_terminal_notifier e;
     timestamp := timestamp e;
     start_clock := start_clock e;
     model_load_fault := model_load_fault e;
     whisper := whisper e;
     clipboard_read_fault := clipboard_read_fault e;
     clipboard_copy_faults := clipboard_copy_faults e;
     osascript_fault := osascript_fault e;
     query_devices := query_devices e;
     input_stream := input_stream e;
     wav_write_fault := wav_write_fault e |}.

Definition with_processes (fk : exn + N) (setsid redirect : option exn) (e : env) : env :=
  {| S2T_MAX_SECONDS := S2T_MAX_SECONDS e;
     S2T_CLIPBOARD_preserve := S2T_CLIPBOARD_preserve e;
     S2T_CLIPBOARD_RESTORE_DELAY := S2T_CLIPBOARD_RESTORE_DELAY e;
     S2T_AUDIO_DEVICE := S2T_AUDIO_DEVICE e;
     TMP_DIR := TMP_DIR e;
     py_unicode := py_unicode e;
     missing_modules := missing_modules e;
     fs_fault := fs_fault e;
     file_size := file_size e;
     fork_outcome := fk;
     setsid_fault := setsid;
     redirect_fault := redirect;
     have_terminal_notifier := have_terminal_notifier e;
     timestamp := timestamp e;
     start_clock := start_clock e;
     model_load_fault := model_load_fault e;
     whisper := whisper e;
     clipboard_read_fault := clipboard_read_fault e;
     clipboard_copy_faults := clipboard_copy_faults e;
     osascript_fault := osascript_fault e;
     query_devices := query_devices e;
     input_stream := input_stream e;
     wav_write_fault := wav_write_fault e |}.

Definition with_modules (missing : list pystr) (e : env) : env :=
  {| S2T_MAX_SECONDS := S2T_MAX_SECONDS e;
     S2T_CLIPBOARD_preserve := S2T_CLIPBOARD_preserve e;
     S2T_CLIPBOARD_RESTORE_DELAY := S2T_CLIPBOARD_RESTORE_DELAY e;
     S2T_AUDIO_DEVICE := S2T_AUDIO_DEVICE e;
     TMP_DIR := TMP_DIR e;
     py_unicode := py_unicode e;
     missing_modules := missing;
     fs_fault := fs_fault e;
     file_size := file_size e;
     fork_outcome := fork_outcome e;
     setsid_fault := setsid_fault e;
     redirect_fault := redirect_fault e;
     have_terminal_notifier := have_terminal_notifier e;
     timestamp := timestamp e;
     start_clock := start_clock e;
     model_load_fault := model_load_fault e;
     whisper := whisper e;
     clipboard_read_fault := clipboard_read_fault e;
     clipboard_copy_faults := clipboard_copy_faults e;
     osascript_fault := osascript_fault e;
     query_devices := query_devices e;
     input_stream := input_stream e;
     wav_write_fault := wav_write_fault e |}.

Definition with_collaborators (load : option exn) (w : pystr -> exn + list pystr)
    (stream : exn + list stream_event) (e : env) : env :=
  {| S2T_MAX_SECONDS := S2T_MAX_SECONDS e;
     S2T_CLIPBOARD_preserve := S2T_CLIPBOARD_preserve e;
     S2T_CLIPBOARD_RESTORE_DELAY := S2T_CLIPBOARD_RESTORE_DELAY e;
     S2T_AUDIO_DEVICE := S2T_AUDIO_DEVICE e;
     TMP_DIR := TMP_DIR e;
     py_unicode := py_unicode e;
     missing_modules := missing_modules e;
     fs_fault := fs_fault e;
     file_size := file_size e;
     fork_outcome := fork_outcome e;
     setsid_fault := setsid_fault e;
     redirect_fault := redirect_fault e;
     have_terminal_notifier := have_terminal_notifier e;
     timestamp := timestamp e;
     start_clock := start_clock e;
     model_load_fault := load;
     whisper := w;
     clipboard_read_fault := clipboard_read_fault e;
     clipboard_copy_faults := clipboard_copy_faults e;
     osascript_fault := osascript_fault e;
     query_devices := query_devices e;
     input_stream := stream;
     wav_write_fault := wav_write_fault e |}.

(** The state file cannot be written. *)
Definition read_only_fs (op : fs_op) : option exn :=
  match op with WriteStateFile => Some PermissionError | _ => None end.

(** The state file cannot be removed. *)
Definition sticky_fs (op : fs_op) : option exn :=
  match op with UnlinkStateFile => Some PermissionError | _ => None end.

(** The worker's side of a start: [os.fork] answers 0, and the stream
    delivers two chunks, a signal and one more chunk; no maximum
    duration. *)
Definition worker_stream : list stream_event :=
  [Chunk 1%float false [1; 2]; Chunk 900%float false [3];
   Signal SIGINT; Chunk 900.5%float false [4]].

Definition worker_env : env :=
  with_max_seconds 0 (calm ∅ 0 [] worker_stream).

(** The session a start in [bare_env] leaves behind. *)
Definition started_session : option file_content :=
  Some (Parsed (session 4242 (new_wav_path bare_env))).

(** The audio file of that session is there and transcribes to two
    words. *)
Definition second_press_env : env :=
  calm {[ new_wav_path bare_env := 1000%N ]} 0 [py " hello there "] [].

(** The transcript is nothing but the placeholder of a silent
    recording. *)
Definition silent_env : env :=
  calm {[ sample_wav := 1000%N ]} 0 [py " [BLANK_AUDIO] "] [].

(** The temporary directory cannot be created. *)
Definition no_tmp_dir_fs (op : fs_op) : option exn :=
  match op with MkdirTmpDir => Some PermissionError | _ => None end.

(** [os.fork] fails. *)
Definition failed_fork_env : env := with_processes (inl OSError) None None bare_env.

(** The forked child cannot start a session of its own. *)
Definition no_setsid_env : env := with_processes (inr 0%N) (Some OSError) None bare_env.

(** The model cannot be loaded. *)
Definition no_model_env : env :=
  with_collaborators (Some RuntimeError) (whisper stop_env) (input_stream stop_env) stop_env.

(** The worker cannot open the input stream. *)
Definition no_stream_env : env :=
  with_collaborators None (whisper worker_env) (inl PortAudioError) worker_env.

(** The clipboard is to be preserved, and every step of the delivery
    works. *)
Definition preserving_env : env := with_delivery true None [] None stop_env.

(** ** The blank filter, verified *)

Lemma maketrans_delete_lookup z c :
  Str.maketrans_delete z !! c = if decide (c ∈ z) then Some None else None.
Proof.
  induction z as [|a z IH].
  - change (Str.maketrans_delete []) with (∅ : gmap N (option N)).
    rewrite lookup_empty. destruct (decide (c ∈ [])) as [H|H]; [|reflexivity].
    inversion H.
  - change (Str.maketrans_delete (a :: z))
      with (<[a := None]> (Str.maketrans_delete z)).
    rewrite lookup_insert. destruct (decide (a = c)) as [->|Hne].
    + destruct (decide (c ∈ c :: z)) as [|Hn]; [reflexivity|].
      exfalso. apply Hn, elem_of_cons. auto.
    + rewrite IH.
      destruct (decide (c ∈ z)) as [H|H], (decide (c ∈ a :: z)) as [H'|H'];
        try reflexivity; exfalso.
      * apply H', elem_of_cons. auto.
      * apply elem_of_cons in H' as [->|H']; auto.
Qed.

Lemma translate_delete z text :
  Str.translate (Str.maketrans_delete z) text = filter (fun c => c ∉ z) text.
Proof.
  induction text as [|c text IH]; [reflexivity|].
  simpl. rewrite IH, maketrans_delete_lookup, filter_cons.
  destruct (decide (c ∈ z)); destruct (decide (c ∉ z)); try reflexivity; tauto.
Qed.

Lemma deleted_iff_space_or_punctuation c :
  c ∉ blank_deletions ↔
  BlankSpec.is_whitespace c || BlankSpec.is_common_punctuation c = false.
Proof.
  unfold BlankSpec.is_whitespace, BlankSpec.is_common_punctuation, blank_deletions.
  rewrite orb_false_iff, !bool_decide_eq_false.
  change (py ".,!?;:'" ++ [34%N]) with [46; 44; 33; 63; 59; 58; 39; 34]%N.
  rewrite !elem_of_cons, !elem_of_nil. tauto.
Qed.

Lemma check_is_spec_filter text :
  Str.translate (Str.maketrans_delete blank_deletions) text
  = BlankSpec.without_space_and_punctuation text.
Proof.
  rewrite translate_delete. apply list_filter_iff.
  intros c. apply deleted_iff_space_or_punctuation.
Qed.

Lemma concat_map_bind {A B} (g : A -> list B) (l : list A) :
  concat (map g l) = l ≫= g.
Proof. induction l as [|a l IH]; simpl; [reflexivity | rewrite IH; reflexivity]. Qed.

Lemma is_blank_audio_spec U text :
  is_blank_audio U text = true ↔ BlankSpec.blank U text.
Proof.
  unfold is_blank_audio, BlankSpec.blank, BlankSpec.letters_case_folded, Str.eqb.
  rewrite check_is_spec_filter, concat_map_bind.
  destruct (bool_decide_reflect (BlankSpec.without_space_and_punctuation text = []))
    as [H1|H1]; [tauto|].
  destruct (bool_decide_reflect
              (filter (fun c => Str.isalpha U c = true) text ≫= Str.lower U
               = py "blankaudio")) as [H2|H2]; [tauto|].
  split; [discriminate | tauto].
Qed.

(** The deletion set is the twelve characters of the source: other
    white space, such as a vertical tab or a form feed, stays, and a
    text made of it is not blank. *)
Lemma other_white_space_is_kept U :
  is_blank_audio U [11%N] = false ∧ is_blank_audio U [12%N] = false.
Proof. split; vm_compute; reflexivity. Qed.

(** C3: the blank classifier answers true exactly when the text without
    whitespace and common punctuation is empty, or its letters,
    lower-cased, spell blankaudio; the four blank samples and the two
    non-blank samples of the specification come out as stated, whatever
    the Unicode table says outside ASCII. *)
Theorem blank_classification (U : unicode) :
  (∀ text, is_blank_audio U text = true ↔ BlankSpec.blank U text)
  ∧ is_blank_audio U (py "   ...!?") = true
  ∧ is_blank_audio U (py "") = true
  ∧ is_blank_audio U (py "Blank Audio") = true
  ∧ is_blank_audio U (py "BLANKAUDIO") = true
  ∧ is_blank_audio U (py "blank audio test") = false
  ∧ is_blank_audio U (py "Hello, world.") = false.
Proof.
  split; [apply is_blank_audio_spec|].
  repeat split; vm_compute; reflexivity.
Qed.

(** ** The frame lemmas *)

#[local] Instance kept_preorder {X} (f : st -> X) : PreOrder (kept f).
Proof.
  split.
  - intros s. reflexivity.
  - intros s1 s2 s3 H12 H23. unfold kept in *. congruence.
Qed.

#[local] Instance emits_preorder P : PreOrder (emits P).
Proof.
  split.
  - intros s. exists []. split; [symmetry; apply app_nil_r | constructor].
  - intros s1 s2 s3 (t1 & H1 & F1) (t2 & H2 & F2). exists (t1 ++ t2). split.
    + rewrite H2, H1. symmetry. apply app_assoc.
    + apply Forall_app. split; assumption.
Qed.

Section Steps.
Context (R : relation st) `{!PreOrder R}.

Lemma steps_ret {A} (a : A) : steps R (ret a).
Proof. intros e s. reflexivity. Qed.

Lemma steps_ask : steps R ask.
Proof. intros e s. reflexivity. Qed.

Lemma steps_get : steps R get.
Proof. intros e s. reflexivity. Qed.

Lemma steps_raise {A} x : steps R (@raise A x).
Proof. intros e s. reflexivity. Qed.

Lemma steps_sys_exit {A} c : steps R (@sys_exit A c).
Proof. intros e s. reflexivity. Qed.

Lemma steps_blocked {A} : steps R (@blocked A).
Proof. intros e s. reflexivity. Qed.

Lemma steps_modify g : (∀ s, R s (g s)) -> steps R (modify g).
Proof. intros H e s. apply H. Qed.

Lemma steps_bind {A B} (m : M A) (k : A -> M B) :
  steps R m -> (∀ a, steps R (k a)) -> steps R (bind m k).
Proof.
  intros Hm Hk e s. unfold bind. specialize (Hm e s).
  destruct (m e s) as [[a|c|x|] s1]; simpl in *; try assumption.
  transitivity s1; [assumption | apply Hk].
Qed.

Lemma steps_try_except {A} (m : M A) h :
  steps R m -> handler_steps R h -> steps R (try_except m h).
Proof.
  intros Hm Hh e s. unfold try_except. specialize (Hm e s).
  destruct (m e s) as [[a|c|x|] s1]; simpl in *; try assumption.
  destruct (h x) as [k|] eqn:Hx; simpl; try assumption.
  transitivity s1; [assumption | apply (Hh _ _ Hx)].
Qed.

Lemma steps_when b m : steps R m -> steps R (when b m).
Proof. intros H. destruct b; simpl; [assumption | apply steps_ret]. Qed.

Lemma steps_attempt fault : steps R (attempt fault).
Proof. destruct fault; [apply steps_raise | apply steps_ret]. Qed.

Lemma steps_except_Exception {A} (k : exn -> M A) :
  (∀ x, steps R (k x)) -> handler_steps R (except_Exception k).
Proof. intros H [x|] m; simpl; intros [= <-]. apply H. Qed.

Lemma steps_except_ProcessLookupError {A} (k : M A) :
  steps R k -> handler_steps R (except_ProcessLookupError k).
Proof. intros H [[]|] m; simpl; intros [= <-]; apply H. Qed.

Lemma steps_except_KeyboardInterrupt {A} (k : M A) :
  steps R k -> handler_steps R (except_KeyboardInterrupt k).
Proof. intros H [x|] m; simpl; intros [= <-]. apply H. Qed.

Lemma steps_or_else {A} (h1 h2 : raised -> option (M A)) :
  handler_steps R h1 -> handler_steps R h2 -> handler_steps R (or_else h1 h2).
Proof.
  intros H1 H2 r k. unfold or_else. destruct (h1 r) as [k1|] eqn:E.
  - intros [= <-]. eapply H1, E.
  - apply H2.
Qed.

End Steps.

Lemma steps_at {A} (R : relation st) (m : M A) e s r s' :
  steps R m -> m e s = (r, s') -> R s s'.
Proof. intros H E. specialize (H e s). rewrite E in H. exact H. Qed.

Lemma kept_at {A X} (f : st -> X) (m : M A) e s r s' :
  steps (kept f) m -> m e s = (r, s') -> f s' = f s.
Proof. apply steps_at. Qed.

Lemma kept_only_skip (q : event -> bool) ev s :
  q ev = false -> kept (fun s => only q (trace s)) s (set_trace (trace s ++ [ev]) s).
Proof.
  intros H. unfold kept, only. simpl. rewrite List.filter_app. simpl.
  rewrite H. apply app_nil_r.
Qed.

Lemma emits_emit P ev s : P ev = true -> emits P s (set_trace (trace s ++ [ev]) s).
Proof. intros H. exists [ev]. split; [reflexivity | repeat constructor; exact H]. Qed.

Lemma emits_same P s s' : trace s' = trace s -> emits P s s'.
Proof.
  intros H. exists []. split; [rewrite H; symmetry; apply app_nil_r | constructor].
Qed.

(** From a fresh trace, what was emitted is all there is. *)
Lemma emits_from_empty P s s' :
  trace s = [] -> emits P s s' -> Forall (fun ev => P ev = true) (trace s').
Proof. intros H0 (t & Ht & F). rewrite Ht, H0. exact F. Qed.

Create HintDb prog.

#[local] Hint Unfold mkdir os_fork os_setsid redirect_stdio Path Path_exists
  Path_stat_size dict_get pyperclip_paste pyperclip_copy setup_logging notify
  notify_start notify_end json_load read_state write_state clear_state
  check_dependencies signal_handler callback wait_for_stop log_device
  wav_write record_audio daemonize_and_record transcribe paste_text
  after_fork after_transcribe after_probe validate_and_deliver stop_pipeline
  reject_state stop_path start_path
  dispatch prelude emit logging os_kill time_sleep : prog.

(** One structural step of a [steps] goal. *)
Ltac steps_one :=
  first
    [ apply steps_bind; [ typeclasses eauto .. | | intros ? ]
    | apply steps_try_except; [ typeclasses eauto .. | | ]
    | apply steps_except_Exception; intros ?
    | apply steps_except_ProcessLookupError
    | apply steps_except_KeyboardInterrupt
    | apply steps_or_else
    | apply steps_ret; typeclasses eauto
    | apply steps_ask; typeclasses eauto
    | apply steps_get; typeclasses eauto
    | apply steps_raise; typeclasses eauto
    | apply steps_sys_exit; typeclasses eauto
    | apply steps_blocked; typeclasses eauto
    | apply steps_when; [ typeclasses eauto .. | ]
    | apply steps_attempt; typeclasses eauto
    | apply steps_modify; intros ?
    | match goal with
      | |- steps _ (match ?x with _ => _ end) => destruct x
      end ].

(** The side condition of a state change. *)
Ltac steps_side :=
  try match goal with
      | |- context [match log_sink ?s with _ => _ end] => destruct (log_sink s)
      end;
  first
    [ reflexivity
    | apply kept_only_skip; reflexivity
    | apply emits_emit; reflexivity
    | apply emits_same; reflexivity
    | assumption ].

Ltac steps_auto :=
  repeat first [ steps_one | progress autounfold with prog ];
  try steps_side.

Section StopDaemonFrame.
Context (R : relation st) `{!PreOrder R}.
Hypothesis R_procs : ∀ v s, R s (set_procs v s).
Hypothesis R_event : ∀ ev s,
  stop_daemon_event ev = true -> R s (set_trace (trace s ++ [ev]) s).

Lemma steps_os_kill pid sig : steps R (os_kill pid sig).
Proof.
  steps_auto; try apply R_procs; apply R_event; reflexivity.
Qed.

Lemma steps_poll_sleep : steps R (time_sleep PollInterval).
Proof.
  steps_auto; try apply R_procs; apply R_event; reflexivity.
Qed.

Lemma steps_poll pid n : steps R (poll pid n).
Proof.
  induction n as [|n IH]; simpl.
  - steps_auto. apply R_event; reflexivity.
  - steps_one.
    + steps_one.
      * steps_one; [apply steps_os_kill|].
        steps_one; [apply steps_poll_sleep|]. steps_one.
      * repeat steps_one.
    + destruct a; [steps_one | apply IH].
Qed.

Lemma steps_stop_daemon pid : steps R (stop_daemon pid).
Proof.
  unfold stop_daemon. steps_one.
  - steps_one; [apply steps_os_kill | apply steps_poll].
  - steps_auto. apply R_event; reflexivity.
Qed.

End StopDaemonFrame.

(** *** Stepping through a sequence *)

Lemma bind_Ret {A B} (m : M A) (k : A -> M B) e s a s' :
  m e s = (Ret a, s') -> bind m k e s = k a e s'.
Proof. intros H. unfold bind. rewrite H. reflexivity. Qed.

Lemma bind_Exit {A B} (m : M A) (k : A -> M B) e s c s' :
  m e s = (Exit c, s') -> bind m k e s = (Exit c, s').
Proof. intros H. unfold bind. rewrite H. reflexivity. Qed.

Lemma bind_Raise {A B} (m : M A) (k : A -> M B) e s x s' :
  m e s = (Raise x, s') -> bind m k e s = (Raise x, s').
Proof. intros H. unfold bind. rewrite H. reflexivity. Qed.

Lemma try_Ret {A} (m : M A) h e s a s' :
  m e s = (Ret a, s') -> try_except m h e s = (Ret a, s').
Proof. intros H. unfold try_except. rewrite H. reflexivity. Qed.

Lemma try_Raise {A} (m : M A) h e s x s' :
  m e s = (Raise x, s') ->
  try_except m h e s = match h x with Some k => k e s' | None => (Raise x, s') end.
Proof. intros H. unfold try_except. rewrite H. reflexivity. Qed.

Lemma main_steps e s :
  main e s =
  bind (setup_logging false) (fun _ =>
  bind check_dependencies (fun _ =>
  bind (mkdir MkdirStateDir) (fun _ =>
  bind (mkdir MkdirTmpDir) (fun _ =>
  bind read_state dispatch)))) e s.
Proof. reflexivity. Qed.

Lemma check_dependencies_ok e s :
  missing_modules e = [] -> check_dependencies e s = (Ret tt, s).
Proof. intros H. unfold check_dependencies, bind, ask. rewrite H. reflexivity. Qed.

Lemma mkdir_ok d e s : fs_fault e d = None -> mkdir d e s = (Ret tt, s).
Proof. intros H. unfold mkdir, bind, ask. rewrite H. reflexivity. Qed.

Lemma mkdir_fault d e s x :
  fs_fault e d = Some x -> mkdir d e s = (Raise (Exception x), s).
Proof. intros H. unfold mkdir, bind, ask. rewrite H. reflexivity. Qed.

Lemma main_boots e s :
  boots e -> main e s = bind read_state dispatch e (configured s).
Proof.
  intros (H1 & H2 & H3). rewrite main_steps.
  erewrite bind_Ret by reflexivity.
  erewrite bind_Ret by (apply check_dependencies_ok, H1).
  erewrite bind_Ret by (apply mkdir_ok, H2).
  erewrite bind_Ret by (apply mkdir_ok, H3).
  reflexivity.
Qed.

Lemma script_eq e s :
  script e s =
  match main e s with
  | (Raise KeyboardInterrupt, s') => (Exit 130, s')
  | (Raise (Exception x), s') =>
      (Exit 1, set_trace (trace s' ++ [EvLog ERROR (MsgError x)]) s')
  | r => r
  end.
Proof.
  unfold script, try_except.
  destruct (main e s) as [[[]|c|[x|]|] s']; reflexivity.
Qed.

(** When the environment does not let [main] get as far as reading the
    state, the run ends in a failure and has done nothing but log. *)
Lemma main_without_boot e s :
  ¬ boots e ->
  ∃ r s' t,
    main e s = (r, s')
    ∧ (r = Exit 1 ∨ ∃ x, r = Raise (Exception x))
    ∧ state_file s' = state_file s
    ∧ trace s' = trace s ++ t
    ∧ Forall (fun ev => is_log ev = true) t.
Proof.
  intros Hn. rewrite main_steps.
  erewrite bind_Ret by reflexivity.
  destruct (missing_modules e) as [|m ms] eqn:H1.
  - erewrite bind_Ret by (apply check_dependencies_ok, H1).
    destruct (fs_fault e MkdirStateDir) as [x|] eqn:H2.
    + eexists _, _, []. split; [|split; [right; eexists; reflexivity|]].
      * apply bind_Raise, mkdir_fault, H2.
      * destruct s as [sf ps cb n [k|] se ad tr]; simpl;
          rewrite app_nil_r; auto.
    + erewrite bind_Ret by (apply mkdir_ok, H2).
      destruct (fs_fault e MkdirTmpDir) as [x|] eqn:H3.
      * eexists _, _, []. split; [|split; [right; eexists; reflexivity|]].
        -- apply bind_Raise, mkdir_fault, H3.
        -- destruct s as [sf ps cb n [k|] se ad tr]; simpl;
             rewrite app_nil_r; auto.
      * exfalso. apply Hn. repeat split; assumption.
  - eexists _, _, [_; _]. split; [|split; [left; reflexivity|]].
    + apply bind_Exit. unfold check_dependencies, bind, ask. rewrite H1.
      reflexivity.
    + destruct s as [sf ps cb n [k|] se ad tr]; simpl;
        rewrite <- app_assoc; repeat split; repeat constructor.
Qed.

Lemma boots_dec e : boots e ∨ ¬ boots e.
Proof.
  unfold boots.
  destruct (missing_modules e), (fs_fault e MkdirStateDir), (fs_fault e MkdirTmpDir);
    first [ left; repeat split; reflexivity | right; intros (? & ? & ?); discriminate ].
Qed.

(** *** The state store *)

Lemma read_state_absent e s :
  state_file s = None -> read_state e s = (Ret PNone, s).
Proof.
  intros H. unfold read_state, STATE_FILE_exists, bind, get. rewrite H. reflexivity.
Qed.

Lemma read_state_parsed e s v :
  state_file s = Some (Parsed v) -> read_state e s = (Ret v, s).
Proof.
  intros H. unfold read_state, STATE_FILE_exists, json_load, try_except, bind, get.
  rewrite H. simpl. rewrite H. reflexivity.
Qed.

Lemma read_state_unreadable e s x :
  state_file s = Some (Unreadable x) ->
  read_state e s
  = (Ret PNone, set_trace (trace s ++ [EvLog ERROR (MsgFailedToReadState x)]) s).
Proof.
  intros H. unfold read_state, STATE_FILE_exists, json_load, try_except, bind, get.
  rewrite H. simpl. rewrite H. reflexivity.
Qed.

(** The look whether the file is there is outside the [try]: what it
    raises leaves [read_state], and nothing is logged. *)
Lemma read_state_inaccessible e s x :
  state_file s = Some (Inaccessible x) ->
  read_state e s = (Raise (Exception x), s).
Proof.
  intros H. unfold read_state, STATE_FILE_exists, bind, get. rewrite H. reflexivity.
Qed.

(** [read_state] answers a value that is not [None] only for a file
    that parses to it. *)
Lemma read_state_some e s v :
  (read_state e s).1 = Ret v -> v ≠ PNone -> state_file s = Some (Parsed v).
Proof.
  destruct (state_file s) as [[x|v'|x]|] eqn:H; intros Hr Hv.
  - rewrite (read_state_unreadable _ _ _ H) in Hr. simpl in Hr. congruence.
  - rewrite (read_state_parsed _ _ _ H) in Hr. simpl in Hr. congruence.
  - rewrite (read_state_inaccessible _ _ _ H) in Hr. discriminate Hr.
  - rewrite (read_state_absent _ _ H) in Hr. simpl in Hr. congruence.
Qed.

Lemma clear_state_returns e s : ∃ s', clear_state e s = (Ret tt, s').
Proof.
  unfold clear_state, STATE_FILE_exists, try_except, bind, get, when.
  destruct (state_file s) as [[x|v|x]|]; simpl; try (eexists; reflexivity).
  all: unfold bind, emit, modify, ask, attempt; simpl;
    destruct (fs_fault e UnlinkStateFile); simpl; eexists; reflexivity.
Qed.

Lemma clear_state_clears e s :
  fs_fault e UnlinkStateFile = None -> accessible s ->
  state_file (clear_state e s).2 = None.
Proof.
  intros H Ha. unfold clear_state, STATE_FILE_exists, try_except, bind, get, when.
  destruct (state_file s) as [[x|v|x]|] eqn:Hs; simpl;
    [| |destruct (Ha x Hs)|exact Hs].
  all: unfold bind, emit, modify, ask, attempt; simpl; rewrite H; reflexivity.
Qed.

Lemma clear_state_unlinks e s c :
  state_file s = Some c -> (∀ x, c ≠ Inaccessible x) ->
  ∃ t, trace (clear_state e s).2 = trace s ++ EvStateUnlink :: t.
Proof.
  intros Hs Hc. unfold clear_state, STATE_FILE_exists, try_except, bind, get, when.
  rewrite Hs. destruct c as [x|v|x]; [| |destruct (Hc x eq_refl)]; simpl.
  all: unfold bind, emit, modify, ask, attempt; simpl;
    destruct (fs_fault e UnlinkStateFile); simpl;
    [ eexists; rewrite <- app_assoc; reflexivity | eexists; reflexivity ].
Qed.

Lemma notify_end_returns e s : ∃ s', notify_end e s = (Ret tt, s').
Proof.
  unfold notify_end, bind, ask, when.
  destruct (have_terminal_notifier e); eexists; reflexivity.
Qed.

(** *** Stopping the worker *)

Lemma soft_ret {A} (a : A) : soft (ret a).
Proof. intros e s. left. eexists. reflexivity. Qed.

Lemma soft_raise {A} x : soft (@raise A x).
Proof. intros e s. right. eexists. reflexivity. Qed.

Lemma soft_modify g : soft (modify g).
Proof. intros e s. left. eexists. reflexivity. Qed.

Lemma soft_bind {A B} (m : M A) (k : A -> M B) :
  soft m -> (∀ a, soft (k a)) -> soft (bind m k).
Proof.
  intros Hm Hk e s. unfold bind.
  destruct (Hm e s) as [[a H]|[x H]];
    destruct (m e s) as [r s1]; simpl in H; subst r.
  - apply Hk.
  - right. eexists. reflexivity.
Qed.

Lemma soft_try_except {A} (m : M A) h :
  soft m -> (∀ r k, h r = Some k -> soft k) -> soft (try_except m h).
Proof.
  intros Hm Hh e s. unfold try_except.
  destruct (Hm e s) as [[a H]|[x H]];
    destruct (m e s) as [r s1]; simpl in H; subst r.
  - left. eexists. reflexivity.
  - destruct (h (Exception x)) as [k|] eqn:E.
    + apply (Hh _ _ E).
    + right. eexists. reflexivity.
Qed.

Lemma soft_os_kill pid sig : soft (os_kill pid sig).
Proof.
  unfold os_kill. destruct (as_index pid) as [z|]; [|apply soft_raise].
  destruct (fits_pid_t z); [|apply soft_raise].
  apply soft_bind; [apply soft_modify | intros _].
  apply soft_bind; [intros e s; left; eexists; reflexivity | intros s0].
  destruct (procs s0 !! z) as [p|]; [|apply soft_raise].
  destruct (may_signal p); [|apply soft_raise].
  destruct sig; first [apply soft_modify | apply soft_ret].
Qed.

Lemma soft_time_sleep p : soft (time_sleep p).
Proof.
  unfold time_sleep. apply soft_bind; [apply soft_modify | intros _].
  destruct p; [apply soft_modify|].
  apply soft_bind; [intros e s; left; eexists; reflexivity | intros e].
  destruct (sleep_fault (S2T_CLIPBOARD_RESTORE_DELAY e)); [apply soft_raise | apply soft_ret].
Qed.

Lemma soft_poll pid n : soft (poll pid n).
Proof.
  induction n as [|n IH]; simpl.
  - apply soft_bind; [apply soft_modify | intros _; apply soft_ret].
  - apply soft_bind.
    + apply soft_try_except.
      * apply soft_bind; [apply soft_os_kill | intros _].
        apply soft_bind; [apply soft_time_sleep | intros _; apply soft_ret].
      * intros [[]|] k; simpl; intros [= <-]. apply soft_ret.
    + intros [|]; [apply soft_ret | apply IH].
Qed.

(** [stop_daemon] always comes back with an answer. *)
Lemma stop_daemon_returns pid e s :
  ∃ b s', stop_daemon pid e s = (Ret b, s').
Proof.
  unfold stop_daemon, try_except.
  pose proof (soft_bind _ _ (soft_os_kill pid SIGINT) (fun _ => soft_poll pid 50) e s) as H.
  destruct (bind (os_kill pid SIGINT) (fun _ => poll pid 50) e s) as [r s1].
  simpl in H. destruct H as [[b ->]|[x ->]].
  - eexists _, _. reflexivity.
  - destruct x; simpl; eexists _, _; reflexivity.
Qed.

Lemma os_kill_missing z sig e s :
  fits_pid_t z = true ->
  procs s !! z = None ->
  os_kill (PInt z) sig e s
  = (Raise (Exception ProcessLookupError), set_trace (trace s ++ [EvKill z sig]) s).
Proof.
  intros Hfit Hp. unfold os_kill. change (as_index (PInt z)) with (Some z).
  cbv beta iota. rewrite Hfit. unfold bind, emit, modify, get. simpl.
  rewrite Hp. reflexivity.
Qed.

(** A worker that is not in the process table: the first signal finds
    nobody, and that counts as stopped. *)
Lemma stop_daemon_no_process pid e s :
  fits_pid_t pid = true ->
  procs s !! pid = None ->
  stop_daemon (PInt pid) e s
  = (Ret true, set_trace (trace s ++ [EvKill pid SIGINT]) s).
Proof.
  intros Hfit Hp. unfold stop_daemon.
  assert (H : bind (os_kill (PInt pid) SIGINT) (fun _ => poll (PInt pid) 50) e s
              = (Raise (Exception ProcessLookupError),
                 set_trace (trace s ++ [EvKill pid SIGINT]) s)).
  { apply bind_Raise, os_kill_missing; assumption. }
  rewrite (try_Raise _ _ _ _ _ _ H). reflexivity.
Qed.

(** *** The stop branch *)

Lemma stop_pipeline_eq pid wav_path e s :
  ∃ b s1 s2 s3,
    stop_daemon pid e (set_trace (trace s ++ [EvLog INFO MsgStoppingRecording]) s)
    = (Ret b, s1)
    ∧ clear_state e s1 = (Ret tt, s2)
    ∧ notify_end e s2 = (Ret tt, s3)
    ∧ stop_pipeline pid wav_path e s = validate_and_deliver wav_path e s3.
Proof.
  destruct (stop_daemon_returns pid e
              (set_trace (trace s ++ [EvLog INFO MsgStoppingRecording]) s))
    as (b & s1 & H1).
  destruct (clear_state_returns e s1) as (s2 & H2).
  destruct (notify_end_returns e s2) as (s3 & H3).
  exists b, s1, s2, s3. repeat split; try assumption.
  unfold stop_pipeline.
  erewrite bind_Ret by reflexivity.
  erewrite bind_Ret by exact H1.
  erewrite bind_Ret by exact H2.
  erewrite bind_Ret by exact H3.
  reflexivity.
Qed.

Lemma stop_path_accepts d pid wav_path e s :
  assoc (py "pid") d = pid ->
  assoc (py "wav_path") d = wav_path ->
  truthy pid = true -> truthy wav_path = true ->
  stop_path (PDict d) e s = stop_pipeline pid wav_path e s.
Proof.
  intros <- <- Hp Hw. unfold stop_path, dict_get.
  erewrite bind_Ret by reflexivity.
  erewrite bind_Ret by reflexivity.
  rewrite Hp, Hw. simpl.
  erewrite bind_Ret by reflexivity. reflexivity.
Qed.

Lemma stop_path_rejects d e s :
  truthy (assoc (py "pid") d) = false ∨ truthy (assoc (py "wav_path") d) = false ->
  stop_path (PDict d) e s = reject_state e s.
Proof.
  intros H. unfold stop_path, dict_get.
  erewrite bind_Ret by reflexivity.
  erewrite bind_Ret by reflexivity.
  replace (negb (truthy (assoc (py "pid") d))
           || negb (truthy (assoc (py "wav_path") d))) with true
    by (destruct H as [-> | ->]; simpl; rewrite ?orb_true_r; reflexivity).
  simpl. unfold bind.
  destruct (reject_state e s) as [[[]|c|x|] s'] eqn:E; try reflexivity.
  exfalso. revert E. unfold reject_state.
  erewrite bind_Ret by reflexivity.
  destruct (clear_state_returns e (set_trace (trace s ++ [EvLog ERROR MsgInvalidStateFile]) s))
    as (s2 & H2).
  erewrite bind_Ret by exact H2. discriminate.
Qed.

Lemma reject_state_eq e s :
  reject_state e s
  = (Exit 1, (clear_state e
                (set_trace (trace s ++ [EvLog ERROR MsgInvalidStateFile]) s)).2).
Proof.
  unfold reject_state.
  erewrite bind_Ret by reflexivity.
  destruct (clear_state_returns e (set_trace (trace s ++ [EvLog ERROR MsgInvalidStateFile]) s))
    as (s2 & H2).
  erewrite bind_Ret by exact H2. rewrite H2. reflexivity.
Qed.

Lemma steps_clear_state_prefix : steps (emits stop_prefix_event) clear_state.
Proof. steps_auto. Qed.

Lemma steps_notify_end_prefix : steps (emits stop_prefix_event) notify_end.
Proof. steps_auto. Qed.

Lemma steps_stop_daemon_prefix pid : steps (emits stop_prefix_event) (stop_daemon pid).
Proof.
  apply steps_stop_daemon; [typeclasses eauto | | ].
  - intros. apply emits_same. reflexivity.
  - intros ev s H. apply emits_emit. unfold stop_prefix_event. rewrite H. reflexivity.
Qed.

Lemma steps_stop_daemon_kept {X} (f : st -> X) pid :
  (∀ v s, f (set_procs v s) = f s) ->
  (∀ t s, f (set_trace t s) = f s) ->
  steps (kept f) (stop_daemon pid).
Proof.
  intros Hp Ht. apply steps_stop_daemon; [typeclasses eauto | | ].
  - intros. apply Hp.
  - intros. apply Ht.
Qed.

(** With a well-formed session on disk and an environment that boots,
    [main] signals the worker, clears the state, dismisses the
    notification and goes on to validate the audio file. *)
Lemma main_stop e ps cb v pid wav :
  boots e -> well_formed v pid wav ->
  ∃ s3,
    main e (launch (Some (Parsed v)) ps cb) = validate_and_deliver (PStr wav) e s3
    ∧ (∃ t, trace s3 = EvLog INFO MsgStoppingRecording :: t
            ∧ Forall (fun ev => stop_prefix_event ev = true) t)
    ∧ (fs_fault e UnlinkStateFile = None -> state_file s3 = None)
    ∧ EvStateUnlink ∈ trace s3
    ∧ clipboard s3 = cb ∧ copies s3 = 0%nat.
Proof.
  intros Hb (d & -> & Hpid & Hwav & Hp0 & Hw0).
  set (s0 := launch (Some (Parsed (PDict d))) ps cb).
  set (sc := set_log_sink (Some Stderr) s0).
  set (sl := set_trace (trace sc ++ [EvLog INFO MsgStoppingRecording]) sc).
  destruct (stop_pipeline_eq (PInt pid) (PStr wav) e sc) as (b & s1 & s2 & s3 & H1 & H2 & H3 & H4).
  fold sl in H1.
  exists s3. split; [|split; [|split; [|split; [|split]]]].
  - rewrite main_boots by exact Hb. change (configured s0) with sc.
    erewrite bind_Ret by (apply read_state_parsed; reflexivity).
    change (dispatch (PDict d)) with (stop_path (PDict d)).
    assert (Tp : truthy (PInt pid) = true)
      by (simpl; apply negb_true_iff, Z.eqb_neq, Hp0).
    assert (Tw : truthy (PStr wav) = true)
      by (simpl; apply negb_true_iff, bool_decide_eq_false, Hw0).
    rewrite (stop_path_accepts d (PInt pid) (PStr wav) e sc Hpid Hwav Tp Tw).
    exact H4.
  - assert (Hem : emits stop_prefix_event sl s3);
      [|destruct Hem as (t & Ht & F); exists t; split; [exact Ht | exact F]].
    transitivity s1; [|transitivity s2].
    + exact (steps_at _ _ _ _ _ _ (steps_stop_daemon_prefix _) H1).
    + exact (steps_at _ _ _ _ _ _ steps_clear_state_prefix H2).
    + exact (steps_at _ _ _ _ _ _ steps_notify_end_prefix H3).
  - intros Hu.
    rewrite (kept_at state_file notify_end _ _ _ _ ltac:(steps_auto) H3).
    assert (Hs1 : state_file s1 = Some (Parsed (PDict d))).
    { exact (kept_at state_file _ _ _ _ _
               (steps_stop_daemon_kept state_file _ ltac:(reflexivity) ltac:(reflexivity)) H1). }
    assert (Ha : accessible s1) by (intros x Hx; congruence).
    pose proof (clear_state_clears e s1 Hu Ha) as H. rewrite H2 in H. exact H.
  - assert (Hs1 : state_file s1 = Some (Parsed (PDict d))).
    { exact (kept_at state_file _ _ _ _ _
               (steps_stop_daemon_kept state_file _ ltac:(reflexivity) ltac:(reflexivity)) H1). }
    destruct (clear_state_unlinks e s1 _ Hs1 ltac:(intros ?; discriminate)) as (t & Ht).
    rewrite H2 in Ht.
    destruct (steps_at _ _ _ _ _ _ steps_notify_end_prefix H3) as (t' & Ht' & _).
    simpl in Ht. rewrite Ht', Ht.
    rewrite !elem_of_app, elem_of_cons. auto.
  - rewrite (kept_at clipboard notify_end _ _ _ _ ltac:(steps_auto) H3).
    rewrite (kept_at clipboard clear_state _ _ _ _ ltac:(steps_auto) H2).
    exact (kept_at clipboard _ _ _ _ _
             (steps_stop_daemon_kept clipboard _ ltac:(reflexivity) ltac:(reflexivity)) H1).
  - rewrite (kept_at copies notify_end _ _ _ _ ltac:(steps_auto) H3).
    rewrite (kept_at copies clear_state _ _ _ _ ltac:(steps_auto) H2).
    exact (kept_at copies _ _ _ _ _
             (steps_stop_daemon_kept copies _ ltac:(reflexivity) ltac:(reflexivity)) H1).
Qed.

(** *** The exit status *)

Lemma run_of_exit e s c s' : main e s = (Exit c, s') -> run e s = (Some c, s').
Proof. intros H. unfold run. rewrite script_eq, H. reflexivity. Qed.

Lemma run_of_raise e s x s' :
  main e s = (Raise (Exception x), s') ->
  run e s = (Some 1, set_trace (trace s' ++ [EvLog ERROR (MsgError x)]) s').
Proof. intros H. unfold run. rewrite script_eq, H. reflexivity. Qed.

Lemma run_without_boot e s :
  ¬ boots e ->
  ∃ t, (run e s).1 = Some 1
       ∧ state_file (run e s).2 = state_file s
       ∧ trace (run e s).2 = trace s ++ t
       ∧ Forall (fun ev => is_log ev = true) t.
Proof.
  intros Hn. destruct (main_without_boot e s Hn) as (r & s' & t & Hm & Hr & Hs & Ht & Hl).
  destruct Hr as [-> | [x ->]].
  - exists t. rewrite (run_of_exit _ _ _ _ Hm). auto.
  - exists (t ++ [EvLog ERROR (MsgError x)]). rewrite (run_of_raise _ _ _ _ Hm). simpl.
    repeat split; [exact Hs | rewrite Ht; symmetry; apply app_assoc |].
    apply Forall_app. split; [exact Hl | repeat constructor].
Qed.

(** *** Validation of the audio file *)

Lemma validate_missing wav e s :
  file_size e !! wav = None ->
  validate_and_deliver (PStr wav) e s
  = (Exit 1, set_trace (trace s ++ [EvProbe wav; EvLog ERROR MsgRecordingFileMissing]) s).
Proof.
  intros H. unfold validate_and_deliver, after_probe, Path, Path_exists.
  erewrite bind_Ret by reflexivity.
  erewrite bind_Ret by (erewrite bind_Ret by reflexivity; reflexivity).
  simpl. rewrite H. simpl.
  erewrite bind_Exit; [reflexivity|].
  unfold when. simpl. erewrite bind_Ret by reflexivity.
  simpl. rewrite <- app_assoc. reflexivity.
Qed.

Lemma validate_empty wav e s :
  file_size e !! wav = Some 0%N ->
  validate_and_deliver (PStr wav) e s
  = (Exit 1, set_trace (trace s ++ [EvProbe wav; EvLog ERROR MsgRecordingFileEmpty]) s).
Proof.
  intros H. unfold validate_and_deliver, after_probe, Path, Path_exists.
  erewrite bind_Ret by reflexivity.
  erewrite bind_Ret by (erewrite bind_Ret by reflexivity; reflexivity).
  simpl. rewrite H. simpl.
  erewrite bind_Ret by reflexivity.
  unfold Path_stat_size.
  erewrite bind_Ret by (erewrite bind_Ret by reflexivity; simpl; rewrite H; reflexivity).
  erewrite bind_Exit; [reflexivity|].
  unfold when. simpl. erewrite bind_Ret by reflexivity.
  simpl. rewrite <- app_assoc. reflexivity.
Qed.

Lemma prefix_not_transcribe ev :
  stop_prefix_event ev = true -> is_transcribe ev = false.
Proof. destruct ev; try reflexivity. discriminate. Qed.

Lemma log_not_transcribe ev : is_log ev = true -> is_transcribe ev = false.
Proof. destruct ev; try reflexivity. discriminate. Qed.

Lemma no_event_in (q : event -> bool) (t : list event) :
  Forall (fun ev => q ev = false) t -> ∀ ev, ev ∈ t -> q ev = false.
Proof. intros H ev Hin. rewrite Forall_forall in H. apply H, Hin. Qed.

(** C4: on a stop invocation with a well-formed session, a missing or
    zero-length audio file ends the invocation with a nonzero status
    (it is 1), and the transcription is never invoked.  This holds in
    every environment, also one that stops [main] before the state is
    read. *)
Theorem validation_gates_transcription e ps cb v pid wav :
  well_formed v pid wav ->
  file_size e !! wav = None ∨ file_size e !! wav = Some 0%N ->
  let out := run e (launch (Some (Parsed v)) ps cb) in
  out.1 = Some 1 ∧ ∀ w, EvTranscribe w ∉ trace out.2.
Proof.
  intros Hwf Hfile out.
  assert (H : out.1 = Some 1
              ∧ Forall (fun ev => is_transcribe ev = false) (trace out.2)).
  { subst out. destruct (boots_dec e) as [Hb|Hn].
    - destruct (main_stop e ps cb v pid wav Hb Hwf) as (s3 & Hm & (t & Ht & Hpre) & _).
      assert (Hq : Forall (fun ev => is_transcribe ev = false) (trace s3)).
      { rewrite Ht. constructor; [reflexivity|].
        eapply Forall_impl; [exact Hpre | exact prefix_not_transcribe]. }
      destruct Hfile as [Hf|Hf].
      + rewrite (validate_missing _ _ _ Hf) in Hm.
        rewrite (run_of_exit _ _ _ _ Hm). simpl. split; [reflexivity|].
        apply Forall_app. split; [exact Hq | repeat constructor].
      + rewrite (validate_empty _ _ _ Hf) in Hm.
        rewrite (run_of_exit _ _ _ _ Hm). simpl. split; [reflexivity|].
        apply Forall_app. split; [exact Hq | repeat constructor].
    - destruct (run_without_boot e (launch (Some (Parsed v)) ps cb) Hn)
        as (t & H1 & _ & H3 & H4).
      split; [exact H1|]. rewrite H3. simpl.
      eapply Forall_impl; [exact H4 | exact log_not_transcribe]. }
  destruct H as [H1 H2]. split.
  - exact H1.
  - intros w Hin. pose proof (no_event_in _ _ H2 _ Hin) as Hq. discriminate Hq.
Qed.

Lemma run_extends e s :
  ∃ t, trace (run e s).2 = trace (main e s).2 ++ t
       ∧ Forall (fun ev => is_log ev = true) t
       ∧ state_file (run e s).2 = state_file (main e s).2.
Proof.
  unfold run. rewrite script_eq.
  destruct (main e s) as [[[]|c|[x|]|] s']; simpl;
    first [ exists []; rewrite app_nil_r; repeat split; constructor
          | eexists [_]; repeat split; repeat constructor ].
Qed.

Lemma validate_keeps_state_file wav_path :
  steps (kept state_file) (validate_and_deliver wav_path).
Proof. steps_auto. Qed.

Lemma validate_grows wav_path :
  steps (emits (fun _ => true)) (validate_and_deliver wav_path).
Proof. steps_auto. Qed.

(** C5: on a stop invocation with a well-formed session, once the
    worker has been signalled the persisted session is cleared, whatever
    the signalling step found: the theorem holds for every process
    table, so for a worker that exits within the wait, one that is still
    there after it, one that does not exist and one that cannot be
    signalled.  (The removal itself is assumed to be carried out by the
    file system.) *)
Theorem session_cleared_after_signal e ps cb v pid wav :
  boots e ->
  fs_fault e UnlinkStateFile = None ->
  well_formed v pid wav ->
  let out := run e (launch (Some (Parsed v)) ps cb) in
  state_file out.2 = None
  ∧ EvLog INFO MsgStoppingRecording ∈ trace out.2
  ∧ EvStateUnlink ∈ trace out.2.
Proof.
  intros Hb Hu Hwf out. subst out.
  destruct (main_stop e ps cb v pid wav Hb Hwf)
    as (s3 & Hm & (t0 & Ht0 & _) & Hsf & Hun & _).
  destruct (run_extends e (launch (Some (Parsed v)) ps cb)) as (t & Ht & _ & Hs).
  rewrite Hm in Ht, Hs.
  pose proof (validate_keeps_state_file (PStr wav) e s3) as Hk.
  destruct (validate_grows (PStr wav) e s3) as (t' & Ht' & _).
  unfold kept in Hk. rewrite Hs, Hk, Ht, Ht'. split; [exact (Hsf Hu)|].
  rewrite !elem_of_app. split; [|auto].
  left; left. rewrite Ht0. left.
Qed.

(** *** Records that do not pass the check *)

Lemma assoc_lacks key d : lacks key d -> assoc key d = PNone.
Proof.
  unfold lacks. induction d as [|[k v] d IH]; intros H; [reflexivity|].
  simpl in *. rewrite not_elem_of_cons in H. destruct H as [Hne Hd].
  rewrite bool_decide_eq_false_2 by congruence. apply IH, Hd.
Qed.

Lemma clear_state_present e s v :
  fs_fault e UnlinkStateFile = None ->
  state_file s = Some (Parsed v) ->
  clear_state e s
  = (Ret tt, set_state_file None (set_trace (trace s ++ [EvStateUnlink]) s)).
Proof.
  intros Hu Hs. unfold clear_state, STATE_FILE_exists, try_except, bind, get, when.
  rewrite Hs. simpl.
  unfold bind, emit, modify, ask, attempt. simpl. rewrite Hu. reflexivity.
Qed.

(** A record whose pid or path is not usable is cleared, and the
    invocation fails: nothing else happens. *)
Lemma reject_run e ps cb d :
  boots e ->
  fs_fault e UnlinkStateFile = None ->
  truthy (assoc (py "pid") d) = false ∨ truthy (assoc (py "wav_path") d) = false ->
  let out := run e (launch (Some (Parsed (PDict d))) ps cb) in
  out.1 = Some 1
  ∧ state_file out.2 = None
  ∧ trace out.2 = [EvLog ERROR MsgInvalidStateFile; EvStateUnlink].
Proof.
  intros Hb Hu Hd out. subst out.
  set (s0 := launch (Some (Parsed (PDict d))) ps cb).
  assert (Hm : main e s0
               = (Exit 1,
                  set_state_file None
                    (set_trace [EvLog ERROR MsgInvalidStateFile; EvStateUnlink]
                       (configured s0)))).
  { rewrite main_boots by exact Hb.
    erewrite bind_Ret by (apply read_state_parsed; reflexivity).
    change (dispatch (PDict d)) with (stop_path (PDict d)).
    rewrite (stop_path_rejects _ _ _ Hd), reject_state_eq.
    erewrite clear_state_present by (first [exact Hu | reflexivity]).
    reflexivity. }
  rewrite (run_of_exit _ _ _ _ Hm). repeat split.
Qed.

(** C7: a stored record that lacks the process identifier or the audio
    path is cleared and the invocation exits with status 1; no process
    is signalled and no transcription is attempted. *)
Theorem incomplete_session_rejected e ps cb d :
  boots e ->
  fs_fault e UnlinkStateFile = None ->
  lacks (py "pid") d ∨ lacks (py "wav_path") d ->
  let out := run e (launch (Some (Parsed (PDict d))) ps cb) in
  out.1 = Some 1
  ∧ state_file out.2 = None
  ∧ EvStateUnlink ∈ trace out.2
  ∧ (∀ p sig, EvKill p sig ∉ trace out.2)
  ∧ (∀ w, EvTranscribe w ∉ trace out.2).
Proof.
  intros Hb Hu Hd out.
  assert (Hf : truthy (assoc (py "pid") d) = false
               ∨ truthy (assoc (py "wav_path") d) = false).
  { destruct Hd as [H|H]; [left|right]; rewrite (assoc_lacks _ _ H); reflexivity. }
  destruct (reject_run e ps cb d Hb Hu Hf) as (H1 & H2 & H3).
  fold out in H1, H2, H3. rewrite H3.
  repeat split; try assumption.
  - rewrite !elem_of_cons. auto.
  - intros p sig. rewrite !elem_of_cons, elem_of_nil. intros [H|[H|[]]]; discriminate H.
  - intros w. rewrite !elem_of_cons, elem_of_nil. intros [H|[H|[]]]; discriminate H.
Qed.

(** C10: a stored record that has both fields, with the process
    identifier equal to 0 or the audio path empty, is treated as
    malformed: the check is on the truth value of the fields, so the
    state is cleared and the invocation exits with status 1. *)
Theorem falsy_fields_rejected e ps cb d pid wav :
  boots e ->
  fs_fault e UnlinkStateFile = None ->
  assoc (py "pid") d = PInt pid ->
  assoc (py "wav_path") d = PStr wav ->
  pid = 0 ∨ wav = [] ->
  let out := run e (launch (Some (Parsed (PDict d))) ps cb) in
  out.1 = Some 1
  ∧ state_file out.2 = None
  ∧ trace out.2 = [EvLog ERROR MsgInvalidStateFile; EvStateUnlink].
Proof.
  intros Hb Hu Hp Hw H0. apply reject_run; [exact Hb | exact Hu |].
  rewrite Hp, Hw. destruct H0 as [-> | ->]; [left | right]; reflexivity.
Qed.

(** *** A worker that is gone *)

Lemma validate_probes wav e s :
  ∃ rest,
    trace (validate_and_deliver (PStr wav) e s).2 = trace s ++ EvProbe wav :: rest.
Proof.
  unfold validate_and_deliver, Path.
  erewrite bind_Ret by reflexivity.
  erewrite bind_Ret by (unfold Path_exists; erewrite bind_Ret by reflexivity; reflexivity).
  assert (Hs : steps (emits (fun _ => true))
                 (after_probe wav (bool_decide (is_Some (file_size e !! wav)))))
    by steps_auto.
  destruct (Hs e (set_trace (trace s ++ [EvProbe wav]) s)) as (t & Ht & _).
  exists t. rewrite Ht. simpl. rewrite <- app_assoc. reflexivity.
Qed.

(** C8: a stored session whose worker no longer exists does not make
    the stop invocation fail in the signalling step: the first signal
    finds no process, which counts as stopped (no warning, no error is
    logged), the state is cleared, and the audio file is looked for
    next; when the file is absent too, the invocation ends there with
    status 1. *)
Theorem stale_worker_tolerated e ps cb v pid wav :
  boots e ->
  fs_fault e UnlinkStateFile = None ->
  well_formed v pid wav ->
  fits_pid_t pid = true ->
  ps !! pid = None ->
  let out := run e (launch (Some (Parsed v)) ps cb) in
  state_file out.2 = None
  ∧ ∃ rest,
      trace out.2
      = [EvLog INFO MsgStoppingRecording; EvKill pid SIGINT; EvStateUnlink]
        ++ (if have_terminal_notifier e then [EvTerminalNotifier true] else [])
        ++ EvProbe wav :: rest
      ∧ (file_size e !! wav = None ->
         out.1 = Some 1 ∧ rest = [EvLog ERROR MsgRecordingFileMissing]).
Proof.
  intros Hb Hu (d & -> & Hpid & Hwav & Hp0 & Hw0) Hfit Hps out. subst out.
  set (s0 := launch (Some (Parsed (PDict d))) ps cb).
  set (pre := [EvLog INFO MsgStoppingRecording; EvKill pid SIGINT; EvStateUnlink]
              ++ (if have_terminal_notifier e then [EvTerminalNotifier true] else [])).
  set (s3 := set_trace pre (set_state_file None (configured s0))).
  assert (Hm : main e s0 = validate_and_deliver (PStr wav) e s3).
  { rewrite main_boots by exact Hb.
    erewrite bind_Ret by (apply read_state_parsed; reflexivity).
    change (dispatch (PDict d)) with (stop_path (PDict d)).
    assert (Tp : truthy (PInt pid) = true)
      by (simpl; apply negb_true_iff, Z.eqb_neq, Hp0).
    assert (Tw : truthy (PStr wav) = true)
      by (simpl; apply negb_true_iff, bool_decide_eq_false, Hw0).
    rewrite (stop_path_accepts d (PInt pid) (PStr wav) _ _ Hpid Hwav Tp Tw).
    unfold stop_pipeline.
    erewrite bind_Ret by reflexivity.
    erewrite bind_Ret by (apply stop_daemon_no_process; [exact Hfit | exact Hps]).
    erewrite bind_Ret by (eapply clear_state_present; [exact Hu | reflexivity]).
    erewrite bind_Ret; [reflexivity|].
    unfold notify_end, bind, ask, when, s3, pre.
    destruct (have_terminal_notifier e); reflexivity. }
  assert (Hsf3 : state_file s3 = None) by reflexivity.
  assert (Htr3 : trace s3 = pre) by reflexivity.
  clearbody s3.
  destruct (run_extends e s0) as (t & Ht & _ & Hs). rewrite Hm in Ht, Hs.
  rewrite Hs, (validate_keeps_state_file (PStr wav) e s3). split; [exact Hsf3|].
  destruct (validate_probes wav e s3) as (rest & Hr).
  exists (rest ++ t). split.
  - rewrite Ht, Hr, Htr3. unfold pre. rewrite <- !app_assoc. reflexivity.
  - intros Hf. rewrite (validate_missing _ _ _ Hf) in Hm, Hr, Ht.
    rewrite (run_of_exit _ _ _ _ Hm) in Ht |- *.
    cbn [fst snd trace set_trace] in Ht, Hr |- *.
    split; [reflexivity|].
    apply app_inv_head in Hr. injection Hr as <-.
    apply (f_equal length) in Ht. rewrite !length_app in Ht.
    destruct t; [reflexivity | simpl in Ht; lia].
Qed.

(** *** Delivery *)

Lemma pyperclip_copy_ok text e s :
  mjoin (clipboard_copy_faults e !! copies s) = None ->
  pyperclip_copy text e s
  = (Ret tt,
     set_clipboard text
       (set_copies (S (copies s)) (set_trace (trace s ++ [EvClipboardCopy text]) s))).
Proof.
  intros H. unfold pyperclip_copy, bind, emit, modify, ask, get. simpl.
  rewrite H. reflexivity.
Qed.

Lemma pyperclip_copy_fault text e s x :
  mjoin (clipboard_copy_faults e !! copies s) = Some x ->
  pyperclip_copy text e s
  = (Raise (Exception x),
     set_copies (S (copies s)) (set_trace (trace s ++ [EvClipboardCopy text]) s)).
Proof.
  intros H. unfold pyperclip_copy, bind, emit, modify, ask, get. simpl.
  rewrite H. reflexivity.
Qed.

Lemma restore_sleep_ok e s :
  sleep_fault (S2T_CLIPBOARD_RESTORE_DELAY e) = None ->
  time_sleep RestoreDelay e s = (Ret tt, set_trace (trace s ++ [EvSleep RestoreDelay]) s).
Proof.
  intros H. unfold time_sleep, bind, emit, modify, ask. simpl. rewrite H. reflexivity.
Qed.

Lemma restore_sleep_fault e s x :
  sleep_fault (S2T_CLIPBOARD_RESTORE_DELAY e) = Some x ->
  time_sleep RestoreDelay e s
  = (Raise (Exception x), set_trace (trace s ++ [EvSleep RestoreDelay]) s).
Proof.
  intros H. unfold time_sleep, bind, emit, modify, ask. simpl. rewrite H. reflexivity.
Qed.

(** Once the text is on the clipboard, and with a restore delay that
    [time.sleep] accepts, [paste_text] returns whatever else fails, and
    has done exactly [delivery_events]. *)
Lemma paste_text_returns text e s :
  mjoin (clipboard_copy_faults e !! copies s) = None ->
  restore_delay_ok e ->
  ∃ s', paste_text text e s = (Ret tt, s')
        ∧ trace s' = trace s ++ delivery_events e text (clipboard s).
Proof.
  intros Hc Hd. unfold restore_delay_ok in Hd. unfold paste_text, delivery_events.
  erewrite bind_Ret by reflexivity.
  set (saved := if S2T_CLIPBOARD_preserve e
                then match clipboard_read_fault e with
                     | None => Some (clipboard s)
                     | Some _ => None
                     end
                else None).
  assert (Hsaved :
            (if S2T_CLIPBOARD_preserve e
             then try_except (bind pyperclip_paste (fun c => ret (Some c)))
                    (except_Exception (fun _ => ret None))
             else ret None) e s = (Ret saved, s)).
  { unfold saved. destruct (S2T_CLIPBOARD_preserve e); [|reflexivity].
    unfold try_except, pyperclip_paste, bind, ask, attempt, get.
    destruct (clipboard_read_fault e); reflexivity. }
  erewrite bind_Ret by exact Hsaved.
  erewrite bind_Ret by (apply pyperclip_copy_ok, Hc).
  set (s1 := set_clipboard text _).
  set (warn := match osascript_fault e with
               | Some x => [EvLog WARNING (MsgFailedToPaste x)]
               | None => []
               end).
  assert (Hkey :
            try_except (bind (emit EvKeystroke) (fun _ => attempt (osascript_fault e)))
              (except_Exception (fun x => logging WARNING (MsgFailedToPaste x))) e s1
            = (Ret tt, set_trace ((trace s1 ++ [EvKeystroke]) ++ warn) s1)).
  { unfold try_except, bind, emit, modify, attempt, warn.
    destruct (osascript_fault e) as [x|]; simpl; [reflexivity|].
    rewrite app_nil_r. reflexivity. }
  erewrite bind_Ret by exact Hkey.
  set (s2 := set_trace _ s1).
  assert (Ht2 : trace s2 = trace s ++ [EvClipboardCopy text; EvKeystroke] ++ warn).
  { unfold s2, s1. simpl. rewrite <- !app_assoc. reflexivity. }
  clearbody s2. unfold saved.
  destruct (S2T_CLIPBOARD_preserve e); [|exists s2; rewrite app_nil_r; auto].
  destruct (clipboard_read_fault e); [exists s2; rewrite app_nil_r; auto|].
  erewrite bind_Ret by (apply restore_sleep_ok, Hd; reflexivity).
  set (s3 := set_trace _ s2).
  unfold try_except.
  destruct (mjoin (clipboard_copy_faults e !! copies s3)) as [x|] eqn:E.
  - rewrite (pyperclip_copy_fault _ _ _ _ E). simpl. eexists. split; [reflexivity|].
    simpl. rewrite Ht2, <- !app_assoc. reflexivity.
  - rewrite (pyperclip_copy_ok _ _ _ E). eexists. split; [reflexivity|].
    simpl. rewrite Ht2, <- !app_assoc. reflexivity.
Qed.

Lemma transcribe_ok wav parts e s :
  model_load_fault e = None ->
  whisper e wav = inr parts ->
  ∃ s', transcribe wav e s = (Ret (Str.strip (py_unicode e) (concat parts)), s')
        ∧ copies s' = copies s
        ∧ clipboard s' = clipboard s
        ∧ ∃ t, trace s' = trace s ++ t.
Proof.
  intros Hl Hw. unfold transcribe, bind, emit, logging, emit, modify, ask, attempt.
  simpl. rewrite Hl, Hw. simpl.
  destruct (100 <? length (Str.strip (py_unicode e) (concat parts)))%nat; simpl;
    eexists; (split; [reflexivity|]); simpl; (split; [reflexivity|]);
    (split; [reflexivity|]); rewrite <- !app_assoc; eexists; reflexivity.
Qed.

Lemma after_probe_present wav size e s :
  file_size e !! wav = Some size -> size ≠ 0%N ->
  after_probe wav true e s = bind (transcribe wav) after_transcribe e s.
Proof.
  intros Hf Hs. unfold after_probe. simpl.
  erewrite bind_Ret by reflexivity.
  erewrite bind_Ret by (unfold Path_stat_size; erewrite bind_Ret by reflexivity;
                        rewrite Hf; reflexivity).
  apply N.eqb_neq in Hs. rewrite Hs. simpl.
  erewrite bind_Ret by reflexivity. reflexivity.
Qed.

Lemma validate_present wav size e s :
  file_size e !! wav = Some size -> size ≠ 0%N ->
  validate_and_deliver (PStr wav) e s
  = bind (transcribe wav) after_transcribe e (set_trace (trace s ++ [EvProbe wav]) s).
Proof.
  intros Hf Hs. unfold validate_and_deliver, Path.
  erewrite bind_Ret by reflexivity.
  erewrite bind_Ret by (unfold Path_exists; erewrite bind_Ret by reflexivity;
                        erewrite bind_Ret by reflexivity; rewrite Hf; reflexivity).
  apply (after_probe_present _ _ _ _ Hf Hs).
Qed.

(** C9, as the code has it: after a successful transcription that is
    not blank, once the text has been placed on the clipboard, and
    with a restore delay that [time.sleep] accepts where the previous
    clipboard is to be put back, no failure of the delivery step fails
    the invocation: it exits with status 0, and the run ends with
    exactly the events of the delivery and the closing log entry; a
    paste keystroke that cannot be triggered is logged as a warning, a
    previous clipboard that cannot be saved or restored leaves no log
    entry. *)
Theorem delivery_faults_tolerated e ps cb v pid wav size parts :
  boots e ->
  well_formed v pid wav ->
  file_size e !! wav = Some size -> size ≠ 0%N ->
  model_load_fault e = None ->
  whisper e wav = inr parts ->
  is_blank_audio (py_unicode e) (Str.strip (py_unicode e) (concat parts)) = false ->
  mjoin (clipboard_copy_faults e !! 0%nat) = None ->
  restore_delay_ok e ->
  let out := run e (launch (Some (Parsed v)) ps cb) in
  let text := Str.strip (py_unicode e) (concat parts) in
  out.1 = Some 0
  ∧ (∃ before,
       trace out.2 = before ++ delivery_events e text cb ++ [EvLog INFO MsgDone])
  ∧ (∀ x, osascript_fault e = Some x ->
          EvLog WARNING (MsgFailedToPaste x) ∈ trace out.2).
Proof.
  intros Hb Hwf Hf Hsz Hl Hw Hnb Hc Hd out text. subst out.
  fold text in Hnb.
  destruct (main_stop e ps cb v pid wav Hb Hwf) as (s3 & Hm & _ & _ & _ & Hcb & Hcp).
  rewrite (validate_present _ _ _ _ Hf Hsz) in Hm.
  destruct (transcribe_ok wav parts e (set_trace (trace s3 ++ [EvProbe wav]) s3) Hl Hw)
    as (s4 & Ht & Hcp4 & Hcb4 & _).
  fold text in Ht.
  rewrite (bind_Ret _ _ _ _ _ _ Ht) in Hm.
  assert (Hc4 : mjoin (clipboard_copy_faults e !! copies s4) = None).
  { rewrite Hcp4. simpl. rewrite Hcp. exact Hc. }
  destruct (paste_text_returns text e s4 Hc4 Hd) as (s5 & Hp & Htr).
  rewrite Hcb4 in Htr. simpl in Htr. rewrite Hcb in Htr.
  assert (Hm' : main e (launch (Some (Parsed v)) ps cb)
                = (Exit 0, set_trace (trace s5 ++ [EvLog INFO MsgDone]) s5)).
  { rewrite Hm. unfold after_transcribe.
    erewrite bind_Ret by reflexivity.
    rewrite Hnb. simpl.
    erewrite bind_Ret by reflexivity.
    erewrite bind_Ret by exact Hp.
    erewrite bind_Ret by reflexivity. reflexivity. }
  rewrite (run_of_exit _ _ _ _ Hm'). simpl. split; [reflexivity|].
  rewrite Htr, <- app_assoc. split.
  - exists (trace s4). reflexivity.
  - intros x Hx. unfold delivery_events. rewrite Hx.
    rewrite !elem_of_app, !elem_of_cons. auto 10.
Qed.

(** C9, the counterexample, in three runs after a transcription that
    succeeds with a text that is not blank.  In the first the previous
    clipboard cannot be restored: the invocation exits with status 0,
    and the failure is not logged at all.  In the second the text cannot
    be placed on the clipboard: the invocation exits with status 1, the
    failure is logged as an error by the main block, and no warning is
    logged.  In the third the clipboard is to be preserved and the
    restore delay is -1: the text is copied and the keystroke sent,
    then [time.sleep] raises ValueError outside every [try] of
    [paste_text]; the invocation exits with status 1, the error is
    logged by the main block, no warning is logged, and the previous
    clipboard is not put back. *)
Lemma delivery_failure_not_always_a_warning :
  let warnings :=
    only (fun ev => match ev with EvLog WARNING _ => true | _ => false end) in
  let copied :=
    only (fun ev => match ev with EvClipboardCopy _ => true | _ => false end) in
  let e1 := with_delivery true None [None; Some PyperclipException] None stop_env in
  let out1 := run e1 (launch sample_session sample_table (py "before")) in
  let e2 := with_delivery false None [Some PyperclipException] None stop_env in
  let out2 := run e2 (launch sample_session sample_table []) in
  let e3 := with_restore_delay (-1)%float (with_delivery true None [] None stop_env) in
  let out3 := run e3 (launch sample_session sample_table (py "before")) in
  is_blank_audio ascii_only (py "hello there") = false
  ∧ mjoin (clipboard_copy_faults e1 !! 1%nat) = Some PyperclipException
  ∧ copied (trace out1.2)
    = [EvClipboardCopy (py "hello there"); EvClipboardCopy (py "before")]
  ∧ out1.1 = Some 0
  ∧ warnings (trace out1.2) = []
  ∧ mjoin (clipboard_copy_faults e2 !! 0%nat) = Some PyperclipException
  ∧ copied (trace out2.2) = [EvClipboardCopy (py "hello there")]
  ∧ out2.1 = Some 1
  ∧ out2.1 ≠ Some 0
  ∧ last (trace out2.2) = Some (EvLog ERROR (MsgError PyperclipException))
  ∧ warnings (trace out2.2) = []
  ∧ sleep_fault (S2T_CLIPBOARD_RESTORE_DELAY e3) = Some ValueError
  ∧ copied (trace out3.2) = [EvClipboardCopy (py "hello there")]
  ∧ only is_keystroke (trace out3.2) = [EvKeystroke]
  ∧ out3.1 = Some 1
  ∧ out3.1 ≠ Some 0
  ∧ last (trace out3.2) = Some (EvLog ERROR (MsgError ValueError))
  ∧ warnings (trace out3.2) = []
  ∧ clipboard out3.2 = py "hello there".
Proof.
  vm_compute. repeat split; discriminate.
Qed.

(** *** Records that cannot be read *)

(** C6, the counterexample.  The content [{}] is not a well-formed
    session, yet [read_state] returns it (it is not absent, and nothing
    is logged); the invocation takes the stop branch and exits with
    status 1 without forking, where an idle invocation forks a worker
    and exits with status 0.  And a state file in a directory that may
    not be searched holds no session either, yet [read_state] does not
    treat it as absent: [STATE_FILE.exists()], before the [try], raises
    PermissionError; [read_state] logs nothing, the main block logs the
    error, and the invocation exits with status 1 without forking and
    leaves the file as it is. *)
Lemma incomplete_record_is_not_absent :
  let e := calm ∅ 4242 [] [] in
  let s := launch (Some (Parsed (PDict []))) ∅ [] in
  let s' := launch (Some (Inaccessible PermissionError)) ∅ [] in
  (¬ ∃ pid wav, well_formed (PDict []) pid wav)
  ∧ read_state e s = (Ret (PDict []), s)
  ∧ (read_state e s).1 ≠ Ret PNone
  ∧ (run e s).1 = Some 1
  ∧ only is_fork (trace (run e s).2) = []
  ∧ (run e (launch None ∅ [])).1 = Some 0
  ∧ only is_fork (trace (run e (launch None ∅ [])).2) = [EvFork]
  ∧ read_state e s' = (Raise (Exception PermissionError), s')
  ∧ (read_state e s').1 ≠ Ret PNone
  ∧ (run e s').1 = Some 1
  ∧ trace (run e s').2 = [EvLog ERROR (MsgError PermissionError)]
  ∧ state_file (run e s').2 = Some (Inaccessible PermissionError).
Proof.
  split.
  - intros (pid & wav & d & Heq & Hp & _). injection Heq as <-. discriminate Hp.
  - repeat split; try (vm_compute; reflexivity); discriminate.
Qed.

(** A record that parses to something other than an object stops
    [main] with an AttributeError: the invocation exits with status 1
    and the record stays where it is. *)
Lemma non_object_record_stays e ps cb l :
  boots e ->
  let out := run e (launch (Some (Parsed (PList l))) ps cb) in
  out.1 = Some 1
  ∧ state_file out.2 = Some (Parsed (PList l))
  ∧ trace out.2 = [EvLog ERROR (MsgError AttributeError)].
Proof.
  intros Hb out. subst out.
  erewrite run_of_raise.
  2:{ rewrite main_boots by exact Hb.
      erewrite bind_Ret by (apply read_state_parsed; reflexivity).
      reflexivity. }
  repeat split.
Qed.

(** C6, as the code has it: a state file that is there but cannot be
    opened or parsed is logged and treated as absent, and the
    invocation takes the start branch exactly as an idle one does; a
    state file that parses to an object without a usable process
    identifier or audio path is not treated as absent: the invocation
    takes the stop branch, clears the record and exits with status 1,
    so that the next invocation finds no record; and where the look
    whether the file is there raises, before the [try] of [read_state],
    nothing is treated as absent either: the main block logs the error
    and the invocation exits with status 1, the file left as it is. *)
Theorem corrupt_state_does_not_wedge e ps cb :
  boots e ->
  (∀ x,
     let s := launch (Some (Unreadable x)) ps cb in
     read_state e s = (Ret PNone, set_trace [EvLog ERROR (MsgFailedToReadState x)] s)
     ∧ main e s
       = start_path e (set_trace [EvLog ERROR (MsgFailedToReadState x)] (configured s))
     ∧ main e (launch None ps cb) = start_path e (configured (launch None ps cb)))
  ∧ (∀ d,
       fs_fault e UnlinkStateFile = None ->
       truthy (assoc (py "pid") d) = false ∨ truthy (assoc (py "wav_path") d) = false ->
       let out := run e (launch (Some (Parsed (PDict d))) ps cb) in
       out.1 = Some 1
       ∧ state_file out.2 = None
       ∧ trace out.2 = [EvLog ERROR MsgInvalidStateFile; EvStateUnlink])
  ∧ (∀ x,
       let s := launch (Some (Inaccessible x)) ps cb in
       read_state e s = (Raise (Exception x), s)
       ∧ (run e s).1 = Some 1
       ∧ state_file (run e s).2 = Some (Inaccessible x)
       ∧ trace (run e s).2 = [EvLog ERROR (MsgError x)]).
Proof.
  intros Hb. split; [|split].
  - intros x s. split; [reflexivity|]. split.
    + rewrite main_boots by exact Hb.
      erewrite bind_Ret by (apply read_state_unreadable; reflexivity).
      reflexivity.
    + rewrite main_boots by exact Hb.
      erewrite bind_Ret by (apply read_state_absent; reflexivity).
      reflexivity.
  - intros d Hu Hd. apply reject_run; assumption.
  - intros x s. split; [reflexivity|].
    erewrite run_of_raise.
    2:{ rewrite main_boots by exact Hb. apply bind_Raise.
        apply read_state_inaccessible. reflexivity. }
    repeat split.
Qed.

(** *** The capture loop, framed *)

Section CaptureFrame.
Context (R : relation st) `{!PreOrder R}.
Hypothesis R_audio : ∀ v s, R s (set_audio_data v s).
Hypothesis R_stop : ∀ v s, R s (set_stop_event v s).
Hypothesis R_event : ∀ ev s,
  capture_event ev = true -> R s (set_trace (trace s ++ [ev]) s).

Lemma steps_callback t0 flag clock status indata :
  steps R (callback t0 flag clock status indata).
Proof.
  steps_auto; first [ apply R_audio | apply R_stop | apply R_event; reflexivity ].
Qed.

Lemma steps_signal_handler sig : steps R (signal_handler sig).
Proof.
  steps_auto; first [ apply R_stop | apply R_event; reflexivity ].
Qed.

Lemma steps_pump t0 flag evs : steps R (pump t0 flag evs).
Proof.
  revert flag. induction evs as [|[clock status indata|sig] evs IH]; intros flag; simpl.
  - steps_one.
  - steps_one; [apply steps_callback | apply IH].
  - steps_one; [apply steps_signal_handler | apply IH].
Qed.

End CaptureFrame.

(** The stop branch neither forks nor writes a session. *)
Lemma stop_path_never_starts v :
  steps (emits (fun ev => negb (is_start_event ev))) (stop_path v).
Proof.
  steps_auto.
Qed.

Lemma log_not_start ev : is_log ev = true -> negb (is_start_event ev) = true.
Proof. destruct ev; try discriminate; reflexivity. Qed.

(** An invocation that reads a record never starts anything. *)
Lemma read_record_never_starts e ps cb v :
  v ≠ PNone ->
  Forall (fun ev => negb (is_start_event ev) = true)
    (trace (run e (launch (Some (Parsed v)) ps cb)).2).
Proof.
  intros Hv. set (s0 := launch (Some (Parsed v)) ps cb).
  destruct (boots_dec e) as [Hb|Hn].
  - destruct (run_extends e s0) as (t & Ht & Hl & _). rewrite Ht.
    apply Forall_app. split; [|eapply Forall_impl; [exact Hl | exact log_not_start]].
    rewrite main_boots by exact Hb.
    erewrite bind_Ret by (apply read_state_parsed; reflexivity).
    assert (Hd : dispatch v = stop_path v) by (destruct v; [congruence | reflexivity ..]).
    rewrite Hd.
    apply (emits_from_empty _ (configured s0)); [reflexivity|].
    apply stop_path_never_starts.
  - destruct (run_without_boot e s0 Hn) as (t & _ & _ & Ht & Hl).
    rewrite Ht. simpl. eapply Forall_impl; [exact Hl | exact log_not_start].
Qed.

Lemma daemonize_eq wav_path e s :
  daemonize_and_record wav_path e s
  = bind (mkdir MkdirTmpDir) (fun _ => bind os_fork (after_fork wav_path)) e s.
Proof. reflexivity. Qed.

(** The child never writes a session. *)
Lemma child_never_writes wav_path :
  steps (emits (fun ev => negb (is_state_write ev))) (after_fork wav_path 0).
Proof.
  unfold after_fork. change (0 <? 0) with false. unfold when at 1.
  steps_auto.
  all: apply steps_pump;
    [ typeclasses eauto | intros; steps_side | intros; steps_side
    | intros ev s H; apply emits_emit; destruct ev; try discriminate; reflexivity ].
Qed.

Lemma write_state_ok pid wav_path e s :
  fs_fault e MkdirStateDir = None ->
  fs_fault e WriteStateFile = None ->
  write_state pid wav_path e s
  = (Ret tt,
     set_state_file (Some (Parsed (session pid wav_path)))
       (set_trace (trace s ++ [EvStateWrite pid wav_path]) s)).
Proof.
  intros H1 H2. unfold write_state.
  erewrite bind_Ret by (apply mkdir_ok, H1).
  unfold try_except, bind, emit, modify, ask, attempt. simpl.
  rewrite H2. reflexivity.
Qed.

Lemma write_state_fault pid wav_path e s x :
  fs_fault e MkdirStateDir = None ->
  fs_fault e WriteStateFile = Some x ->
  write_state pid wav_path e s
  = (Exit 1,
     set_trace ((trace s ++ [EvStateWrite pid wav_path])
                ++ [EvLog ERROR (MsgFailedToWriteState x)]) s).
Proof.
  intros H1 H2. unfold write_state.
  erewrite bind_Ret by (apply mkdir_ok, H1).
  unfold try_except, bind, emit, modify, ask, attempt. simpl.
  rewrite H2. reflexivity.
Qed.

Lemma notify_start_returns e s :
  ∃ s', notify_start e s = (Ret tt, s')
        ∧ state_file s' = state_file s
        ∧ ∃ t, trace s' = trace s ++ t
               ∧ Forall (fun ev => is_start_event ev = false) t.
Proof.
  unfold notify_start, notify, try_except, bind, ask, emit, modify, attempt.
  destruct (have_terminal_notifier e); simpl.
  - eexists. split; [reflexivity|]. split; [reflexivity|].
    eexists [_]. split; [reflexivity | repeat constructor].
  - destruct (osascript_fault e); simpl;
      (eexists; split; [reflexivity|]; split; [reflexivity|];
       eexists [_]; split; [reflexivity | repeat constructor]).
Qed.

Lemma os_fork_eq e s :
  os_fork e s
  = (match fork_outcome e with
     | inl x => Raise (Exception x)
     | inr n => Ret (Z.of_N n)
     end, set_trace (trace s ++ [EvFork]) s).
Proof.
  unfold os_fork, bind, emit, modify, ask. simpl.
  destruct (fork_outcome e); reflexivity.
Qed.

(** An invocation that reads no record takes the start branch. *)
Lemma main_start e ps cb sf :
  boots e ->
  (read_state e (launch sf ps cb)).1 = Ret PNone ->
  ∃ s1, main e (launch sf ps cb) = start_path e s1
        ∧ Forall (fun ev => is_log ev = true) (trace s1).
Proof.
  intros Hb Hr. rewrite main_boots by exact Hb.
  destruct sf as [[x|v|x]|].
  - erewrite bind_Ret by (apply read_state_unreadable; reflexivity).
    eexists. split; [reflexivity|]. repeat constructor.
  - rewrite (read_state_parsed _ _ v) in Hr by reflexivity.
    simpl in Hr. injection Hr as ->.
    erewrite bind_Ret by (apply read_state_parsed; reflexivity).
    eexists. split; [reflexivity|]. constructor.
  - rewrite (read_state_inaccessible _ _ x) in Hr by reflexivity. discriminate Hr.
  - erewrite bind_Ret by (apply read_state_absent; reflexivity).
    eexists. split; [reflexivity|]. constructor.
Qed.

(** The start branch forks first; if it then writes a session and ends
    with status 0, that session is what the state file holds. *)
Lemma start_path_shape e s :
  boots e ->
  ∃ rest,
    trace (start_path e s).2 = trace s ++ EvFork :: rest
    ∧ ∀ p w, EvStateWrite p w ∈ rest ->
             exit_status (start_path e s).1 = Some 0 ->
             state_file (start_path e s).2 = Some (Parsed (session p w)).
Proof.
  intros (_ & Hms & Hmt). unfold start_path.
  erewrite bind_Ret by reflexivity.
  set (wav := TMP_DIR e ++ py "/rec-" ++ timestamp e ++ py ".wav").
  rewrite daemonize_eq.
  erewrite bind_Ret by (apply mkdir_ok, Hmt).
  set (s2 := set_trace (trace s ++ [EvFork]) s).
  destruct (fork_outcome e) as [x|n] eqn:Hf.
  - erewrite bind_Raise by (rewrite os_fork_eq, Hf; reflexivity).
    exists []. split; [reflexivity|]. intros p w Hin. inversion Hin.
  - erewrite bind_Ret by (rewrite os_fork_eq, Hf; reflexivity). fold s2.
    destruct n as [|k].
    + destruct (child_never_writes wav e s2) as (t & Ht & F).
      exists t. change (Z.of_N 0) with 0. rewrite Ht. simpl.
      rewrite <- app_assoc. split; [reflexivity|].
      intros p w Hin. rewrite Forall_forall in F. specialize (F _ Hin). discriminate F.
    + change (Z.of_N (N.pos k)) with (Z.pos k). unfold after_fork.
      change (0 <? Z.pos k) with true. unfold when.
      destruct (fs_fault e WriteStateFile) as [x|] eqn:Hw.
      * erewrite bind_Exit by (erewrite bind_Exit by (apply write_state_fault; eassumption);
                                reflexivity).
        eexists [_; _]. simpl. rewrite <- !app_assoc. split; [reflexivity|].
        intros p w _ [=].
      * destruct (notify_start_returns e
                    (set_state_file (Some (Parsed (session (Z.pos k) wav)))
                       (set_trace (trace s2 ++ [EvStateWrite (Z.pos k) wav]) s2)))
          as (s4 & Hn & Hsf & t & Ht & F).
        erewrite bind_Exit.
        2:{ erewrite bind_Ret by (apply write_state_ok; assumption).
            erewrite bind_Ret by exact Hn.
            erewrite bind_Ret by reflexivity. reflexivity. }
        exists (EvStateWrite (Z.pos k) wav :: t ++ [EvLog INFO MsgRecordingStarted]).
        simpl. rewrite Ht, Hsf. simpl. rewrite <- !app_assoc. split; [reflexivity|].
        intros p w Hin _.
        apply elem_of_cons in Hin as [[= -> ->]|Hin]; [reflexivity|].
        apply elem_of_app in Hin as [Hin|Hin].
        -- rewrite Forall_forall in F. specialize (F _ Hin). discriminate F.
        -- apply list_elem_of_singleton in Hin. discriminate Hin.
Qed.

Lemma run_status_zero e s :
  (run e s).1 = Some 0 -> exit_status (main e s).1 = Some 0.
Proof.
  unfold run. rewrite script_eq.
  destruct (main e s) as [[[]|c|[x|]|] s']; simpl; congruence.
Qed.

(** [read_state] answers, or the look whether the file is there
    raises. *)
Lemma read_state_cases e s :
  (∃ v, (read_state e s).1 = Ret v)
  ∨ (∃ x, state_file s = Some (Inaccessible x)
          ∧ read_state e s = (Raise (Exception x), s)).
Proof.
  destruct (state_file s) as [[x|v|x]|] eqn:H.
  - left. rewrite (read_state_unreadable _ _ _ H). eexists. reflexivity.
  - left. rewrite (read_state_parsed _ _ _ H). eexists. reflexivity.
  - right. exists x. split; [reflexivity | apply read_state_inaccessible, H].
  - left. rewrite (read_state_absent _ _ H). eexists. reflexivity.
Qed.

(** A state file that cannot even be looked for ends the invocation:
    nothing is done but logging, and the file stays. *)
Lemma inaccessible_run e s x :
  state_file s = Some (Inaccessible x) ->
  ∃ t, (run e s).1 = Some 1
       ∧ state_file (run e s).2 = state_file s
       ∧ trace (run e s).2 = trace s ++ t
       ∧ Forall (fun ev => is_log ev = true) t
       ∧ (boots e -> t = [EvLog ERROR (MsgError x)]).
Proof.
  intros Hs. destruct (boots_dec e) as [Hb|Hn].
  - exists [EvLog ERROR (MsgError x)].
    erewrite run_of_raise.
    2:{ rewrite main_boots by exact Hb. apply bind_Raise.
        apply read_state_inaccessible.
        unfold configured. destruct (log_sink s); exact Hs. }
    unfold configured. destruct (log_sink s); simpl; repeat split; repeat constructor.
  - destruct (run_without_boot e s Hn) as (t & H1 & H2 & H3 & H4).
    exists t. repeat split; try assumption. intros Hb. destruct (Hn Hb).
Qed.

Lemma no_start_events (t : list event) :
  Forall (fun ev => negb (is_start_event ev) = true) t ->
  (EvFork ∉ t) ∧ (∀ p w, EvStateWrite p w ∉ t).
Proof.
  intros F. rewrite Forall_forall in F.
  split; [|intros p w]; intros Hin; specialize (F _ Hin); discriminate F.
Qed.

Lemma logs_then_fork (L rest pre post : list event) p w :
  Forall (fun ev => is_log ev = true) L ->
  L ++ EvFork :: rest = pre ++ EvStateWrite p w :: post ->
  EvFork ∈ pre.
Proof.
  intros F. revert pre. induction F as [|a L Ha _ IH]; intros pre Heq.
  - destruct pre as [|b pre]; simpl in Heq; [discriminate Heq|].
    injection Heq as <- _. left.
  - destruct pre as [|b pre]; simpl in Heq.
    + injection Heq as -> _. discriminate Ha.
    + injection Heq as <- Heq. right. apply IH, Heq.
Qed.

(** A run that takes the start branch: some logging, then the fork. *)
Lemma start_run_shape e ps cb sf :
  boots e ->
  (read_state e (launch sf ps cb)).1 = Ret PNone ->
  let out := run e (launch sf ps cb) in
  ∃ L rest,
    trace out.2 = L ++ EvFork :: rest
    ∧ Forall (fun ev => is_log ev = true) L
    ∧ ∀ p w, EvStateWrite p w ∈ rest -> out.1 = Some 0 ->
             state_file out.2 = Some (Parsed (session p w)).
Proof.
  intros Hb Hr out. subst out.
  destruct (main_start e ps cb sf Hb Hr) as (s1 & Hm & HL).
  destruct (start_path_shape e s1 Hb) as (rest & Hrest & Hw).
  destruct (run_extends e (launch sf ps cb)) as (t & Ht & Hl & Hs).
  exists (trace s1), (rest ++ t). split; [|split; [exact HL|]].
  - rewrite Ht, Hm, Hrest, <- app_assoc. reflexivity.
  - intros p w Hin H0. rewrite Hs, Hm. apply Hw.
    + apply elem_of_app in Hin as [Hin|Hin]; [exact Hin|].
      rewrite Forall_forall in Hl. specialize (Hl _ Hin). discriminate Hl.
    + rewrite <- Hm. apply run_status_zero, H0.
Qed.

(** C1: an invocation that reads a record takes the stop branch ([main]
    continues as [stop_path] whenever it gets to read at all): it
    neither forks a worker nor writes a session; a fork or a write
    happens only in an invocation whose read returned nothing, and
    there the write comes after the fork.  The state file is the single
    slot of the store; once a start has written its session and ended
    with status 0, that session is what the slot holds, and whatever
    invocation comes next neither forks nor writes. *)
Theorem single_active_session e sf ps cb :
  let s0 := launch sf ps cb in
  let out := run e s0 in
  (∀ v, (read_state e s0).1 = Ret v -> v ≠ PNone ->
        (boots e -> main e s0 = stop_path v e (configured s0))
        ∧ (EvFork ∉ trace out.2) ∧ (∀ p w, EvStateWrite p w ∉ trace out.2))
  ∧ ((EvFork ∈ trace out.2 ∨ ∃ p w, EvStateWrite p w ∈ trace out.2) ->
     (read_state e s0).1 = Ret PNone)
  ∧ (∀ pre p w post,
       trace out.2 = pre ++ EvStateWrite p w :: post -> EvFork ∈ pre)
  ∧ (∀ p w, EvStateWrite p w ∈ trace out.2 -> out.1 = Some 0 ->
       state_file out.2 = Some (Parsed (session p w))
       ∧ ∀ e' ps' cb',
           let out' := run e' (launch (state_file out.2) ps' cb') in
           (EvFork ∉ trace out'.2) ∧ (∀ p' w', EvStateWrite p' w' ∉ trace out'.2)).
Proof.
  intros s0 out.
  assert (H1 : ∀ v, (read_state e s0).1 = Ret v -> v ≠ PNone ->
                    (EvFork ∉ trace out.2) ∧ (∀ p w, EvStateWrite p w ∉ trace out.2)).
  { intros v Hr Hv. apply no_start_events.
    pose proof (read_state_some e s0 v Hr Hv) as Hsf. simpl in Hsf. subst sf.
    apply read_record_never_starts, Hv. }
  assert (Hstop : ∀ v, (read_state e s0).1 = Ret v -> v ≠ PNone ->
                       boots e -> main e s0 = stop_path v e (configured s0)).
  { intros v Hr Hv Hb.
    pose proof (read_state_some e s0 v Hr Hv) as Hsf. simpl in Hsf.
    rewrite main_boots by exact Hb.
    erewrite bind_Ret by (apply read_state_parsed; subst sf; reflexivity).
    destruct v; [congruence | reflexivity ..]. }
  assert (H2 : (EvFork ∈ trace out.2 ∨ ∃ p w, EvStateWrite p w ∈ trace out.2) ->
               (read_state e s0).1 = Ret PNone).
  { intros Hin. destruct (read_state_cases e s0) as [(v & Hr)|(x & Hx & _)].
    - rewrite Hr.
      destruct v; try reflexivity;
        (destruct (H1 _ Hr ltac:(discriminate)) as (Hf & Hw);
         destruct Hin as [Hin|(p & w & Hin)]; [destruct (Hf Hin) | destruct (Hw _ _ Hin)]).
    - exfalso. destruct (inaccessible_run e s0 x Hx) as (t & _ & _ & Ht & Hl & _).
      fold out in Ht. simpl in Ht. rewrite Forall_forall in Hl.
      destruct Hin as [Hin|(p & w & Hin)]; rewrite Ht in Hin;
        specialize (Hl _ Hin); discriminate Hl. }
  assert (Hlogs : ¬ boots e -> ∀ p w, EvStateWrite p w ∉ trace out.2).
  { intros Hn p w Hin. destruct (run_without_boot e s0 Hn) as (t & _ & _ & Ht & Hl).
    fold out in Ht. rewrite Ht in Hin. simpl in Hin.
    rewrite Forall_forall in Hl. specialize (Hl _ Hin). discriminate Hl. }
  split; [intros v Hr Hv; split; [exact (Hstop v Hr Hv) | exact (H1 v Hr Hv)]|].
  split; [exact H2|]. split.
  - intros pre p w post Heq.
    assert (Hin : EvStateWrite p w ∈ trace out.2).
    { rewrite Heq. apply elem_of_app. right. left. }
    destruct (boots_dec e) as [Hb|Hn]; [|destruct (Hlogs Hn _ _ Hin)].
    pose proof (H2 (or_intror (ex_intro _ p (ex_intro _ w Hin)))) as Hr.
    destruct (start_run_shape e ps cb sf Hb Hr) as (L & rest & Ht & HL & _).
    fold s0 out in Ht. rewrite Ht in Heq.
    exact (logs_then_fork _ _ _ _ _ _ HL Heq).
  - intros p w Hin H0.
    destruct (boots_dec e) as [Hb|Hn]; [|destruct (Hlogs Hn _ _ Hin)].
    pose proof (H2 (or_intror (ex_intro _ p (ex_intro _ w Hin)))) as Hr.
    destruct (start_run_shape e ps cb sf Hb Hr) as (L & rest & Ht & HL & Hw).
    fold s0 out in Ht, Hw.
    assert (Hsf : state_file out.2 = Some (Parsed (session p w))).
    { apply Hw; [|exact H0]. rewrite Ht in Hin.
      apply elem_of_app in Hin as [Hin|Hin].
      - rewrite Forall_forall in HL. specialize (HL _ Hin). discriminate HL.
      - apply elem_of_cons in Hin as [Hin|Hin]; [discriminate Hin | exact Hin]. }
    split; [exact Hsf|]. intros e' ps' cb' out'. subst out'. rewrite Hsf.
    apply no_start_events, read_record_never_starts. discriminate.
Qed.

(** *** The capture loop *)

Lemma pump_app t0 flag (l1 l2 : list stream_event) e s :
  pump t0 flag (l1 ++ l2) e s
  = bind (pump t0 flag l1) (fun flag' => pump t0 flag' l2) e s.
Proof.
  revert flag s. induction l1 as [|[clock status indata|sig] l1 IH]; intros flag s.
  - reflexivity.
  - change (pump t0 flag ((Chunk clock status indata :: l1) ++ l2))
      with (bind (callback t0 flag clock status indata)
              (fun t => pump t0 t (l1 ++ l2))).
    change (pump t0 flag (Chunk clock status indata :: l1))
      with (bind (callback t0 flag clock status indata) (fun t => pump t0 t l1)).
    unfold bind.
    destruct (callback t0 flag clock status indata e s) as [[b|c|x|] s1];
      try reflexivity. apply IH.
  - change (pump t0 flag ((Signal sig :: l1) ++ l2))
      with (bind (signal_handler sig) (fun _ => pump t0 flag (l1 ++ l2))).
    change (pump t0 flag (Signal sig :: l1))
      with (bind (signal_handler sig) (fun _ => pump t0 flag l1)).
    unfold bind.
    destruct (signal_handler sig e s) as [[[]|c|x|] s1]; try reflexivity. apply IH.
Qed.

Lemma only_app q (t1 t2 : list event) : only q (t1 ++ t2) = only q t1 ++ only q t2.
Proof. apply List.filter_app. Qed.

Lemma only_quiet t :
  Forall (fun ev => quiet_event ev = true) t ->
  only is_timer_stop t = [] ∧ only is_wav_write t = [].
Proof.
  induction 1 as [|ev t Hev _ [IH1 IH2]]; [split; reflexivity|].
  unfold quiet_event in Hev. apply andb_true_iff in Hev as [H1 H2].
  apply negb_true_iff in H1, H2. simpl. rewrite H1, H2. auto.
Qed.

(** A callback before the cutoff: the chunk is appended unless the stop
    is already set. *)
Lemma callback_early e s flag clock status indata :
  timer_expired (start_clock e) clock (S2T_MAX_SECONDS e) = false ->
  ∃ s', callback (start_clock e) flag clock status indata e s = (Ret flag, s')
        ∧ audio_data s' = (if stop_event s then audio_data s
                           else audio_data s ++ [indata])
        ∧ stop_event s' = stop_event s
        ∧ emits quiet_event s s'.
Proof.
  intros Hlt. unfold callback.
  assert (Hc : (0 <? S2T_MAX_SECONDS e) && negb flag
               && timer_expired (start_clock e) clock (S2T_MAX_SECONDS e) = false).
  { apply andb_false_iff. right. exact Hlt. }
  unfold bind, when, logging, emit, modify, ask, get, ret.
  destruct status; cbv beta iota; rewrite Hc;
    unfold bind, when, logging, emit, modify, ask, get, ret.
  all: simpl; destruct (stop_event s) eqn:Hs; simpl;
    eexists; (split; [reflexivity|]); simpl; rewrite ?Hs;
    (split; [reflexivity|]); (split; [reflexivity|]);
    first [ apply emits_same; reflexivity
          | apply (emits_emit quiet_event (EvLog WARNING MsgAudioStatus) s); reflexivity ].
Qed.

(** A callback once the flag is up: nothing is appended. *)
Lemma callback_late e s clock status indata :
  stop_event s = true ->
  ∃ s', callback (start_clock e) true clock status indata e s = (Ret true, s')
        ∧ audio_data s' = audio_data s
        ∧ stop_event s' = true
        ∧ emits quiet_event s s'.
Proof.
  intros Hs. unfold callback.
  assert (Hc : (0 <? S2T_MAX_SECONDS e) && negb true
               && timer_expired (start_clock e) clock (S2T_MAX_SECONDS e) = false).
  { apply andb_false_iff. left. apply andb_false_r. }
  unfold bind, when, logging, emit, modify, ask, get, ret.
  destruct status; cbv beta iota; rewrite Hc;
    unfold bind, when, logging, emit, modify, ask, get, ret.
  all: simpl; rewrite Hs; simpl;
    eexists; (split; [reflexivity|]); simpl;
    (split; [reflexivity|]); (split; [exact Hs|]);
    first [ apply emits_same; reflexivity
          | apply (emits_emit quiet_event (EvLog WARNING MsgAudioStatus) s); reflexivity ].
Qed.

(** The callback at the cutoff: the stop is raised, the chunk is not
    appended. *)
Lemma callback_cutoff e s clock status indata :
  0 < S2T_MAX_SECONDS e ->
  timer_expired (start_clock e) clock (S2T_MAX_SECONDS e) = true ->
  ∃ s' t, callback (start_clock e) false clock status indata e s = (Ret true, s')
          ∧ audio_data s' = audio_data s
          ∧ stop_event s' = true
          ∧ trace s' = trace s ++ t
          ∧ only is_timer_stop t = [EvStopSet true]
          ∧ only is_wav_write t = [].
Proof.
  intros HD Hge. unfold callback.
  assert (Hc : (0 <? S2T_MAX_SECONDS e) && negb false
               && timer_expired (start_clock e) clock (S2T_MAX_SECONDS e) = true).
  { rewrite !andb_true_iff. repeat split; [apply Z.ltb_lt, HD | exact Hge]. }
  unfold bind, when, logging, emit, modify, ask, get, ret.
  destruct status; cbv beta iota; rewrite Hc;
    unfold bind, when, logging, emit, modify, ask, get, ret.
  - eexists _, [_; _; _]. split; [reflexivity|]. simpl.
    rewrite <- !app_assoc. repeat split.
  - eexists _, [_; _]. split; [reflexivity|]. simpl.
    rewrite <- !app_assoc. repeat split.
Qed.

Lemma signal_handler_eq sig e s :
  signal_handler sig e s
  = (Ret tt, set_stop_event true (set_trace (trace s ++ [EvStopSet false]) s)).
Proof. reflexivity. Qed.

(** After the stop is raised, the rest of the stream leaves the buffer
    alone. *)
Lemma pump_late e post s :
  stop_event s = true ->
  ∃ s', pump (start_clock e) true post e s = (Ret true, s')
        ∧ audio_data s' = audio_data s
        ∧ stop_event s' = true
        ∧ emits quiet_event s s'.
Proof.
  revert s. induction post as [|[clock status indata|sig] post IH]; intros s Hs.
  - exists s. repeat split; [exact Hs | reflexivity].
  - destruct (callback_late e s clock status indata Hs) as (s1 & Hc & Ha & Hs1 & He).
    destruct (IH s1 Hs1) as (s' & Hp & Ha' & Hs' & He').
    exists s'. split; [|split; [congruence | split; [exact Hs' | etransitivity; eassumption]]].
    simpl. erewrite bind_Ret by exact Hc. exact Hp.
  - destruct (IH (set_stop_event true (set_trace (trace s ++ [EvStopSet false]) s)) eq_refl)
      as (s' & Hp & Ha' & Hs' & He').
    exists s'. split; [|split; [exact Ha' | split; [exact Hs'|]]].
    + simpl. erewrite bind_Ret by apply signal_handler_eq. exact Hp.
    + etransitivity; [|exact He']. apply (emits_emit quiet_event (EvStopSet false) s).
      reflexivity.
Qed.

(** Before the cutoff, the buffer receives the chunks that arrive
    before the first signal, in order. *)
Lemma pump_early e pre s :
  Forall (early e) pre ->
  ∃ s', pump (start_clock e) false pre e s = (Ret false, s')
        ∧ audio_data s' = audio_data s
                          ++ (if stop_event s then [] else chunks_of (before_signal pre))
        ∧ emits quiet_event s s'.
Proof.
  intros F. revert s. induction F as [|[clock status indata|sig] pre Hev _ IH]; intros s.
  - exists s. split; [reflexivity|]. split; [|reflexivity].
    destruct (stop_event s); simpl; rewrite app_nil_r; reflexivity.
  - destruct (callback_early e s false clock status indata Hev)
      as (s1 & Hc & Ha & Hs1 & He).
    destruct (IH s1) as (s' & Hp & Ha' & He').
    exists s'. split; [|split; [|etransitivity; eassumption]].
    + simpl. erewrite bind_Ret by exact Hc. exact Hp.
    + rewrite Ha', Ha, Hs1. destruct (stop_event s); [reflexivity|].
      simpl. rewrite <- app_assoc. reflexivity.
  - destruct (IH (set_stop_event true (set_trace (trace s ++ [EvStopSet false]) s)))
      as (s' & Hp & Ha' & He').
    exists s'. split; [|split].
    + simpl. erewrite bind_Ret by apply signal_handler_eq. exact Hp.
    + rewrite Ha'. simpl. destruct (stop_event s); reflexivity.
    + etransitivity; [|exact He']. apply (emits_emit quiet_event (EvStopSet false) s).
      reflexivity.
Qed.

(** The whole stream of a run that reaches the cutoff. *)
Lemma pump_cutoff e pre clock status indata post s :
  0 < S2T_MAX_SECONDS e ->
  Forall (early e) pre ->
  timer_expired (start_clock e) clock (S2T_MAX_SECONDS e) = true ->
  ∃ s' t,
    pump (start_clock e) false (pre ++ Chunk clock status indata :: post) e s
    = (Ret true, s')
    ∧ audio_data s' = audio_data s
                      ++ (if stop_event s then [] else chunks_of (before_signal pre))
    ∧ stop_event s' = true
    ∧ trace s' = trace s ++ t
    ∧ only is_timer_stop t = [EvStopSet true]
    ∧ only is_wav_write t = [].
Proof.
  intros HD F Hge.
  destruct (pump_early e pre s F) as (s1 & H1 & Ha1 & (t1 & Ht1 & F1)).
  destruct (callback_cutoff e s1 clock status indata HD Hge)
    as (s2 & t2 & H2 & Ha2 & Hs2 & Ht2 & Hq2 & Hw2).
  destruct (pump_late e post s2 Hs2) as (s3 & H3 & Ha3 & Hs3 & (t3 & Ht3 & F3)).
  destruct (only_quiet _ F1) as [Q1 W1]. destruct (only_quiet _ F3) as [Q3 W3].
  exists s3, (t1 ++ t2 ++ t3). split; [|split; [congruence|split; [exact Hs3|split; [|split]]]].
  - rewrite pump_app. erewrite bind_Ret by exact H1.
    change (pump (start_clock e) false (Chunk clock status indata :: post))
      with (bind (callback (start_clock e) false clock status indata)
              (fun t => pump (start_clock e) t post)).
    erewrite bind_Ret by exact H2. exact H3.
  - rewrite Ht3, Ht2, Ht1, <- !app_assoc. reflexivity.
  - rewrite !only_app, Q1, Hq2, Q3. reflexivity.
  - rewrite !only_app, W1, Hw2, W3. reflexivity.
Qed.

Lemma log_device_returns e s :
  ∃ s', log_device e s = (Ret tt, s')
        ∧ audio_data s' = audio_data s
        ∧ stop_event s' = stop_event s
        ∧ emits quiet_event s s'.
Proof.
  unfold log_device, try_except, bind, ask, logging, emit, modify, raise.
  destruct (query_devices e) as [x|name]; [|destruct (S2T_AUDIO_DEVICE e)]; simpl;
    eexists; (split; [reflexivity|]); (split; [reflexivity|]); (split; [reflexivity|]);
    (eexists [_]; split; [reflexivity | repeat constructor]).
Qed.

(** C2: in a capture run with a maximum duration D > 0, the first chunk
    at which the callback's own test [time.monotonic() - start_time >=
    S2T_MAX_SECONDS] holds (the elapsed time being the difference of
    the two float readings, rounded as floats are) raises the stop,
    exactly once in the run, and is not appended; nothing delivered
    after it is appended either.  The buffer, and the one file written
    from it, hold exactly the chunks appended before the cutoff (those
    that arrived before any signal), concatenated in order of arrival;
    with an empty buffer no file is written. *)
Theorem cutoff_drops_boundary_chunk e wav s pre clock status indata post :
  0 < S2T_MAX_SECONDS e ->
  stop_event s = false ->
  input_stream e = inr (pre ++ Chunk clock status indata :: post) ->
  Forall (early e) pre ->
  timer_expired (start_clock e) clock (S2T_MAX_SECONDS e) = true ->
  let out := record_audio wav e s in
  let appended := chunks_of (before_signal pre) in
  ∃ t,
    trace out.2 = trace s ++ t
    ∧ only is_timer_stop t = [EvStopSet true]
    ∧ audio_data out.2 = appended
    ∧ only is_wav_write t
      = (if bool_decide (appended = []) then []
         else [EvWavWrite wav SAMPLE_RATE (concat appended)])
    ∧ (wav_write_fault e = None -> out.1 = Ret tt).
Proof.
  intros HD Hs0 Hin F Hge out appended. subst out.
  unfold record_audio.
  erewrite bind_Ret by reflexivity.
  erewrite bind_Ret by reflexivity. cbv beta zeta.
  set (sa := set_audio_data [] s).
  destruct (log_device_returns e sa) as (sb & Hlog & Hab & Hsb & (tb & Htb & Fb)).
  erewrite bind_Ret by exact Hlog.
  rewrite Hin.
  set (sc := set_trace ((trace sb ++ [EvLog INFO (MsgRecordingTo wav)])
                        ++ [EvLog INFO (MsgMaxDuration (S2T_MAX_SECONDS e))]) sb).
  destruct (pump_cutoff e pre clock status indata post sc HD F Hge)
    as (sp & tp & Hp & Hap & Hsp & Htp & Qp & Wp).
  assert (Hap' : audio_data sp = appended).
  { rewrite Hap. simpl. rewrite Hsb, Hab. simpl. rewrite Hs0. reflexivity. }
  destruct (only_quiet _ Fb) as [Qb Wb].
  assert (Hstream :
            bind (logging INFO (MsgRecordingTo wav)) (fun _ =>
            bind (if 0 <? S2T_MAX_SECONDS e
                  then logging INFO (MsgMaxDuration (S2T_MAX_SECONDS e))
                  else logging INFO MsgMaxDurationUnlimited) (fun _ =>
            bind (pump (start_clock e) false (pre ++ Chunk clock status indata :: post))
              (fun _ => wait_for_stop))) e sb
            = (Ret tt, sp)).
  { erewrite bind_Ret by reflexivity.
    apply Z.ltb_lt in HD. rewrite HD.
    erewrite bind_Ret by reflexivity.
    erewrite bind_Ret by exact Hp.
    unfold wait_for_stop, bind, get. rewrite Hsp. reflexivity. }
  assert (Htsp : trace sp = trace s ++ tb ++ [EvLog INFO (MsgRecordingTo wav);
                   EvLog INFO (MsgMaxDuration (S2T_MAX_SECONDS e))] ++ tp).
  { rewrite Htp. simpl. rewrite Htb. simpl. rewrite <- !app_assoc. reflexivity. }
  destruct (bool_decide_reflect (appended = [])) as [Hempty|Hne].
  - eexists (tb ++ [_; _] ++ tp ++ [_]).
    erewrite try_Ret.
    2:{ erewrite bind_Ret by exact Hstream.
        erewrite bind_Ret by reflexivity.
        rewrite Hap', Hempty. reflexivity. }
    split; [simpl; rewrite Htsp, <- !app_assoc; reflexivity|].
    rewrite !only_app, Qb, Wb, Qp, Wp. simpl. rewrite Hap', Hempty. repeat split.
  - destruct (wav_write_fault e) as [x|] eqn:Hf.
    + eexists (tb ++ [_; _] ++ tp ++ [_; _; _]).
      erewrite try_Raise.
      2:{ erewrite bind_Ret by exact Hstream.
          erewrite bind_Ret by reflexivity.
          rewrite Hap', bool_decide_eq_false_2 by exact Hne. simpl.
          erewrite bind_Ret by reflexivity.
          apply bind_Raise. unfold wav_write.
          erewrite bind_Ret by reflexivity.
          erewrite bind_Ret by reflexivity. rewrite Hf. reflexivity. }
      split; [simpl; rewrite Htsp, <- !app_assoc; reflexivity|].
      rewrite !only_app, Qb, Wb, Qp, Wp. simpl. rewrite Hap'.
      repeat split. intros [=].
    + eexists (tb ++ [_; _] ++ tp ++ [_; _; _]).
      erewrite try_Ret.
      2:{ erewrite bind_Ret by exact Hstream.
          erewrite bind_Ret by reflexivity.
          rewrite Hap', bool_decide_eq_false_2 by exact Hne. simpl.
          erewrite bind_Ret by reflexivity.
          erewrite bind_Ret.
          2:{ unfold wav_write.
              erewrite bind_Ret by reflexivity.
              erewrite bind_Ret by reflexivity. rewrite Hf. reflexivity. }
          reflexivity. }
      split; [simpl; rewrite Htsp, <- !app_assoc; reflexivity|].
      rewrite !only_app, Qb, Wb, Qp, Wp. simpl. rewrite Hap'. repeat split.
Qed.

(** *** What the signalling step can find *)

Lemma os_kill_present z sig p e s :
  fits_pid_t z = true ->
  procs s !! z = Some p ->
  may_signal p = true ->
  os_kill (PInt z) sig e s
  = (Ret tt,
     match sig with
     | SIG0 => set_trace (trace s ++ [EvKill z sig]) s
     | _ => set_procs (<[z := mark_signalled p]> (procs s))
              (set_trace (trace s ++ [EvKill z sig]) s)
     end).
Proof.
  intros Hfit Hp Hm. unfold os_kill. change (as_index (PInt z)) with (Some z).
  cbv beta iota. rewrite Hfit. unfold bind, emit, modify, get. simpl.
  rewrite Hp, Hm. destruct sig; reflexivity.
Qed.

Lemma os_kill_foreign z sig p e s :
  fits_pid_t z = true ->
  procs s !! z = Some p ->
  may_signal p = false ->
  os_kill (PInt z) sig e s
  = (Raise (Exception PermissionError), set_trace (trace s ++ [EvKill z sig]) s).
Proof.
  intros Hfit Hp Hm. unfold os_kill. change (as_index (PInt z)) with (Some z).
  cbv beta iota. rewrite Hfit. unfold bind, emit, modify, get. simpl.
  rewrite Hp, Hm. reflexivity.
Qed.

Lemma sleep_procs e s :
  time_sleep PollInterval e s
  = (Ret tt, set_procs (omap tick (procs s))
               (set_trace (trace s ++ [EvSleep PollInterval]) s)).
Proof. reflexivity. Qed.

(** One round of the polling loop on a process that is still there. *)
Lemma poll_round z p n e s :
  fits_pid_t z = true ->
  procs s !! z = Some p ->
  may_signal p = true ->
  poll (PInt z) (S n) e s
  = poll (PInt z) n e
      (set_procs (omap tick (procs s))
         (set_trace ((trace s ++ [EvKill z SIG0]) ++ [EvSleep PollInterval]) s)).
Proof.
  intros Hfit Hp Hm.
  change (poll (PInt z) (S n))
    with (bind (try_except
                  (bind (os_kill (PInt z) SIG0) (fun _ =>
                   bind (time_sleep PollInterval) (fun _ => ret false)))
                  (except_ProcessLookupError (ret true)))
            (fun gone : bool => if gone then ret true else poll (PInt z) n)).
  erewrite bind_Ret.
  2:{ apply try_Ret.
      erewrite bind_Ret by (apply (os_kill_present _ _ _ _ _ Hfit Hp Hm)).
      erewrite bind_Ret by apply sleep_procs. reflexivity. }
  reflexivity.
Qed.

(** One round of the polling loop on a process that is gone. *)
Lemma poll_gone z n e s :
  fits_pid_t z = true ->
  procs s !! z = None ->
  poll (PInt z) (S n) e s = (Ret true, set_trace (trace s ++ [EvKill z SIG0]) s).
Proof.
  intros Hfit Hp.
  change (poll (PInt z) (S n))
    with (bind (try_except
                  (bind (os_kill (PInt z) SIG0) (fun _ =>
                   bind (time_sleep PollInterval) (fun _ => ret false)))
                  (except_ProcessLookupError (ret true)))
            (fun gone : bool => if gone then ret true else poll (PInt z) n)).
  erewrite bind_Ret.
  2:{ erewrite try_Raise by (apply bind_Raise, os_kill_missing; assumption).
      reflexivity. }
  reflexivity.
Qed.

(** A signalled worker that goes within the window is seen to go. *)
Lemma poll_leaving z e n :
  fits_pid_t z = true ->
  ∀ k s, procs s !! z = Some (leaving n) -> (n + 2 <= k)%nat ->
         ∃ s', poll (PInt z) k e s = (Ret true, s')
               ∧ procs s' !! z = None
               ∧ emits stop_daemon_event s s'.
Proof.
  intros Hfit. induction n as [|n IH]; intros k s Hp Hk.
  - destruct k as [|[|k]]; try lia.
    rewrite (poll_round _ _ _ _ _ Hfit Hp eq_refl).
    rewrite poll_gone; [|exact Hfit|simpl; rewrite lookup_omap, Hp; reflexivity].
    eexists. split; [reflexivity|]. simpl. split.
    + rewrite lookup_omap, Hp. reflexivity.
    + eexists [_; _; _]. split; [rewrite <- !app_assoc; reflexivity | repeat constructor].
  - destruct k as [|k]; try lia.
    rewrite (poll_round _ _ _ _ _ Hfit Hp eq_refl).
    edestruct (IH k) as (s' & Hs' & Hgone & (t & Ht & F));
      [|shelve|exists s'; split; [exact Hs'|split; [exact Hgone|]]].
    + simpl. rewrite lookup_omap, Hp. reflexivity.
    + exists ([EvKill z SIG0; EvSleep PollInterval] ++ t). split.
      * rewrite Ht. simpl. rewrite <- !app_assoc. reflexivity.
      * repeat constructor. exact F.
    Unshelve. lia.
Qed.

(** The worker exits within the wait: [stop_daemon] answers true. *)
Lemma stop_daemon_exits_in_time pid n e s :
  fits_pid_t pid = true ->
  procs s !! pid = Some (worker n) ->
  (n + 2 <= 50)%nat ->
  ∃ s', stop_daemon (PInt pid) e s = (Ret true, s')
        ∧ procs s' !! pid = None
        ∧ emits stop_daemon_event s s'.
Proof.
  intros Hfit Hp Hn. unfold stop_daemon.
  set (s1 := set_procs (<[pid := mark_signalled (worker n)]> (procs s))
               (set_trace (trace s ++ [EvKill pid SIGINT]) s)).
  destruct (poll_leaving pid e n Hfit 50%nat s1) as (s' & Hs' & Hgone & (t & Ht & F));
    [apply lookup_insert_eq | exact Hn |].
  exists s'. split; [|split; [exact Hgone|]].
  - apply try_Ret.
    erewrite bind_Ret by (apply (os_kill_present _ _ _ _ _ Hfit Hp eq_refl)).
    exact Hs'.
  - exists (EvKill pid SIGINT :: t). split.
    + rewrite Ht. simpl. rewrite <- app_assoc. reflexivity.
    + constructor; [reflexivity | exact F].
Qed.

Lemma poll_lingering z e :
  fits_pid_t z = true ->
  ∀ k s, procs s !! z = Some lingering ->
         ∃ s', poll (PInt z) k e s = (Ret false, s')
               ∧ procs s' !! z = Some lingering
               ∧ last (trace s') = Some (EvLog WARNING MsgDaemonDidNotExit).
Proof.
  intros Hfit. induction k as [|k IH]; intros s Hp.
  - eexists. split; [reflexivity|]. simpl. split; [exact Hp | apply last_snoc].
  - rewrite (poll_round _ _ _ _ _ Hfit Hp eq_refl). apply IH.
    simpl. rewrite lookup_omap, Hp. reflexivity.
Qed.

(** The worker is still there after the wait: [stop_daemon] logs a
    warning and answers false. *)
Lemma stop_daemon_still_alive pid e s :
  fits_pid_t pid = true ->
  procs s !! pid = Some stuck_worker ->
  ∃ s', stop_daemon (PInt pid) e s = (Ret false, s')
        ∧ procs s' !! pid = Some lingering
        ∧ last (trace s') = Some (EvLog WARNING MsgDaemonDidNotExit).
Proof.
  intros Hfit Hp. unfold stop_daemon.
  set (s1 := set_procs (<[pid := mark_signalled stuck_worker]> (procs s))
               (set_trace (trace s ++ [EvKill pid SIGINT]) s)).
  destruct (poll_lingering pid e Hfit 50%nat s1) as (s' & Hs' & Hstill & Hlast);
    [apply lookup_insert_eq|].
  exists s'. split; [|split; assumption].
  apply try_Ret.
  erewrite bind_Ret by (apply (os_kill_present _ _ _ _ _ Hfit Hp eq_refl)).
  exact Hs'.
Qed.

(** The worker cannot be signalled: [stop_daemon] logs an error and
    answers false. *)
Lemma stop_daemon_not_permitted pid p e s :
  fits_pid_t pid = true ->
  procs s !! pid = Some p ->
  may_signal p = false ->
  stop_daemon (PInt pid) e s
  = (Ret false,
     set_trace ((trace s ++ [EvKill pid SIGINT])
                ++ [EvLog ERROR (MsgFailedToStopDaemon PermissionError)]) s).
Proof.
  intros Hfit Hp Hm. unfold stop_daemon.
  assert (H : bind (os_kill (PInt pid) SIGINT) (fun _ => poll (PInt pid) 50) e s
              = (Raise (Exception PermissionError),
                 set_trace (trace s ++ [EvKill pid SIGINT]) s)).
  { apply bind_Raise. eapply os_kill_foreign; eassumption. }
  rewrite (try_Raise _ _ _ _ _ _ H). reflexivity.
Qed.

(** ** The theorems at sample runs *)

Lemma single_active_session_witness :
  (read_state stop_env (launch sample_session sample_table [])).1
  = Ret (session 4242 sample_wav)
  ∧ session 4242 sample_wav ≠ PNone
  ∧ (EvFork ∉ trace (run stop_env (launch sample_session sample_table [])).2)
  ∧ (∀ p w,
       EvStateWrite p w ∉ trace (run stop_env (launch sample_session sample_table [])).2).
Proof.
  assert (H1 : (read_state stop_env (launch sample_session sample_table [])).1
               = Ret (session 4242 sample_wav)) by reflexivity.
  assert (H2 : session 4242 sample_wav ≠ PNone) by discriminate.
  split; [exact H1|]. split; [exact H2|].
  exact (proj2 (proj1 (single_active_session stop_env sample_session sample_table [])
                  _ H1 H2)).
Defined.

Lemma cutoff_drops_boundary_chunk_witness :
  0 < S2T_MAX_SECONDS capped_env
  ∧ stop_event (launch None ∅ []) = false
  ∧ input_stream capped_env
    = inr (sample_pre ++ Chunk 2.5%float false [5] :: sample_post)
  ∧ Forall (early capped_env) sample_pre
  ∧ timer_expired (start_clock capped_env) 2.5%float (S2T_MAX_SECONDS capped_env) = true
  ∧ (let out := record_audio sample_wav capped_env (launch None ∅ []) in
     let appended := chunks_of (before_signal sample_pre) in
     ∃ t,
       trace out.2 = trace (launch None ∅ []) ++ t
       ∧ only is_timer_stop t = [EvStopSet true]
       ∧ audio_data out.2 = appended
       ∧ only is_wav_write t
         = (if bool_decide (appended = []) then []
            else [EvWavWrite sample_wav SAMPLE_RATE (concat appended)])
       ∧ (wav_write_fault capped_env = None -> out.1 = Ret tt)).
Proof.
  assert (H1 : 0 < S2T_MAX_SECONDS capped_env) by reflexivity.
  assert (H2 : stop_event (launch None ∅ []) = false) by reflexivity.
  assert (H3 : input_stream capped_env
               = inr (sample_pre ++ Chunk 2.5%float false [5] :: sample_post))
    by reflexivity.
  assert (H4 : Forall (early capped_env) sample_pre)
    by (repeat (constructor; [vm_compute; reflexivity|]); constructor).
  assert (H5 : timer_expired (start_clock capped_env) 2.5%float
                 (S2T_MAX_SECONDS capped_env) = true)
    by (vm_compute; reflexivity).
  repeat (split; [assumption|]).
  exact (cutoff_drops_boundary_chunk capped_env sample_wav (launch None ∅ [])
           sample_pre 2.5%float false [5] sample_post H1 H2 H3 H4 H5).
Defined.

Lemma validation_gates_transcription_witness :
  well_formed (session 4242 sample_wav) 4242 sample_wav
  ∧ (file_size bare_env !! sample_wav = None
     ∨ file_size bare_env !! sample_wav = Some 0%N)
  ∧ (let out := run bare_env (launch sample_session sample_table []) in
     out.1 = Some 1 ∧ ∀ w, EvTranscribe w ∉ trace out.2).
Proof.
  assert (H1 : well_formed (session 4242 sample_wav) 4242 sample_wav).
  { exists [(py "pid", PInt 4242); (py "wav_path", PStr sample_wav)].
    repeat split; discriminate. }
  assert (H2 : file_size bare_env !! sample_wav = None
               ∨ file_size bare_env !! sample_wav = Some 0%N)
    by (left; reflexivity).
  split; [exact H1|]. split; [exact H2|].
  exact (validation_gates_transcription bare_env sample_table []
           (session 4242 sample_wav) 4242 sample_wav H1 H2).
Defined.

(** The session is cleared when the worker goes in time, when it stays,
    when it is not there, and when it cannot be signalled. *)
Lemma session_cleared_after_signal_witness :
  boots stop_env
  ∧ fs_fault stop_env UnlinkStateFile = None
  ∧ well_formed (session 4242 sample_wav) 4242 sample_wav
  ∧ (let out := run stop_env (launch sample_session sample_table []) in
     state_file out.2 = None
     ∧ EvLog INFO MsgStoppingRecording ∈ trace out.2
     ∧ EvStateUnlink ∈ trace out.2)
  ∧ (let out := run stop_env (launch sample_session {[ 4242 := stuck_worker ]} []) in
     state_file out.2 = None
     ∧ EvLog INFO MsgStoppingRecording ∈ trace out.2
     ∧ EvStateUnlink ∈ trace out.2)
  ∧ (let out := run stop_env (launch sample_session ∅ []) in
     state_file out.2 = None
     ∧ EvLog INFO MsgStoppingRecording ∈ trace out.2
     ∧ EvStateUnlink ∈ trace out.2)
  ∧ (let out := run stop_env (launch sample_session {[ 4242 := foreign_process ]} []) in
     state_file out.2 = None
     ∧ EvLog INFO MsgStoppingRecording ∈ trace out.2
     ∧ EvStateUnlink ∈ trace out.2).
Proof.
  assert (H1 : boots stop_env) by (repeat split).
  assert (H2 : fs_fault stop_env UnlinkStateFile = None) by reflexivity.
  assert (H3 : well_formed (session 4242 sample_wav) 4242 sample_wav).
  { exists [(py "pid", PInt 4242); (py "wav_path", PStr sample_wav)].
    repeat split; discriminate. }
  split; [exact H1|]. split; [exact H2|]. split; [exact H3|].
  split; [|split; [|split]].
  - exact (session_cleared_after_signal stop_env sample_table []
             (session 4242 sample_wav) 4242 sample_wav H1 H2 H3).
  - exact (session_cleared_after_signal stop_env {[ 4242 := stuck_worker ]} []
             (session 4242 sample_wav) 4242 sample_wav H1 H2 H3).
  - exact (session_cleared_after_signal stop_env ∅ []
             (session 4242 sample_wav) 4242 sample_wav H1 H2 H3).
  - exact (session_cleared_after_signal stop_env {[ 4242 := foreign_process ]} []
             (session 4242 sample_wav) 4242 sample_wav H1 H2 H3).
Defined.

Lemma corrupt_state_does_not_wedge_witness :
  boots bare_env
  ∧ main bare_env (launch (Some (Unreadable JSONDecodeError)) ∅ [])
    = start_path bare_env
        (set_trace [EvLog ERROR (MsgFailedToReadState JSONDecodeError)]
           (configured (launch (Some (Unreadable JSONDecodeError)) ∅ [])))
  ∧ main bare_env (launch None ∅ [])
    = start_path bare_env (configured (launch None ∅ []))
  ∧ fs_fault bare_env UnlinkStateFile = None
  ∧ (truthy (assoc (py "pid") []) = false ∨ truthy (assoc (py "wav_path") []) = false)
  ∧ (let out := run bare_env (launch (Some (Parsed (PDict []))) ∅ []) in
     out.1 = Some 1
     ∧ state_file out.2 = None
     ∧ trace out.2 = [EvLog ERROR MsgInvalidStateFile; EvStateUnlink]).
Proof.
  assert (H1 : boots bare_env) by (repeat split).
  assert (H2 : fs_fault bare_env UnlinkStateFile = None) by reflexivity.
  assert (H3 : truthy (assoc (py "pid") []) = false
               ∨ truthy (assoc (py "wav_path") []) = false) by (left; reflexivity).
  split; [exact H1|].
  split; [exact (proj1 (proj2 (proj1 (corrupt_state_does_not_wedge bare_env ∅ [] H1)
                                 JSONDecodeError)))|].
  split; [exact (proj2 (proj2 (proj1 (corrupt_state_does_not_wedge bare_env ∅ [] H1)
                                 JSONDecodeError)))|].
  split; [exact H2|]. split; [exact H3|].
  exact (proj1 (proj2 (corrupt_state_does_not_wedge bare_env ∅ [] H1)) [] H2 H3).
Defined.

Lemma incomplete_session_rejected_witness :
  boots bare_env
  ∧ fs_fault bare_env UnlinkStateFile = None
  ∧ (lacks (py "pid") [(py "wav_path", PStr sample_wav)]
     ∨ lacks (py "wav_path") [(py "wav_path", PStr sample_wav)])
  ∧ (let out := run bare_env
                  (launch (Some (Parsed (PDict [(py "wav_path", PStr sample_wav)])))
                     sample_table []) in
     out.1 = Some 1
     ∧ state_file out.2 = None
     ∧ EvStateUnlink ∈ trace out.2
     ∧ (∀ p sig, EvKill p sig ∉ trace out.2)
     ∧ (∀ w, EvTranscribe w ∉ trace out.2)).
Proof.
  assert (H1 : boots bare_env) by (repeat split).
  assert (H2 : fs_fault bare_env UnlinkStateFile = None) by reflexivity.
  assert (H3 : lacks (py "pid") [(py "wav_path", PStr sample_wav)]
               ∨ lacks (py "wav_path") [(py "wav_path", PStr sample_wav)]).
  { left. unfold lacks. simpl. intros H. apply list_elem_of_singleton in H.
    discriminate H. }
  split; [exact H1|]. split; [exact H2|]. split; [exact H3|].
  exact (incomplete_session_rejected bare_env sample_table []
           [(py "wav_path", PStr sample_wav)] H1 H2 H3).
Defined.

Lemma stale_worker_tolerated_witness :
  boots bare_env
  ∧ fs_fault bare_env UnlinkStateFile = None
  ∧ well_formed (session 4242 sample_wav) 4242 sample_wav
  ∧ fits_pid_t 4242 = true
  ∧ (∅ : gmap Z proc) !! 4242 = None
  ∧ (let out := run bare_env (launch sample_session ∅ []) in
     state_file out.2 = None
     ∧ ∃ rest,
         trace out.2
         = [EvLog INFO MsgStoppingRecording; EvKill 4242 SIGINT; EvStateUnlink]
           ++ (if have_terminal_notifier bare_env then [EvTerminalNotifier true] else [])
           ++ EvProbe sample_wav :: rest
         ∧ (file_size bare_env !! sample_wav = None ->
            out.1 = Some 1 ∧ rest = [EvLog ERROR MsgRecordingFileMissing])).
Proof.
  assert (H1 : boots bare_env) by (repeat split).
  assert (H2 : fs_fault bare_env UnlinkStateFile = None) by reflexivity.
  assert (H3 : well_formed (session 4242 sample_wav) 4242 sample_wav).
  { exists [(py "pid", PInt 4242); (py "wav_path", PStr sample_wav)].
    repeat split; discriminate. }
  assert (H4 : fits_pid_t 4242 = true) by reflexivity.
  assert (H5 : (∅ : gmap Z proc) !! 4242 = None) by reflexivity.
  split; [exact H1|]. split; [exact H2|]. split; [exact H3|].
  split; [exact H4|]. split; [exact H5|].
  exact (stale_worker_tolerated bare_env ∅ [] (session 4242 sample_wav) 4242
           sample_wav H1 H2 H3 H4 H5).
Defined.

Lemma delivery_faults_tolerated_witness :
  boots flaky_delivery_env
  ∧ well_formed (session 4242 sample_wav) 4242 sample_wav
  ∧ file_size flaky_delivery_env !! sample_wav = Some 1000%N
  ∧ 1000%N ≠ 0%N
  ∧ model_load_fault flaky_delivery_env = None
  ∧ whisper flaky_delivery_env sample_wav = inr [py " hello there "]
  ∧ is_blank_audio (py_unicode flaky_delivery_env)
      (Str.strip (py_unicode flaky_delivery_env) (concat [py " hello there "])) = false
  ∧ mjoin (clipboard_copy_faults flaky_delivery_env !! 0%nat) = None
  ∧ restore_delay_ok flaky_delivery_env
  ∧ (let out := run flaky_delivery_env (launch sample_session sample_table []) in
     let text :=
       Str.strip (py_unicode flaky_delivery_env) (concat [py " hello there "]) in
     out.1 = Some 0
     ∧ (∃ before,
          trace out.2
          = before ++ delivery_events flaky_delivery_env text []
            ++ [EvLog INFO MsgDone])
     ∧ (∀ x, osascript_fault flaky_delivery_env = Some x ->
             EvLog WARNING (MsgFailedToPaste x) ∈ trace out.2)).
Proof.
  assert (H1 : boots flaky_delivery_env) by (repeat split).
  assert (H2 : well_formed (session 4242 sample_wav) 4242 sample_wav).
  { exists [(py "pid", PInt 4242); (py "wav_path", PStr sample_wav)].
    repeat split; discriminate. }
  assert (H3 : file_size flaky_delivery_env !! sample_wav = Some 1000%N)
    by reflexivity.
  assert (H4 : 1000%N ≠ 0%N) by discriminate.
  assert (H5 : model_load_fault flaky_delivery_env = None) by reflexivity.
  assert (H6 : whisper flaky_delivery_env sample_wav = inr [py " hello there "])
    by reflexivity.
  assert (H7 : is_blank_audio (py_unicode flaky_delivery_env)
                 (Str.strip (py_unicode flaky_delivery_env)
                    (concat [py " hello there "])) = false)
    by (vm_compute; reflexivity).
  assert (H8 : mjoin (clipboard_copy_faults flaky_delivery_env !! 0%nat) = None)
    by reflexivity.
  assert (H9 : restore_delay_ok flaky_delivery_env)
    by (intros _ _; vm_compute; reflexivity).
  repeat (split; [assumption|]).
  exact (delivery_faults_tolerated flaky_delivery_env sample_table []
           (session 4242 sample_wav) 4242 sample_wav 1000%N [py " hello there "]
           H1 H2 H3 H4 H5 H6 H7 H8 H9).
Defined.

Lemma falsy_fields_rejected_witness :
  boots bare_env
  ∧ fs_fault bare_env UnlinkStateFile = None
  ∧ assoc (py "pid") [(py "pid", PInt 0); (py "wav_path", PStr sample_wav)] = PInt 0
  ∧ assoc (py "wav_path") [(py "pid", PInt 0); (py "wav_path", PStr sample_wav)]
    = PStr sample_wav
  ∧ (0 = 0 ∨ sample_wav = [])
  ∧ (let out := run bare_env
                  (launch (Some (Parsed (PDict [(py "pid", PInt 0);
                                                (py "wav_path", PStr sample_wav)])))
                     sample_table []) in
     out.1 = Some 1
     ∧ state_file out.2 = None
     ∧ trace out.2 = [EvLog ERROR MsgInvalidStateFile; EvStateUnlink]).
Proof.
  assert (H1 : boots bare_env) by (repeat split).
  assert (H2 : fs_fault bare_env UnlinkStateFile = None) by reflexivity.
  assert (H3 : assoc (py "pid") [(py "pid", PInt 0); (py "wav_path", PStr sample_wav)]
               = PInt 0) by reflexivity.
  assert (H4 : assoc (py "wav_path")
                 [(py "pid", PInt 0); (py "wav_path", PStr sample_wav)]
               = PStr sample_wav) by reflexivity.
  assert (H5 : 0 = 0 ∨ sample_wav = []) by (left; reflexivity).
  repeat (split; [assumption|]).
  exact (falsy_fields_rejected bare_env sample_table []
           [(py "pid", PInt 0); (py "wav_path", PStr sample_wav)] 0 sample_wav
           H1 H2 H3 H4 H5).
Defined.

(** * Further properties of the script *)

(** ** The state store *)

(** X2: [clear_state] is idempotent: wherever the state file can be
    looked for, clearing twice is clearing once, the state is absent
    afterwards, and with no state file it does nothing at all (no
    unlink is attempted, nothing is logged).  Where the look itself
    raises, [clear_state] only logs that failure, each time it is
    called, and leaves the file as it is. *)
Theorem clear_state_idempotent e s :
  fs_fault e UnlinkStateFile = None ->
  (accessible s ->
   bind clear_state (fun _ => clear_state) e s = clear_state e s
   ∧ state_file (clear_state e s).2 = None
   ∧ (state_file s = None -> clear_state e s = (Ret tt, s)))
  ∧ (∀ x, state_file s = Some (Inaccessible x) ->
          clear_state e s
          = (Ret tt, set_trace (trace s ++ [EvLog ERROR (MsgFailedToClearState x)]) s)).
Proof.
  intros Hu.
  assert (Habsent : ∀ s0, state_file s0 = None -> clear_state e s0 = (Ret tt, s0)).
  { intros s0 H0. unfold clear_state, STATE_FILE_exists, try_except, bind, get, when.
    rewrite H0. reflexivity. }
  split.
  - intros Ha.
    split; [|split; [apply clear_state_clears; assumption | apply Habsent]].
    destruct (clear_state_returns e s) as (s1 & H1).
    erewrite bind_Ret by exact H1. rewrite H1. apply Habsent.
    pose proof (clear_state_clears e s Hu Ha) as H. rewrite H1 in H. exact H.
  - intros x Hx. unfold clear_state, STATE_FILE_exists, try_except, bind, get, when.
    rewrite Hx. reflexivity.
Qed.

Lemma clear_state_stuck e s v x :
  fs_fault e UnlinkStateFile = Some x ->
  state_file s = Some (Parsed v) ->
  clear_state e s
  = (Ret tt, set_trace ((trace s ++ [EvStateUnlink])
                        ++ [EvLog ERROR (MsgFailedToClearState x)]) s).
Proof.
  intros Hu Hs. unfold clear_state, STATE_FILE_exists, try_except, bind, get, when.
  rewrite Hs. simpl.
  unfold bind, emit, modify, ask, attempt. simpl. rewrite Hu. reflexivity.
Qed.

(** X3: a state file that cannot be removed does not stop the stop
    invocation: the failure is logged as an error, the audio file is
    looked for next, and the session stays in the store, so that the
    next invocation is a stop again. *)
Theorem failed_unlink_keeps_session e ps cb v pid wav x :
  boots e ->
  fs_fault e UnlinkStateFile = Some x ->
  well_formed v pid wav ->
  let out := run e (launch (Some (Parsed v)) ps cb) in
  state_file out.2 = Some (Parsed v)
  ∧ EvLog ERROR (MsgFailedToClearState x) ∈ trace out.2
  ∧ EvProbe wav ∈ trace out.2.
Proof.
  intros Hb Hu (d & -> & Hpid & Hwav & Hp0 & Hw0) out. subst out.
  set (s0 := launch (Some (Parsed (PDict d))) ps cb).
  destruct (stop_pipeline_eq (PInt pid) (PStr wav) e (configured s0))
    as (b & s1 & s2 & s3 & H1 & H2 & H3 & H4).
  assert (Hm : main e s0 = validate_and_deliver (PStr wav) e s3).
  { rewrite main_boots by exact Hb.
    erewrite bind_Ret by (apply read_state_parsed; reflexivity).
    change (dispatch (PDict d)) with (stop_path (PDict d)).
    assert (Tp : truthy (PInt pid) = true)
      by (simpl; apply negb_true_iff, Z.eqb_neq, Hp0).
    assert (Tw : truthy (PStr wav) = true)
      by (simpl; apply negb_true_iff, bool_decide_eq_false, Hw0).
    rewrite (stop_path_accepts d (PInt pid) (PStr wav) _ _ Hpid Hwav Tp Tw).
    exact H4. }
  assert (Hs1 : state_file s1 = Some (Parsed (PDict d))).
  { exact (kept_at state_file _ _ _ _ _
             (steps_stop_daemon_kept state_file _ ltac:(reflexivity) ltac:(reflexivity)) H1). }
  rewrite (clear_state_stuck _ _ _ _ Hu Hs1) in H2. injection H2 as <-.
  destruct (steps_at _ _ _ _ _ _ steps_notify_end_prefix H3) as (t3 & Ht3 & _).
  pose proof (kept_at state_file notify_end _ _ _ _ ltac:(steps_auto) H3) as Hs3.
  destruct (run_extends e s0) as (t & Ht & _ & Hs). rewrite Hm in Ht, Hs.
  destruct (validate_probes wav e s3) as (rest & Hr).
  rewrite Hs, (validate_keeps_state_file (PStr wav) e s3), Hs3. split; [exact Hs1|].
  rewrite Ht, Hr, Ht3. simpl.
  split; repeat (rewrite ?elem_of_app, ?elem_of_cons); auto 10.
Qed.

(** ** Failures before the state is read *)

(** X4: a missing Python package ends the invocation at once: the two
    error lines naming the packages are logged, the status is 1, and
    nothing else has happened: the state file, the process table and the
    clipboard are as they were. *)
Theorem missing_dependency_is_fatal e s :
  missing_modules e ≠ [] ->
  let out := run e s in
  out.1 = Some 1
  ∧ trace out.2 = trace s ++ [EvLog ERROR (MsgMissingDependencies (missing_modules e));
                              EvLog ERROR (MsgInstallWith (missing_modules e))]
  ∧ state_file out.2 = state_file s
  ∧ procs out.2 = procs s
  ∧ clipboard out.2 = clipboard s.
Proof.
  intros Hm out. subst out.
  erewrite run_of_exit.
  2:{ rewrite main_steps.
      erewrite bind_Ret by reflexivity.
      apply bind_Exit. unfold check_dependencies.
      erewrite bind_Ret by reflexivity.
      rewrite bool_decide_eq_false_2 by exact Hm. simpl.
      erewrite bind_Ret by reflexivity.
      erewrite bind_Ret by reflexivity. reflexivity. }
  destruct s as [sf ps cb n [k|] se ad tr]; simpl; rewrite <- app_assoc; repeat split.
Qed.

(** X5: a cache or temporary directory that cannot be created ends the
    invocation through the main block: the exception is logged as an
    error, the status is 1, the state file is neither read nor
    changed, and no process is forked or signalled. *)
Theorem directory_failure_is_fatal e s x :
  missing_modules e = [] ->
  fs_fault e MkdirStateDir = Some x
  ∨ (fs_fault e MkdirStateDir = None ∧ fs_fault e MkdirTmpDir = Some x) ->
  let out := run e s in
  out.1 = Some 1
  ∧ trace out.2 = trace s ++ [EvLog ERROR (MsgError x)]
  ∧ state_file out.2 = state_file s
  ∧ procs out.2 = procs s.
Proof.
  intros Hm Hd out. subst out.
  erewrite run_of_raise.
  2:{ rewrite main_steps.
      erewrite bind_Ret by reflexivity.
      erewrite bind_Ret by (apply check_dependencies_ok, Hm).
      destruct Hd as [H1|[H1 H2]].
      - apply bind_Raise, mkdir_fault, H1.
      - erewrite bind_Ret by (apply mkdir_ok, H1).
        apply bind_Raise, mkdir_fault, H2. }
  destruct s as [sf ps cb n [k|] se ad tr]; repeat split.
Qed.

(** ** The start branch *)

Lemma notify_start_eq e s :
  notify_start e s = (Ret tt, set_trace (trace s ++ start_notification e) s).
Proof.
  unfold notify_start, notify, start_notification, try_except, bind, ask, emit,
    modify, attempt.
  destruct (have_terminal_notifier e); simpl; [reflexivity|].
  destruct (osascript_fault e); reflexivity.
Qed.

(** The launcher's side of [daemonize_and_record]. *)
Lemma start_path_parent e s k :
  fs_fault e MkdirStateDir = None ->
  fs_fault e MkdirTmpDir = None ->
  fork_outcome e = inr (N.pos k) ->
  start_path e s
  = match fs_fault e WriteStateFile with
    | Some x =>
        (Exit 1,
         set_trace (trace s ++ [EvFork; EvStateWrite (Z.pos k) (new_wav_path e);
                                EvLog ERROR (MsgFailedToWriteState x)]) s)
    | None =>
        (Exit 0,
         set_state_file (Some (Parsed (session (Z.pos k) (new_wav_path e))))
           (set_trace (trace s ++ [EvFork; EvStateWrite (Z.pos k) (new_wav_path e)]
                       ++ start_notification e ++ [EvLog INFO MsgRecordingStarted]) s))
    end.
Proof.
  intros Hms Hmt Hf. unfold start_path.
  erewrite bind_Ret by reflexivity. fold (new_wav_path e).
  rewrite daemonize_eq.
  erewrite bind_Ret by (apply mkdir_ok, Hmt).
  erewrite bind_Ret by (rewrite os_fork_eq, Hf; reflexivity).
  change (Z.of_N (N.pos k)) with (Z.pos k). unfold after_fork.
  change (0 <? Z.pos k) with true. unfold when.
  destruct (fs_fault e WriteStateFile) as [x|] eqn:Hw.
  - erewrite bind_Exit by (erewrite bind_Exit by (apply write_state_fault; eassumption);
                            reflexivity).
    destruct s; simpl. rewrite <- !app_assoc. reflexivity.
  - erewrite bind_Exit.
    2:{ erewrite bind_Ret by (apply write_state_ok; assumption).
        erewrite bind_Ret by apply notify_start_eq.
        erewrite bind_Ret by reflexivity. reflexivity. }
    destruct s; simpl. rewrite <- !app_assoc. reflexivity.
Qed.

(** X6: an idle invocation whose fork and write succeed: the launcher
    forks, stores the session made of the worker's pid and the new
    audio path, notifies, logs and exits with status 0; these are all
    its events, in this order, and it touches neither the process table
    nor the clipboard.  The notification goes through osascript, whose
    failure [notify] swallows, unless [shutil.which] finds
    terminal-notifier; a terminal-notifier that is found is taken to
    start. *)
Theorem start_persists_session e ps cb k :
  boots e ->
  fs_fault e WriteStateFile = None ->
  fork_outcome e = inr (N.pos k) ->
  let out := run e (launch None ps cb) in
  out.1 = Some 0
  ∧ state_file out.2 = Some (Parsed (session (Z.pos k) (new_wav_path e)))
  ∧ trace out.2 = [EvFork; EvStateWrite (Z.pos k) (new_wav_path e)]
                  ++ start_notification e ++ [EvLog INFO MsgRecordingStarted]
  ∧ procs out.2 = ps
  ∧ clipboard out.2 = cb.
Proof.
  intros Hb Hw Hf out. subst out.
  pose proof Hb as (_ & Hms & Hmt).
  erewrite run_of_exit.
  2:{ rewrite main_boots by exact Hb.
      erewrite bind_Ret by (apply read_state_absent; reflexivity).
      change (dispatch PNone) with start_path.
      rewrite (start_path_parent _ _ _ Hms Hmt Hf), Hw. reflexivity. }
  repeat split.
Qed.

(** X7: when the state file cannot be written, the launcher logs the
    failure and exits with status 1 without notifying; the worker has
    been forked by then, and no session records it. *)
Theorem start_without_store e ps cb k x :
  boots e ->
  fs_fault e WriteStateFile = Some x ->
  fork_outcome e = inr (N.pos k) ->
  let out := run e (launch None ps cb) in
  out.1 = Some 1
  ∧ state_file out.2 = None
  ∧ trace out.2 = [EvFork; EvStateWrite (Z.pos k) (new_wav_path e);
                   EvLog ERROR (MsgFailedToWriteState x)].
Proof.
  intros Hb Hw Hf out. subst out.
  pose proof Hb as (_ & Hms & Hmt).
  erewrite run_of_exit.
  2:{ rewrite main_boots by exact Hb.
      erewrite bind_Ret by (apply read_state_absent; reflexivity).
      change (dispatch PNone) with start_path.
      rewrite (start_path_parent _ _ _ Hms Hmt Hf), Hw. reflexivity. }
  repeat split.
Qed.

(** X8: when [os.fork] fails, the exception reaches the main block: it
    is logged as an error and the invocation exits with status 1; no
    session is written and nobody is notified. *)
Theorem fork_failure_is_fatal e ps cb x :
  boots e ->
  fork_outcome e = inl x ->
  let out := run e (launch None ps cb) in
  out.1 = Some 1
  ∧ state_file out.2 = None
  ∧ trace out.2 = [EvFork; EvLog ERROR (MsgError x)].
Proof.
  intros Hb Hf out. subst out.
  pose proof Hb as (_ & Hms & Hmt).
  erewrite run_of_raise.
  2:{ rewrite main_boots by exact Hb.
      erewrite bind_Ret by (apply read_state_absent; reflexivity).
      change (dispatch PNone) with start_path. unfold start_path.
      erewrite bind_Ret by reflexivity. rewrite daemonize_eq.
      erewrite bind_Ret by (apply mkdir_ok, Hmt).
      apply bind_Raise. rewrite os_fork_eq, Hf. reflexivity. }
  repeat split.
Qed.

(** X9: a state file that is there but cannot be opened or parsed is
    replaced by the next start, provided the fork succeeds and the new
    state can be written: the failure to read is logged, the invocation
    starts a recording as an idle one does, and the state file then
    holds the new session, which reads back. *)
Theorem corrupt_state_is_overwritten e ps cb k x :
  boots e ->
  fs_fault e WriteStateFile = None ->
  fork_outcome e = inr (N.pos k) ->
  let out := run e (launch (Some (Unreadable x)) ps cb) in
  out.1 = Some 0
  ∧ state_file out.2 = Some (Parsed (session (Z.pos k) (new_wav_path e)))
  ∧ trace out.2 = EvLog ERROR (MsgFailedToReadState x)
                  :: [EvFork; EvStateWrite (Z.pos k) (new_wav_path e)]
                  ++ start_notification e ++ [EvLog INFO MsgRecordingStarted]
  ∧ ∀ e', (read_state e' out.2).1 = Ret (session (Z.pos k) (new_wav_path e)).
Proof.
  intros Hb Hw Hf out. subst out.
  pose proof Hb as (_ & Hms & Hmt).
  erewrite run_of_exit.
  2:{ rewrite main_boots by exact Hb.
      erewrite bind_Ret by (apply read_state_unreadable; reflexivity).
      change (dispatch PNone) with start_path.
      rewrite (start_path_parent _ _ _ Hms Hmt Hf), Hw. reflexivity. }
  repeat split.
Qed.

(** ** The signalling step *)

(** What one [os.kill] does to the trace: nothing when the pid is not an
    integer that fits, the one kill event otherwise. *)
Lemma os_kill_cases pid sig e s :
  ∃ s' t,
    (os_kill pid sig e s = (Ret tt, s')
     ∨ ∃ x, os_kill pid sig e s = (Raise (Exception x), s'))
    ∧ trace s' = trace s ++ t
    ∧ ((t = [] ∧ ∀ z, as_index pid = Some z -> fits_pid_t z = false)
       ∨ ∃ z, as_index pid = Some z ∧ fits_pid_t z = true ∧ t = [EvKill z sig]).
Proof.
  unfold os_kill. destruct (as_index pid) as [z|].
  2:{ exists s, []. split; [right; eexists; reflexivity|].
      split; [symmetry; apply app_nil_r | left; split; [reflexivity | discriminate]]. }
  destruct (fits_pid_t z) eqn:Hfit.
  2:{ exists s, []. split; [right; eexists; reflexivity|].
      split; [symmetry; apply app_nil_r|].
      left; split; [reflexivity | intros ? [= <-]; exact Hfit]. }
  unfold bind, emit, modify, get. simpl.
  destruct (procs s !! z) as [p|]; [destruct (may_signal p); [destruct sig|]|]; simpl;
    eexists _, [EvKill z _];
    (split; [first [left; reflexivity | right; eexists; reflexivity]|]);
    (split; [reflexivity|]); right; exists z; repeat split; exact Hfit.
Qed.

Lemma poll_step pid n :
  poll pid (S n)
  = bind (try_except
            (bind (os_kill pid SIG0) (fun _ =>
             bind (time_sleep PollInterval) (fun _ => ret false)))
            (except_ProcessLookupError (ret true)))
      (fun gone : bool => if gone then ret true else poll pid n).
Proof. reflexivity. Qed.

(** The polling loop looks at most [n] times, sleeps at most [n] times,
    and sends no SIGINT. *)
Lemma poll_bounded pid n e s :
  ∃ t, trace (poll pid n e s).2 = trace s ++ t
       ∧ (length (only is_poll_sleep t) <= n)%nat
       ∧ (length (only is_existence_check t) <= n)%nat
       ∧ only is_sigint t = [].
Proof.
  revert s. induction n as [|n IH]; intros s.
  - exists [EvLog WARNING MsgDaemonDidNotExit]. simpl. repeat split; lia.
  - rewrite poll_step.
    destruct (os_kill_cases pid SIG0 e s) as (s1 & t1 & Hk & Ht1 & Hshape).
    assert (Hc : (length (only is_poll_sleep t1) = 0)%nat
                 ∧ (length (only is_existence_check t1) <= 1)%nat
                 ∧ only is_sigint t1 = []).
    { destruct Hshape as [[-> _]|(z & _ & _ & ->)]; simpl; repeat split; lia. }
    destruct Hc as (Hc1 & Hc2 & Hc3).
    destruct Hk as [Hk|[x Hk]].
    + erewrite bind_Ret.
      2:{ apply try_Ret. erewrite bind_Ret by exact Hk.
          erewrite bind_Ret by apply sleep_procs. reflexivity. }
      cbv beta iota.
      destruct (IH (set_procs (omap tick (procs s1))
                      (set_trace (trace s1 ++ [EvSleep PollInterval]) s1)))
        as (t' & Ht' & H1 & H2 & H3).
      exists (t1 ++ [EvSleep PollInterval] ++ t').
      split; [rewrite Ht'; simpl; rewrite Ht1, <- !app_assoc; reflexivity|].
      rewrite !only_app, !length_app, Hc3, H3. unfold only in *. simpl.
      repeat split; lia.
    + assert (Hor : ∃ r, bind (try_except
                           (bind (os_kill pid SIG0) (fun _ =>
                            bind (time_sleep PollInterval) (fun _ => ret false)))
                           (except_ProcessLookupError (ret true)))
                      (fun gone : bool => if gone then ret true else poll pid n) e s
                    = (r, s1)).
      { unfold bind at 1. erewrite try_Raise by (apply bind_Raise, Hk).
        destruct x; simpl; eexists; reflexivity. }
      destruct Hor as (r & ->). exists t1. simpl. rewrite Hc3. repeat split; [exact Ht1|lia..].
Qed.

(** What the two handlers of [stop_daemon] add. *)
Lemma stop_handlers_trace (m : M bool) e s :
  soft m ->
  ∃ b s' t,
    try_except m
      (or_else (except_ProcessLookupError (ret true))
         (except_Exception (fun x =>
            logging ERROR (MsgFailedToStopDaemon x);; ret false))) e s = (Ret b, s')
    ∧ trace s' = trace (m e s).2 ++ t
    ∧ (t = [] ∨ ∃ x, t = [EvLog ERROR (MsgFailedToStopDaemon x)]).
Proof.
  intros Hm. unfold try_except.
  destruct (Hm e s) as [[a H]|[x H]];
    destruct (m e s) as [r s1]; simpl in H; subst r.
  - exists a, s1, []. simpl. rewrite app_nil_r. auto.
  - destruct x; simpl;
      first [ exists true, s1, []; simpl; rewrite app_nil_r; split; [reflexivity|auto]
            | eexists false, _, [_]; split; [reflexivity|]; split; [reflexivity|];
              right; eexists; reflexivity ].
Qed.

(** [stop_daemon], in full: the answer always comes; the trace grows by
    at most the one SIGINT, then by what the polling loop does, then by
    at most one error entry. *)
Lemma stop_daemon_trace pid e s :
  ∃ b s' t1 t2,
    stop_daemon pid e s = (Ret b, s')
    ∧ trace s' = trace s ++ t1 ++ t2
    ∧ ((t1 = [] ∧ ∀ z, as_index pid = Some z -> fits_pid_t z = false)
       ∨ ∃ z, as_index pid = Some z ∧ fits_pid_t z = true ∧ t1 = [EvKill z SIGINT])
    ∧ (length (only is_poll_sleep t2) <= 50)%nat
    ∧ (length (only is_existence_check t2) <= 50)%nat
    ∧ only is_sigint t2 = [].
Proof.
  destruct (stop_handlers_trace (bind (os_kill pid SIGINT) (fun _ => poll pid 50)) e s)
    as (b & s' & t & Hr & Ht & Hshape).
  { apply soft_bind; [apply soft_os_kill | intros _; apply soft_poll]. }
  assert (Hc : (length (only is_poll_sleep t) = 0)%nat
               ∧ (length (only is_existence_check t) = 0)%nat
               ∧ only is_sigint t = []).
  { destruct Hshape as [->|[x ->]]; repeat split. }
  destruct Hc as (Hc1 & Hc2 & Hc3).
  destruct (os_kill_cases pid SIGINT e s) as (s1 & t1 & Hk & Ht1 & Hshape1).
  destruct Hk as [Hk|[x Hk]].
  - destruct (poll_bounded pid 50 e s1) as (tp & Htp & H1 & H2 & H3).
    exists b, s', t1, (tp ++ t). split; [exact Hr|]. split; [|split; [exact Hshape1|]].
    + rewrite Ht. erewrite bind_Ret by exact Hk. rewrite Htp, Ht1.
      rewrite <- !app_assoc. reflexivity.
    + rewrite !only_app, !length_app, H3, Hc3. repeat split; lia.
  - exists b, s', t1, t. split; [exact Hr|]. split; [|split; [exact Hshape1|]].
    + rewrite Ht. erewrite bind_Raise by exact Hk. simpl. rewrite Ht1.
      rewrite <- !app_assoc. reflexivity.
    + rewrite Hc1, Hc2, Hc3. repeat split; lia.
Qed.

(** X10: [stop_daemon] always comes back with an answer, whatever the
    record held as a pid and whatever the process table looks like, and
    its effort is bounded: at most one SIGINT is sent, the process is
    looked for at most 50 times, with at most 50 polling intervals of
    sleep (the five seconds of the wait); the state file and the
    clipboard are not touched. *)
Theorem stop_daemon_is_bounded pid e s :
  ∃ b s' t,
    stop_daemon pid e s = (Ret b, s')
    ∧ trace s' = trace s ++ t
    ∧ (length (only is_sigint t) <= 1)%nat
    ∧ (length (only is_existence_check t) <= 50)%nat
    ∧ (length (only is_poll_sleep t) <= 50)%nat
    ∧ state_file s' = state_file s
    ∧ clipboard s' = clipboard s.
Proof.
  destruct (stop_daemon_trace pid e s)
    as (b & s' & t1 & t2 & Hr & Ht & Hshape & H1 & H2 & H3).
  exists b, s', (t1 ++ t2). split; [exact Hr|]. split; [exact Ht|].
  assert (Hc : (length (only is_sigint t1) <= 1)%nat
               ∧ (length (only is_existence_check t1) = 0)%nat
               ∧ (length (only is_poll_sleep t1) = 0)%nat).
  { destruct Hshape as [[-> _]|(z & _ & _ & ->)]; simpl; repeat split; lia. }
  destruct Hc as (Hc1 & Hc2 & Hc3).
  rewrite !only_app, !length_app, H3. simpl.
  repeat split; try lia.
  - exact (kept_at state_file _ _ _ _ _
             (steps_stop_daemon_kept state_file _ ltac:(reflexivity) ltac:(reflexivity)) Hr).
  - exact (kept_at clipboard _ _ _ _ _
             (steps_stop_daemon_kept clipboard _ ltac:(reflexivity) ltac:(reflexivity)) Hr).
Qed.

(** A signalled worker that goes within the window: the loop sees it
    go, one round after another. *)
Lemma poll_leaving_trace z e n :
  fits_pid_t z = true ->
  ∀ k s, procs s !! z = Some (leaving n) -> (n + 2 <= k)%nat ->
         ∃ s', poll (PInt z) k e s = (Ret true, s')
               ∧ procs s' !! z = None
               ∧ trace s' = trace s ++ concat (replicate (S n) (poll_round_events z))
                                    ++ [EvKill z SIG0].
Proof.
  intros Hfit. induction n as [|n IH]; intros k s Hp Hk.
  - destruct k as [|[|k]]; try lia.
    rewrite (poll_round _ _ _ _ _ Hfit Hp eq_refl).
    rewrite poll_gone; [|exact Hfit|simpl; rewrite lookup_omap, Hp; reflexivity].
    eexists. split; [reflexivity|]. simpl. split.
    + rewrite lookup_omap, Hp. reflexivity.
    + rewrite <- !app_assoc. reflexivity.
  - destruct k as [|k]; try lia.
    rewrite (poll_round _ _ _ _ _ Hfit Hp eq_refl).
    edestruct (IH k) as (s' & Hs' & Hgone & Ht);
      [|shelve|exists s'; split; [exact Hs'|split; [exact Hgone|]]].
    + simpl. rewrite lookup_omap, Hp. reflexivity.
    + rewrite Ht. simpl. rewrite <- !app_assoc. reflexivity.
    Unshelve. lia.
Qed.

(** A signalled worker that needs the whole window or more: the loop
    runs out, and says so. *)
Lemma poll_too_slow z e :
  fits_pid_t z = true ->
  ∀ k n s, procs s !! z = Some (leaving n) -> (k <= n + 1)%nat ->
           ∃ s', poll (PInt z) k e s = (Ret false, s')
                 ∧ trace s' = trace s ++ concat (replicate k (poll_round_events z))
                                      ++ [EvLog WARNING MsgDaemonDidNotExit].
Proof.
  intros Hfit. induction k as [|k IH]; intros n s Hp Hk.
  - eexists. split; reflexivity.
  - rewrite (poll_round _ _ _ _ _ Hfit Hp eq_refl).
    destruct n as [|n].
    + destruct k as [|k]; [|lia].
      eexists. split; [reflexivity|]. simpl. rewrite <- !app_assoc. reflexivity.
    + edestruct (IH n) as (s' & Hs' & Ht); [|shelve|exists s'; split; [exact Hs'|]].
      * simpl. rewrite lookup_omap, Hp. reflexivity.
      * rewrite Ht. simpl. rewrite <- !app_assoc. reflexivity.
      Unshelve. lia.
Qed.

(** X11: the wait of [stop_daemon] on a worker that goes [n] polling
    intervals after its SIGINT.  Up to [n = 48] the loop sees it go: one
    SIGINT, [n + 1] rounds of look-and-sleep, and the look that finds
    nobody; the answer is [True].  From [n = 49] on the fifty rounds run
    out: the warning is logged and the answer is [False] (for [n = 49]
    the worker goes during the last sleep, which nobody looks after). *)
Theorem stop_daemon_deadline pid n e s :
  fits_pid_t pid = true ->
  procs s !! pid = Some (worker n) ->
  ∃ s',
    stop_daemon (PInt pid) e s = (Ret (bool_decide (n <= 48)%nat), s')
    ∧ trace s'
      = trace s ++ EvKill pid SIGINT
          :: (if bool_decide (n <= 48)%nat
              then concat (replicate (S n) (poll_round_events pid)) ++ [EvKill pid SIG0]
              else concat (replicate 50 (poll_round_events pid))
                   ++ [EvLog WARNING MsgDaemonDidNotExit]).
Proof.
  intros Hfit Hp. unfold stop_daemon.
  set (s1 := set_procs (<[pid := mark_signalled (worker n)]> (procs s))
               (set_trace (trace s ++ [EvKill pid SIGINT]) s)).
  assert (Hp1 : procs s1 !! pid = Some (leaving n)) by apply lookup_insert_eq.
  destruct (bool_decide_reflect (n <= 48)%nat) as [Hn|Hn].
  - destruct (poll_leaving_trace pid e n Hfit 50%nat s1 Hp1) as (s' & Hs' & _ & Ht);
      [lia|].
    exists s'. split.
    + apply try_Ret.
      erewrite bind_Ret by (apply (os_kill_present _ _ _ _ _ Hfit Hp eq_refl)).
      exact Hs'.
    + rewrite Ht. simpl. rewrite <- !app_assoc. reflexivity.
  - destruct (poll_too_slow pid e Hfit 50%nat n s1 Hp1) as (s' & Hs' & Ht); [lia|].
    exists s'. split.
    + apply try_Ret.
      erewrite bind_Ret by (apply (os_kill_present _ _ _ _ _ Hfit Hp eq_refl)).
      exact Hs'.
    + rewrite Ht. simpl. rewrite <- !app_assoc. reflexivity.
Qed.

(** X12: a pid that cannot be signalled.  What is not an integer, or
    does not fit a pid_t, makes [os.kill] raise before anything is sent;
    a process of another user is sent the SIGINT, which is refused.
    Either way the error is logged and the answer is [False]; the loop
    is never entered. *)
Theorem unsignalable_pid_is_reported pid e s :
  (as_index pid = None
   ∨ (∃ z, as_index pid = Some z ∧ fits_pid_t z = false)
   ∨ (∃ z p, pid = PInt z ∧ fits_pid_t z = true
             ∧ procs s !! z = Some p ∧ may_signal p = false)) ->
  ∃ s' x,
    stop_daemon pid e s = (Ret false, s')
    ∧ last (trace s') = Some (EvLog ERROR (MsgFailedToStopDaemon x))
    ∧ only is_existence_check (trace s') = only is_existence_check (trace s)
    ∧ only is_poll_sleep (trace s') = only is_poll_sleep (trace s)
    ∧ procs s' = procs s.
Proof.
  intros [H|[(z & H & Hfit)|(z & p & -> & Hfit & Hp & Hm)]].
  - eexists _, TypeError. split.
    + unfold stop_daemon. erewrite try_Raise.
      2:{ apply bind_Raise. unfold os_kill. rewrite H. reflexivity. }
      reflexivity.
    + simpl. rewrite last_snoc, !only_app. simpl. rewrite !app_nil_r. repeat split.
  - eexists _, OverflowError. split.
    + unfold stop_daemon. erewrite try_Raise.
      2:{ apply bind_Raise. unfold os_kill. rewrite H, Hfit. reflexivity. }
      reflexivity.
    + simpl. rewrite last_snoc, !only_app. simpl. rewrite !app_nil_r. repeat split.
  - eexists _, PermissionError. split.
    + apply (stop_daemon_not_permitted _ _ _ _ Hfit Hp Hm).
    + simpl. rewrite last_snoc, !only_app. simpl. rewrite !app_nil_r. repeat split.
Qed.

(** ** Who is signalled *)

Lemma steps_os_kill_target pid sig :
  sig ≠ SIGTERM -> steps (emits (signals_only (as_index pid))) (os_kill pid sig).
Proof.
  intros Hsig. unfold os_kill. destruct (as_index pid) as [z|]; [|steps_one].
  destruct (fits_pid_t z); [|steps_one].
  steps_auto.
  all: apply emits_emit; destruct sig; try congruence; simpl;
    apply bool_decide_eq_true_2; reflexivity.
Qed.

Lemma steps_poll_target pid n : steps (emits (signals_only (as_index pid))) (poll pid n).
Proof.
  induction n as [|n IH].
  - simpl. steps_auto.
  - rewrite poll_step. steps_one.
    + steps_one.
      * steps_one; [apply steps_os_kill_target; discriminate|].
        steps_auto.
      * repeat steps_one.
    + destruct a; [steps_one | apply IH].
Qed.

Lemma steps_stop_daemon_target pid :
  steps (emits (signals_only (as_index pid))) (stop_daemon pid).
Proof.
  unfold stop_daemon. steps_one.
  - steps_one; [apply steps_os_kill_target; discriminate | apply steps_poll_target].
  - steps_auto.
Qed.

Lemma stop_path_dict d e s :
  stop_path (PDict d) e s
  = bind (when (negb (truthy (assoc (py "pid") d))
                || negb (truthy (assoc (py "wav_path") d))) reject_state)
      (fun _ => stop_pipeline (assoc (py "pid") d) (assoc (py "wav_path") d)) e s.
Proof. reflexivity. Qed.

Lemma steps_stop_pipeline_target pid wav_path :
  steps (emits (signals_only (as_index pid))) (stop_pipeline pid wav_path).
Proof.
  unfold stop_pipeline. steps_one; [steps_auto|].
  steps_one; [apply steps_stop_daemon_target|]. steps_auto.
Qed.

Lemma steps_start_path_target target :
  steps (emits (signals_only target)) start_path.
Proof.
  steps_auto.
  all: apply steps_pump;
    [ typeclasses eauto | intros; steps_side | intros; steps_side
    | intros ev s H; apply emits_emit; destruct ev; try discriminate; reflexivity ].
Qed.

Lemma log_signals_nobody target ev : is_log ev = true -> signals_only target ev = true.
Proof. destruct ev; try discriminate; reflexivity. Qed.

(** X13: every [os.kill] call of an invocation is given the pid value
    of the stored record as its first argument, and SIGINT or the
    existence check (signal 0) as its second, whatever the environment,
    the state file and the process table; a run that finds no record,
    or one that is not an object, calls [os.kill] not at all.  The
    statement is about the arguments of the calls: the script passes
    the stored number on without looking at its sign, so that a
    negative one addresses a process group. *)
Theorem kill_calls_carry_the_recorded_pid e sf ps cb :
  Forall (fun ev => signals_only (recorded_pid sf) ev = true)
    (trace (run e (launch sf ps cb)).2).
Proof.
  set (s0 := launch sf ps cb).
  destruct (boots_dec e) as [Hb|Hn].
  2:{ destruct (run_without_boot e s0 Hn) as (t & _ & _ & Ht & Hl).
      rewrite Ht. simpl. eapply Forall_impl; [exact Hl | apply log_signals_nobody]. }
  destruct (run_extends e s0) as (t & Ht & Hl & _). rewrite Ht.
  apply Forall_app. split; [|eapply Forall_impl; [exact Hl | apply log_signals_nobody]].
  rewrite main_boots by exact Hb.
  assert (Hstart : ∀ s, Forall (fun ev => signals_only (recorded_pid sf) ev = true) (trace s) ->
                        Forall (fun ev => signals_only (recorded_pid sf) ev = true)
                          (trace (start_path e s).2)).
  { intros s Hs. destruct (steps_start_path_target (recorded_pid sf) e s) as (t' & -> & F).
    apply Forall_app. split; assumption. }
  destruct sf as [[x|v|x]|].
  - erewrite bind_Ret by (apply read_state_unreadable; reflexivity).
    apply Hstart. repeat constructor.
  - erewrite bind_Ret by (apply read_state_parsed; reflexivity).
    destruct v as [|b|z|m ex|str|l|d];
      try (apply Hstart; constructor); try constructor.
    change (dispatch (PDict d)) with (stop_path (PDict d)).
    rewrite stop_path_dict.
    apply (emits_from_empty _ (configured s0)); [reflexivity|].
    apply steps_bind; [typeclasses eauto | | intros _].
    + steps_auto.
    + apply steps_stop_pipeline_target.
  - erewrite bind_Raise by (apply read_state_inaccessible; reflexivity).
    constructor.
  - erewrite bind_Ret by (apply read_state_absent; reflexivity).
    apply Hstart. constructor.
Qed.

(** ** One press after another *)

Lemma idle_start_run e ps cb k :
  boots e ->
  fs_fault e WriteStateFile = None ->
  fork_outcome e = inr (N.pos k) ->
  run e (launch None ps cb)
  = (Some 0,
     set_state_file (Some (Parsed (session (Z.pos k) (new_wav_path e))))
       (set_trace ([EvFork; EvStateWrite (Z.pos k) (new_wav_path e)]
                   ++ start_notification e ++ [EvLog INFO MsgRecordingStarted])
          (configured (launch None ps cb)))).
Proof.
  intros Hb Hw Hf. pose proof Hb as (_ & Hms & Hmt).
  apply run_of_exit.
  rewrite main_boots by exact Hb.
  erewrite bind_Ret by (apply read_state_absent; reflexivity).
  change (dispatch PNone) with start_path.
  rewrite (start_path_parent _ _ _ Hms Hmt Hf), Hw. reflexivity.
Qed.

Lemma new_wav_path_not_empty e : new_wav_path e ≠ [].
Proof. unfold new_wav_path. destruct (TMP_DIR e); discriminate. Qed.

(** X14: start, then stop.  The session an idle invocation leaves
    behind is a well-formed record for the next invocation, which
    sends SIGINT to exactly the pid [os.fork] had answered, looks for
    the audio file under exactly the path that was stored, and leaves
    the store empty: the toggle is back where it began. *)
Theorem toggle_round_trip e1 e2 ps1 cb1 ps2 cb2 k :
  boots e1 ->
  fs_fault e1 WriteStateFile = None ->
  fork_outcome e1 = inr (N.pos k) ->
  fits_pid_t (Z.pos k) = true ->
  boots e2 ->
  fs_fault e2 UnlinkStateFile = None ->
  let out1 := run e1 (launch None ps1 cb1) in
  let out2 := run e2 (launch (state_file out1.2) ps2 cb2) in
  out1.1 = Some 0
  ∧ well_formed (session (Z.pos k) (new_wav_path e1)) (Z.pos k) (new_wav_path e1)
  ∧ (∃ post, trace out2.2
             = EvLog INFO MsgStoppingRecording :: EvKill (Z.pos k) SIGINT :: post
             ∧ EvStateUnlink ∈ post
             ∧ EvProbe (new_wav_path e1) ∈ post)
  ∧ state_file out2.2 = None.
Proof.
  intros Hb1 Hw Hf Hfit Hb2 Hu out1 out2. subst out2 out1.
  rewrite (idle_start_run _ _ _ _ Hb1 Hw Hf).
  cbn [fst snd state_file set_state_file].
  set (z := Z.pos k) in *. set (wav := new_wav_path e1).
  assert (Hwf : well_formed (session z wav) z wav).
  { eexists. split; [reflexivity|]. repeat split; [discriminate|].
    apply new_wav_path_not_empty. }
  split; [reflexivity|]. split; [exact Hwf|].
  set (s0 := launch (Some (Parsed (session z wav))) ps2 cb2).
  destruct (stop_pipeline_eq (PInt z) (PStr wav) e2 (configured s0))
    as (b & s1 & s2 & s3 & H1 & H2 & H3 & H4).
  assert (Hm : main e2 s0 = validate_and_deliver (PStr wav) e2 s3).
  { rewrite main_boots by exact Hb2.
    erewrite bind_Ret by (apply read_state_parsed; reflexivity).
    change (dispatch (session z wav)) with (stop_path (session z wav)).
    unfold session.
    erewrite stop_path_accepts; [exact H4 | reflexivity | reflexivity | reflexivity |].
    simpl. apply negb_true_iff, bool_decide_eq_false, new_wav_path_not_empty. }
  destruct (stop_daemon_trace (PInt z) e2
              (set_trace (trace (configured s0) ++ [EvLog INFO MsgStoppingRecording])
                 (configured s0)))
    as (b' & s1' & t1 & t2 & Hr & Ht & Hshape & _).
  rewrite H1 in Hr. injection Hr as <- <-.
  destruct Hshape as [[_ Hno]|(z' & Hz & _ & ->)];
    [specialize (Hno z eq_refl); congruence|].
  injection Hz as <-.
  assert (Hs1 : state_file s1 = Some (Parsed (session z wav))).
  { exact (kept_at state_file _ _ _ _ _
             (steps_stop_daemon_kept state_file _ ltac:(reflexivity) ltac:(reflexivity)) H1). }
  rewrite (clear_state_present _ _ _ Hu Hs1) in H2. injection H2 as <-.
  destruct (steps_at _ _ _ _ _ _ steps_notify_end_prefix H3) as (t3 & Ht3 & _).
  pose proof (kept_at state_file notify_end _ _ _ _ ltac:(steps_auto) H3) as Hs3.
  destruct (run_extends e2 s0) as (t & Htr & _ & Hs). rewrite Hm in Htr, Hs.
  destruct (validate_probes wav e2 s3) as (rest & Hr).
  split.
  - exists (t2 ++ [EvStateUnlink] ++ t3 ++ EvProbe wav :: rest ++ t). split; [|split].
    + rewrite Htr, Hr, Ht3. simpl. rewrite Ht. simpl.
      rewrite <- !app_assoc. reflexivity.
    + repeat (rewrite ?elem_of_app, ?elem_of_cons); auto 10.
    + repeat (rewrite ?elem_of_app, ?elem_of_cons); auto 10.
  - rewrite Hs, (validate_keeps_state_file (PStr wav) e2 s3), Hs3. reflexivity.
Qed.

(** ** The end of the stop branch *)

Lemma prefix_not_delivery ev : stop_prefix_event ev = true -> is_delivery ev = false.
Proof. destruct ev; try reflexivity; discriminate. Qed.

Lemma only_none (q : event -> bool) (t : list event) :
  Forall (fun ev => q ev = false) t -> only q t = [].
Proof.
  induction 1 as [|ev t Hev _ IH]; [reflexivity|].
  unfold only in *. simpl. rewrite Hev. exact IH.
Qed.

Lemma steps_transcribe_quiet wav :
  steps (emits (fun ev => negb (is_delivery ev))) (transcribe wav).
Proof. steps_auto. Qed.

(** A stop invocation up to the call of [transcribe]: the state has
    been cleared, the clipboard is as it was, nothing has been
    delivered. *)
Lemma stop_run_to_transcribe e ps cb v pid wav size :
  boots e ->
  well_formed v pid wav ->
  file_size e !! wav = Some size -> size ≠ 0%N ->
  ∃ s4,
    main e (launch (Some (Parsed v)) ps cb) = bind (transcribe wav) after_transcribe e s4
    ∧ clipboard s4 = cb ∧ copies s4 = 0%nat
    ∧ Forall (fun ev => is_delivery ev = false) (trace s4)
    ∧ (fs_fault e UnlinkStateFile = None -> state_file s4 = None).
Proof.
  intros Hb Hwf Hf Hsz.
  destruct (main_stop e ps cb v pid wav Hb Hwf)
    as (s3 & Hm & (t & Ht & Hpre) & Hsf & _ & Hcb & Hcp).
  rewrite (validate_present _ _ _ _ Hf Hsz) in Hm.
  eexists. split; [exact Hm|]. simpl. repeat split; try assumption.
  rewrite Ht. apply Forall_app. split; [|repeat constructor].
  constructor; [reflexivity|].
  eapply Forall_impl; [exact Hpre | exact prefix_not_delivery].
Qed.

Lemma transcribe_quiet wav e s :
  Forall (fun ev => is_delivery ev = false) (trace s) ->
  Forall (fun ev => is_delivery ev = false) (trace (transcribe wav e s).2)
  ∧ clipboard (transcribe wav e s).2 = clipboard s
  ∧ copies (transcribe wav e s).2 = copies s
  ∧ state_file (transcribe wav e s).2 = state_file s.
Proof.
  intros F. split; [|repeat split].
  - destruct (steps_transcribe_quiet wav e s) as (t & -> & Ft).
    apply Forall_app. split; [exact F|].
    eapply Forall_impl; [exact Ft|]. intros ev H. apply negb_true_iff, H.
  - assert (H : steps (kept clipboard) (transcribe wav)) by steps_auto. apply H.
  - assert (H : steps (kept copies) (transcribe wav)) by steps_auto. apply H.
  - assert (H : steps (kept state_file) (transcribe wav)) by steps_auto. apply H.
Qed.

(** X15: a transcript that the blank filter classifies as blank ends
    the invocation with status 0 and the log entry that says so, and is
    never delivered: the run has no clipboard copy and no keystroke,
    and the clipboard holds what it held before. *)
Theorem blank_transcript_skips_delivery e ps cb v pid wav size parts :
  boots e ->
  well_formed v pid wav ->
  file_size e !! wav = Some size -> size ≠ 0%N ->
  model_load_fault e = None ->
  whisper e wav = inr parts ->
  is_blank_audio (py_unicode e) (Str.strip (py_unicode e) (concat parts)) = true ->
  let out := run e (launch (Some (Parsed v)) ps cb) in
  out.1 = Some 0
  ∧ last (trace out.2) = Some (EvLog INFO MsgBlankAudio)
  ∧ only is_delivery (trace out.2) = []
  ∧ clipboard out.2 = cb.
Proof.
  intros Hb Hwf Hf Hsz Hl Hw Hblank out. subst out.
  destruct (stop_run_to_transcribe e ps cb v pid wav size Hb Hwf Hf Hsz)
    as (s4 & Hm & Hcb & _ & Fd & _).
  destruct (transcribe_quiet wav e s4 Fd) as (Fd5 & Hcb5 & _ & _).
  destruct (transcribe_ok wav parts e s4 Hl Hw) as (s5 & Ht & _).
  rewrite Ht in Fd5, Hcb5. simpl in Fd5, Hcb5.
  erewrite run_of_exit.
  2:{ rewrite Hm. erewrite bind_Ret by exact Ht. unfold after_transcribe.
      erewrite bind_Ret by reflexivity. rewrite Hblank. simpl.
      erewrite bind_Exit; [reflexivity|].
      erewrite bind_Ret by reflexivity. reflexivity. }
  simpl. rewrite last_snoc, only_app, (only_none _ _ Fd5). repeat split. congruence.
Qed.

Lemma transcribe_fails wav e s x :
  model_load_fault e = Some x
  ∨ (model_load_fault e = None ∧ whisper e wav = inl x) ->
  ∃ s' t, transcribe wav e s = (Raise (Exception x), s')
          ∧ trace s' = trace s ++ EvTranscribe wav :: t
          ∧ Forall (fun ev => is_log ev = true) t.
Proof.
  intros H. unfold transcribe, bind, emit, logging, emit, modify, ask, attempt. simpl.
  destruct H as [H|[H1 H2]].
  - rewrite H. simpl. eexists _, [_]. split; [reflexivity|]. simpl.
    rewrite <- !app_assoc. split; [reflexivity | repeat constructor].
  - rewrite H1, H2. simpl. eexists _, [_; _]. split; [reflexivity|]. simpl.
    rewrite <- !app_assoc. split; [reflexivity | repeat constructor].
Qed.

Lemma log_not_delivery ev : is_log ev = true -> is_delivery ev = false.
Proof. destruct ev; try discriminate; reflexivity. Qed.

(** X16: a transcription that fails, because the model cannot be loaded
    or because the transcription itself raises, fails the invocation:
    the exception reaches the main block, is logged as an error, and
    the status is 1.  By then the session has been cleared; nothing is
    delivered and the clipboard is as it was. *)
Theorem transcription_failure_is_fatal e ps cb v pid wav size x :
  boots e ->
  well_formed v pid wav ->
  file_size e !! wav = Some size -> size ≠ 0%N ->
  model_load_fault e = Some x
  ∨ (model_load_fault e = None ∧ whisper e wav = inl x) ->
  let out := run e (launch (Some (Parsed v)) ps cb) in
  out.1 = Some 1
  ∧ last (trace out.2) = Some (EvLog ERROR (MsgError x))
  ∧ EvTranscribe wav ∈ trace out.2
  ∧ only is_delivery (trace out.2) = []
  ∧ clipboard out.2 = cb
  ∧ (fs_fault e UnlinkStateFile = None -> state_file out.2 = None).
Proof.
  intros Hb Hwf Hf Hsz Hfail out. subst out.
  destruct (stop_run_to_transcribe e ps cb v pid wav size Hb Hwf Hf Hsz)
    as (s4 & Hm & Hcb & _ & Fd & Hsf).
  destruct (transcribe_quiet wav e s4 Fd) as (Fd5 & Hcb5 & _ & Hsf5).
  destruct (transcribe_fails wav e s4 x Hfail) as (s5 & t & Ht & Htr & _).
  rewrite Ht in Fd5, Hcb5, Hsf5. simpl in Fd5, Hcb5, Hsf5.
  erewrite run_of_raise.
  2:{ rewrite Hm. apply bind_Raise. exact Ht. }
  simpl. rewrite last_snoc, only_app, (only_none _ _ Fd5).
  split; [reflexivity|]. split; [reflexivity|]. split; [|split; [reflexivity|split]].
  - rewrite Htr. repeat (rewrite ?elem_of_app, ?elem_of_cons). auto.
  - congruence.
  - intros Hu. rewrite Hsf5. exact (Hsf Hu).
Qed.

(** What [paste_text] leaves on the clipboard. *)
Lemma paste_text_clipboard text e s :
  mjoin (clipboard_copy_faults e !! copies s) = None ->
  restore_delay_ok e ->
  ∃ s', paste_text text e s = (Ret tt, s')
        ∧ clipboard s' = if restored e (copies s) then clipboard s else text.
Proof.
  intros Hc Hd. unfold restore_delay_ok in Hd. unfold paste_text, restored.
  erewrite bind_Ret by reflexivity.
  set (saved := if S2T_CLIPBOARD_preserve e
                then match clipboard_read_fault e with
                     | None => Some (clipboard s)
                     | Some _ => None
                     end
                else None).
  assert (Hsaved :
            (if S2T_CLIPBOARD_preserve e
             then try_except (bind pyperclip_paste (fun c => ret (Some c)))
                    (except_Exception (fun _ => ret None))
             else ret None) e s = (Ret saved, s)).
  { unfold saved. destruct (S2T_CLIPBOARD_preserve e); [|reflexivity].
    unfold try_except, pyperclip_paste, bind, ask, attempt, get.
    destruct (clipboard_read_fault e); reflexivity. }
  erewrite bind_Ret by exact Hsaved.
  erewrite bind_Ret by (apply pyperclip_copy_ok, Hc).
  set (s1 := set_clipboard text _).
  assert (Hkey :
            ∃ s2, try_except (bind (emit EvKeystroke) (fun _ => attempt (osascript_fault e)))
                    (except_Exception (fun x => logging WARNING (MsgFailedToPaste x))) e s1
                  = (Ret tt, s2)
                  ∧ clipboard s2 = text ∧ copies s2 = S (copies s)).
  { unfold try_except, bind, emit, modify, attempt.
    destruct (osascript_fault e) as [x|]; simpl; eexists; repeat split. }
  destruct Hkey as (s2 & Hkey & Hcb2 & Hcp2).
  erewrite bind_Ret by exact Hkey.
  unfold saved.
  destruct (S2T_CLIPBOARD_preserve e); [|exists s2; split; [reflexivity | exact Hcb2]].
  destruct (clipboard_read_fault e); [exists s2; split; [reflexivity | exact Hcb2]|].
  erewrite bind_Ret by (apply restore_sleep_ok, Hd; reflexivity).
  set (s3 := set_trace _ s2).
  assert (Hcp3 : copies s3 = S (copies s)) by exact Hcp2.
  unfold try_except. simpl andb.
  destruct (mjoin (clipboard_copy_faults e !! copies s3)) as [x|] eqn:E.
  - rewrite (pyperclip_copy_fault _ _ _ _ E). simpl. eexists. split; [reflexivity|].
    rewrite Hcp3 in E. rewrite E. simpl. exact Hcb2.
  - rewrite (pyperclip_copy_ok _ _ _ E). eexists. split; [reflexivity|].
    rewrite Hcp3 in E. rewrite E. reflexivity.
Qed.

(** X17: what a delivery leaves on the clipboard.  After a transcript
    that is not blank has been placed on the clipboard, and with a
    restore delay that [time.sleep] accepts where the previous content
    is to be put back, the run ends with status 0 and the clipboard
    holds the previous content again when it was to be preserved, could
    be read and could be put back; in every other case it holds the
    transcript. *)
Theorem clipboard_after_delivery e ps cb v pid wav size parts :
  boots e ->
  well_formed v pid wav ->
  file_size e !! wav = Some size -> size ≠ 0%N ->
  model_load_fault e = None ->
  whisper e wav = inr parts ->
  is_blank_audio (py_unicode e) (Str.strip (py_unicode e) (concat parts)) = false ->
  mjoin (clipboard_copy_faults e !! 0%nat) = None ->
  restore_delay_ok e ->
  let out := run e (launch (Some (Parsed v)) ps cb) in
  let text := Str.strip (py_unicode e) (concat parts) in
  out.1 = Some 0
  ∧ clipboard out.2 = (if restored e 0 then cb else text)
  ∧ EvClipboardCopy text ∈ trace out.2.
Proof.
  intros Hb Hwf Hf Hsz Hl Hw Hnb Hc Hd out text. subst out. fold text in Hnb.
  destruct (stop_run_to_transcribe e ps cb v pid wav size Hb Hwf Hf Hsz)
    as (s4 & Hm & Hcb & Hcp & _ & _).
  destruct (transcribe_ok wav parts e s4 Hl Hw) as (s5 & Ht & Hcp5 & Hcb5 & _).
  fold text in Ht.
  assert (Hc5 : mjoin (clipboard_copy_faults e !! copies s5) = None).
  { rewrite Hcp5, Hcp. exact Hc. }
  destruct (paste_text_clipboard text e s5 Hc5 Hd) as (s6 & Hp & Hcb6).
  destruct (paste_text_returns text e s5 Hc5 Hd) as (s6' & Hp' & Htr).
  rewrite Hp in Hp'. injection Hp' as <-.
  erewrite run_of_exit.
  2:{ rewrite Hm. erewrite bind_Ret by exact Ht. unfold after_transcribe.
      erewrite bind_Ret by reflexivity. rewrite Hnb. simpl.
      erewrite bind_Ret by reflexivity.
      erewrite bind_Ret by exact Hp.
      erewrite bind_Ret by reflexivity. reflexivity. }
  simpl. split; [reflexivity|]. split.
  - rewrite Hcb6, Hcp5, Hcp, Hcb5, Hcb. reflexivity.
  - rewrite Htr. unfold delivery_events.
    repeat (rewrite ?elem_of_app, ?elem_of_cons). auto 10.
Qed.

(** X18: a state file that parses to something other than an object
    (a number, a string, a list, a boolean) wedges the toggle: the
    lookup of the pid raises AttributeError, the invocation exits with
    status 1 having done nothing but log the error, and the file stays
    as it is, so the next invocation finds the same record again. *)
Theorem non_object_record_wedges e ps cb v :
  boots e ->
  v ≠ PNone ->
  (∀ d, v ≠ PDict d) ->
  let out := run e (launch (Some (Parsed v)) ps cb) in
  out.1 = Some 1
  ∧ state_file out.2 = Some (Parsed v)
  ∧ trace out.2 = [EvLog ERROR (MsgError AttributeError)]
  ∧ procs out.2 = ps.
Proof.
  intros Hb Hn Hd out. subst out.
  erewrite run_of_raise.
  2:{ rewrite main_boots by exact Hb.
      erewrite bind_Ret by (apply read_state_parsed; reflexivity).
      destruct v; try reflexivity; [congruence | destruct (Hd _ eq_refl)]. }
  repeat split.
Qed.

(** ** How an invocation ends *)

Section Tamed.
Context (e : env).

Lemma tamed_ret {A} (a : A) : tamed e (ret a).
Proof. intros s. exact I. Qed.

Lemma tamed_ask : tamed e ask.
Proof. intros s. exact I. Qed.

Lemma tamed_get : tamed e get.
Proof. intros s. exact I. Qed.

Lemma tamed_modify g : tamed e (modify g).
Proof. intros s. exact I. Qed.

Lemma tamed_raise {A} x : tamed e (@raise A x).
Proof. intros s. exact I. Qed.

Lemma tamed_sys_exit {A} c : c = 0 ∨ c = 1 -> tamed e (@sys_exit A c).
Proof. intros H s. exact H. Qed.

Lemma tamed_bind {A B} (m : M A) (k : A -> M B) :
  tamed e m -> (∀ a, tamed e (k a)) -> tamed e (bind m k).
Proof.
  intros Hm Hk s. unfold bind. specialize (Hm s).
  destruct (m e s) as [[a|c|[x|]|] s1]; simpl in *; try assumption. apply Hk.
Qed.

Lemma tamed_try_except {A} (m : M A) h :
  tamed e m -> (∀ x k, h (Exception x) = Some k -> tamed e k) ->
  tamed e (try_except m h).
Proof.
  intros Hm Hh s. unfold try_except. specialize (Hm s).
  destruct (m e s) as [[a|c|[x|]|] s1]; simpl in *; try assumption;
    try contradiction.
  destruct (h (Exception x)) as [k|] eqn:Hx; [apply (Hh _ _ Hx) | exact I].
Qed.

Lemma tamed_when b m : tamed e m -> tamed e (when b m).
Proof. intros H. destruct b; [exact H | apply tamed_ret]. Qed.

Lemma tamed_attempt fault : tamed e (attempt fault).
Proof. destruct fault; [apply tamed_raise | apply tamed_ret]. Qed.

Lemma tamed_stop_daemon pid : tamed e (stop_daemon pid).
Proof. intros s. destruct (stop_daemon_returns pid e s) as (b & s' & ->). exact I. Qed.

End Tamed.

Ltac tamed_one :=
  first
    [ apply tamed_stop_daemon
    | apply tamed_bind; [ | intros ? ]
    | apply tamed_try_except;
        [ | let H := fresh in intros ? ? H; simpl in H; injection H as <- ]
    | apply tamed_ret
    | apply tamed_ask
    | apply tamed_get
    | apply tamed_modify
    | apply tamed_raise
    | apply tamed_sys_exit; auto
    | apply tamed_when
    | apply tamed_attempt
    | match goal with
      | |- tamed _ (match ?x with _ => _ end) => destruct x
      end ].

(** The stop branch ends in status 0 or 1, or in an exception for the
    main block. *)
Lemma tamed_stop_path e v : tamed e (stop_path v).
Proof. repeat first [ tamed_one | progress autounfold with prog ]. Qed.

Lemma start_path_tame e s :
  fs_fault e MkdirStateDir = None ->
  fs_fault e MkdirTmpDir = None ->
  fork_outcome e ≠ inr 0%N ->
  tame (start_path e s).1.
Proof.
  intros Hms Hmt Hf. destruct (fork_outcome e) as [x|[|k]] eqn:Hfk.
  - unfold start_path. erewrite bind_Ret by reflexivity. rewrite daemonize_eq.
    erewrite bind_Ret by (apply mkdir_ok, Hmt).
    erewrite bind_Raise by (rewrite os_fork_eq, Hfk; reflexivity). exact I.
  - destruct (Hf eq_refl).
  - rewrite (start_path_parent _ _ _ Hms Hmt Hfk).
    destruct (fs_fault e WriteStateFile); simpl; auto.
Qed.

(** X19: the launcher always ends, and with status 0 or 1: whatever the
    state file holds and whatever fails, an invocation that is not the
    forked worker neither waits for ever nor leaves with another
    status; every exception is turned into status 1 by the main
    block. *)
Theorem launcher_exit_status e s :
  fork_outcome e ≠ inr 0%N ->
  (run e s).1 = Some 0 ∨ (run e s).1 = Some 1.
Proof.
  intros Hf. destruct (boots_dec e) as [Hb|Hn].
  2:{ destruct (run_without_boot e s Hn) as (t & H1 & _). right. exact H1. }
  assert (Ht : tame (main e s).1).
  { rewrite main_boots by exact Hb.
    destruct (read_state_cases e (configured s)) as [(v & Hv)|(x & _ & Hx)].
    - unfold bind.
      destruct (read_state e (configured s)) as [r s1]. simpl in Hv. subst r.
      destruct Hb as (_ & Hms & Hmt).
      destruct v; first [ apply start_path_tame; assumption | apply tamed_stop_path ].
    - erewrite bind_Raise by exact Hx. exact I. }
  unfold run. rewrite script_eq.
  destruct (main e s) as [[[]|c|[x|]|] s']; simpl in *; auto.
  - destruct Ht as [-> | ->]; auto.
  - destruct Ht.
  - destruct Ht.
Qed.

(** ** Where the log goes *)

#[local] Instance sink_stays_preorder : PreOrder sink_stays.
Proof.
  split.
  - intros s k H. exact H.
  - intros s1 s2 s3 H12 H23 k H. apply H23, H12, H.
Qed.

Ltac sink_side :=
  let k := fresh "k" in
  let Hk := fresh "Hk" in
  intros k Hk; simpl in *; try rewrite Hk; simpl; first [assumption | reflexivity].

Lemma steps_script_sink : steps sink_stays script.
Proof.
  unfold script, main. steps_auto.
  all: try (apply steps_pump; [typeclasses eauto | intros ? ? | intros ? ? | intros ? ? _]).
  all: sink_side.
Qed.

Lemma configured_idempotent s : configured (configured s) = configured s.
Proof. unfold configured. destruct s as [sf ps cb n [k|] se ad tr]; reflexivity. Qed.

Lemma run_configured e s : run e s = run e (configured s).
Proof.
  unfold run. rewrite !script_eq.
  assert (HK : ∀ s0,
             main e s0
             = bind check_dependencies (fun _ =>
               bind (mkdir MkdirStateDir) (fun _ =>
               bind (mkdir MkdirTmpDir) (fun _ =>
               bind read_state dispatch))) e (configured s0))
    by (intros s0; reflexivity).
  assert (H : main e s = main e (configured s))
    by (rewrite (HK s), (HK (configured s)), configured_idempotent; reflexivity).
  rewrite H. reflexivity.
Qed.

(** X20: every process of the script logs to stderr, the worker
    included.  [setup_logging(daemon=True)] in the forked worker comes
    after [setup_logging(daemon=False)] of [main], and
    [logging.basicConfig] does nothing on a logger that is configured:
    at the end of every run, of the launcher or of the worker, the sink
    is still stderr, and never the log file. *)
Theorem logging_stays_on_stderr e sf ps cb :
  log_sink (run e (launch sf ps cb)).2 = Some Stderr.
Proof.
  rewrite run_configured. unfold run.
  pose proof (steps_script_sink e (configured (launch sf ps cb))) as H.
  destruct (script e (configured (launch sf ps cb))) as [r s']. simpl in *.
  apply H. reflexivity.
Qed.

(** ** The capture loop, for every stream *)

Lemma callback_cases t0 flag clock status indata e s :
  ∃ f s',
    callback t0 flag clock status indata e s = (Ret f, s')
    ∧ (audio_data s' = audio_data s
       ∨ (stop_event s = false ∧ audio_data s' = audio_data s ++ [indata]))
    ∧ (stop_event s = true -> stop_event s' = true).
Proof.
  unfold callback.
  remember ((0 <? S2T_MAX_SECONDS e) && negb flag
            && timer_expired t0 clock (S2T_MAX_SECONDS e)) as c eqn:Hc.
  unfold bind, when, logging, emit, modify, ask, get, ret.
  destruct status; cbv beta iota; rewrite <- Hc; destruct c;
    unfold bind, when, logging, emit, modify, ask, get, ret; simpl;
    destruct (stop_event s) eqn:Hs; simpl;
    eexists _, _; (split; [reflexivity|]); simpl; rewrite ?Hs; auto.
Qed.

(** X21: what the buffer can hold.  Whatever the stream delivers, in
    whatever order, and whatever the maximum duration, the callbacks
    and signal handlers always return, and the buffer they leave is the
    buffer they found followed by some of the delivered chunks, each at
    most once and in order of arrival; once the stop is set it stays
    set and the buffer receives nothing more. *)
Theorem capture_keeps_order t0 flag evs e s :
  ∃ flag' s' l,
    pump t0 flag evs e s = (Ret flag', s')
    ∧ audio_data s' = audio_data s ++ l
    ∧ l `sublist_of` chunks_of evs
    ∧ buffer_grows s s'
    ∧ frozen s s'.
Proof.
  revert flag s. induction evs as [|[clock status indata|sig] evs IH]; intros flag s.
  - exists flag, s, []. split; [reflexivity|]. split; [symmetry; apply app_nil_r|].
    split; [constructor|].
    split; [exists []; symmetry; apply app_nil_r | intros H; auto].
  - destruct (callback_cases t0 flag clock status indata e s) as (f & s1 & Hc & Ha & Hst).
    destruct (IH f s1) as (flag' & s' & l & Hp & Hl & Hsub & _ & Hfr).
    assert (Hpump : pump t0 flag (Chunk clock status indata :: evs) e s = (Ret flag', s')).
    { simpl. erewrite bind_Ret by exact Hc. exact Hp. }
    destruct Ha as [Ha|[Hs Ha]].
    + exists flag', s', l. split; [exact Hpump|]. split; [congruence|].
      split; [apply sublist_cons, Hsub|]. split.
      * unfold buffer_grows. exists l. congruence.
      * intros H. destruct (Hfr (Hst H)) as [H1 H2]. split; congruence.
    + exists flag', s', (indata :: l). split; [exact Hpump|].
      split; [rewrite Hl, Ha, <- app_assoc; reflexivity|].
      split; [apply sublist_skip, Hsub|]. split.
      * unfold buffer_grows. exists (indata :: l).
        rewrite Hl, Ha, <- app_assoc. reflexivity.
      * intros H. congruence.
  - destruct (IH flag (set_stop_event true (set_trace (trace s ++ [EvStopSet false]) s)))
      as (flag' & s' & l & Hp & Hl & Hsub & _ & Hfr).
    exists flag', s', l. split; [|split; [exact Hl|split; [exact Hsub|split]]].
    + simpl. erewrite bind_Ret by apply signal_handler_eq. exact Hp.
    + unfold buffer_grows. exists l. exact Hl.
    + intros _. exact (Hfr eq_refl).
Qed.

(** A callback that does not trip the timer. *)
Lemma callback_passes e s flag clock status indata :
  uncut e (Chunk clock status indata) ->
  ∃ s', callback (start_clock e) flag clock status indata e s = (Ret flag, s')
        ∧ audio_data s' = (if stop_event s then audio_data s
                           else audio_data s ++ [indata])
        ∧ stop_event s' = stop_event s
        ∧ emits quiet_event s s'.
Proof.
  intros Hu. unfold callback.
  assert (Hc : (0 <? S2T_MAX_SECONDS e) && negb flag
               && timer_expired (start_clock e) clock (S2T_MAX_SECONDS e) = false).
  { destruct Hu as [HD|Hlt].
    - apply andb_false_iff. left. apply andb_false_iff. left. apply Z.ltb_ge, HD.
    - apply andb_false_iff. right. exact Hlt. }
  unfold bind, when, logging, emit, modify, ask, get, ret.
  destruct status; cbv beta iota; rewrite Hc;
    unfold bind, when, logging, emit, modify, ask, get, ret.
  all: simpl; destruct (stop_event s) eqn:Hs; simpl;
    eexists; (split; [reflexivity|]); simpl; rewrite ?Hs;
    (split; [reflexivity|]); (split; [reflexivity|]);
    first [ apply emits_same; reflexivity
          | apply (emits_emit quiet_event (EvLog WARNING MsgAudioStatus) s); reflexivity ].
Qed.

(** A stream that never trips the timer: the buffer receives the
    chunks that arrive before the first signal, and the stop is set by
    a signal or not at all. *)
Lemma pump_uncut e evs s :
  Forall (uncut e) evs ->
  ∃ s', pump (start_clock e) false evs e s = (Ret false, s')
        ∧ audio_data s' = audio_data s
                          ++ (if stop_event s then [] else chunks_of (before_signal evs))
        ∧ stop_event s' = stop_event s || has_signal evs
        ∧ emits quiet_event s s'.
Proof.
  intros F. revert s. induction F as [|[clock status indata|sig] evs Hev _ IH]; intros s.
  - exists s. split; [reflexivity|]. split; [|split; [|reflexivity]].
    + destruct (stop_event s); simpl; rewrite app_nil_r; reflexivity.
    + simpl. rewrite orb_false_r. reflexivity.
  - destruct (callback_passes e s false clock status indata Hev)
      as (s1 & Hc & Ha & Hs1 & He).
    destruct (IH s1) as (s' & Hp & Ha' & Hs' & He').
    exists s'. split; [|split; [|split; [|etransitivity; eassumption]]].
    + simpl. erewrite bind_Ret by exact Hc. exact Hp.
    + rewrite Ha', Ha, Hs1. destruct (stop_event s); [reflexivity|].
      simpl. rewrite <- app_assoc. reflexivity.
    + rewrite Hs', Hs1. reflexivity.
  - destruct (IH (set_stop_event true (set_trace (trace s ++ [EvStopSet false]) s)))
      as (s' & Hp & Ha' & Hs' & He').
    exists s'. split; [|split; [|split]].
    + simpl. erewrite bind_Ret by apply signal_handler_eq. exact Hp.
    + rewrite Ha'. simpl. destruct (stop_event s); reflexivity.
    + rewrite Hs'. simpl. rewrite orb_true_r. reflexivity.
    + etransitivity; [|exact He']. apply (emits_emit quiet_event (EvStopSet false) s).
      reflexivity.
Qed.

Lemma duration_log_eq e s :
  (if 0 <? S2T_MAX_SECONDS e
   then logging INFO (MsgMaxDuration (S2T_MAX_SECONDS e))
   else logging INFO MsgMaxDurationUnlimited) e s
  = (Ret tt,
     set_trace (trace s ++ [EvLog INFO (if 0 <? S2T_MAX_SECONDS e
                                        then MsgMaxDuration (S2T_MAX_SECONDS e)
                                        else MsgMaxDurationUnlimited)]) s).
Proof. destruct (0 <? S2T_MAX_SECONDS e); reflexivity. Qed.

Lemma steps_record_audio_kept {X} (f : st -> X) wav :
  (∀ v s, f (set_audio_data v s) = f s) ->
  (∀ v s, f (set_stop_event v s) = f s) ->
  (∀ t s, f (set_trace t s) = f s) ->
  steps (kept f) (record_audio wav).
Proof.
  intros Ha Hs Ht. steps_auto.
  all: try (apply steps_pump; [typeclasses eauto | intros ? ? | intros ? ? | intros ? ? _]).
  all: first [ apply Ha | apply Hs | apply Ht ].
Qed.

(** A recording that a signal ends. *)
Lemma record_audio_signalled wav e s evs :
  stop_event s = false ->
  input_stream e = inr evs ->
  Forall (uncut e) evs ->
  has_signal evs = true ->
  wav_write_fault e = None ->
  ∃ s' t,
    record_audio wav e s = (Ret tt, s')
    ∧ trace s' = trace s ++ t
    ∧ audio_data s' = chunks_of (before_signal evs)
    ∧ only is_timer_stop t = []
    ∧ only is_wav_write t
      = (if bool_decide (chunks_of (before_signal evs) = []) then []
         else [EvWavWrite wav SAMPLE_RATE (concat (chunks_of (before_signal evs)))]).
Proof.
  intros Hs0 Hin F Hsig Hw.
  set (appended := chunks_of (before_signal evs)).
  unfold record_audio.
  erewrite bind_Ret by reflexivity.
  erewrite bind_Ret by reflexivity. cbv beta zeta.
  set (sa := set_audio_data [] s).
  destruct (log_device_returns e sa) as (sb & Hlog & Hab & Hsb & (tb & Htb & Fb)).
  erewrite bind_Ret by exact Hlog.
  rewrite Hin.
  set (m := if 0 <? S2T_MAX_SECONDS e
            then MsgMaxDuration (S2T_MAX_SECONDS e) else MsgMaxDurationUnlimited).
  set (sc := set_trace ((trace sb ++ [EvLog INFO (MsgRecordingTo wav)])
                        ++ [EvLog INFO m]) sb).
  destruct (pump_uncut e evs sc F) as (sp & Hp & Hap & Hsp & (tp & Htp & Fp)).
  assert (Hap' : audio_data sp = appended).
  { rewrite Hap. simpl. rewrite Hsb, Hab. simpl. rewrite Hs0. reflexivity. }
  assert (Hsp' : stop_event sp = true).
  { rewrite Hsp, Hsig. apply orb_true_r. }
  destruct (only_quiet _ Fb) as [Qb Wb]. destruct (only_quiet _ Fp) as [Qp Wp].
  assert (Hstream :
            bind (logging INFO (MsgRecordingTo wav)) (fun _ =>
            bind (if 0 <? S2T_MAX_SECONDS e
                  then logging INFO (MsgMaxDuration (S2T_MAX_SECONDS e))
                  else logging INFO MsgMaxDurationUnlimited) (fun _ =>
            bind (pump (start_clock e) false evs) (fun _ => wait_for_stop))) e sb
            = (Ret tt, sp)).
  { erewrite bind_Ret by reflexivity.
    erewrite bind_Ret by apply duration_log_eq.
    erewrite bind_Ret by exact Hp.
    unfold wait_for_stop, bind, get. rewrite Hsp'. reflexivity. }
  assert (Htsp : trace sp = trace s ++ tb ++ [EvLog INFO (MsgRecordingTo wav);
                   EvLog INFO m] ++ tp).
  { rewrite Htp. simpl. rewrite Htb. simpl. rewrite <- !app_assoc. reflexivity. }
  assert (Qm : only is_timer_stop [EvLog INFO (MsgRecordingTo wav); EvLog INFO m] = []
               ∧ only is_wav_write [EvLog INFO (MsgRecordingTo wav); EvLog INFO m] = [])
    by (split; reflexivity).
  destruct Qm as [Qm Wm].
  destruct (bool_decide_reflect (appended = [])) as [Hempty|Hne].
  - eexists _, (tb ++ [_; _] ++ tp ++ [_]).
    erewrite try_Ret.
    2:{ erewrite bind_Ret by exact Hstream.
        erewrite bind_Ret by reflexivity.
        rewrite Hap', Hempty. reflexivity. }
    split; [reflexivity|].
    split; [simpl; rewrite Htsp, <- !app_assoc; reflexivity|].
    rewrite !only_app, Qb, Wb, Qp, Wp, Qm, Wm. simpl. rewrite Hap', Hempty. repeat split.
  - eexists _, (tb ++ [_; _] ++ tp ++ [_; _; _]).
    erewrite try_Ret.
    2:{ erewrite bind_Ret by exact Hstream.
        erewrite bind_Ret by reflexivity.
        rewrite Hap', bool_decide_eq_false_2 by exact Hne. simpl.
        erewrite bind_Ret by reflexivity.
        erewrite bind_Ret.
        2:{ unfold wav_write.
            erewrite bind_Ret by reflexivity.
            erewrite bind_Ret by reflexivity. rewrite Hw. reflexivity. }
        reflexivity. }
    split; [reflexivity|].
    split; [simpl; rewrite Htsp, <- !app_assoc; reflexivity|].
    rewrite !only_app, Qb, Wb, Qp, Wp, Qm, Wm. simpl. rewrite Hap'. repeat split.
Qed.

(** ** The worker *)

Lemma try_Exit {A} (m : M A) h e s c s' :
  m e s = (Exit c, s') -> try_except m h e s = (Exit c, s').
Proof. intros H. unfold try_except. rewrite H. reflexivity. Qed.

Lemma run_of_ret e s s' : main e s = (Ret tt, s') -> run e s = (Some 0, s').
Proof. intros H. unfold run. rewrite script_eq, H. reflexivity. Qed.

(** The forked child, from the fork on. *)
Lemma worker_main e ps cb :
  boots e ->
  fork_outcome e = inr 0%N ->
  main e (launch None ps cb)
  = try_except
      (os_setsid;; setup_logging true;; redirect_stdio;; record_audio (new_wav_path e))
      (except_Exception (fun x => logging ERROR (MsgDaemonError x);; sys_exit 1))
      e (set_trace [EvFork] (configured (launch None ps cb))).
Proof.
  intros Hb Hf. pose proof Hb as (_ & Hms & Hmt).
  rewrite main_boots by exact Hb.
  erewrite bind_Ret by (apply read_state_absent; reflexivity).
  change (dispatch PNone) with start_path. unfold start_path.
  erewrite bind_Ret by reflexivity. fold (new_wav_path e). rewrite daemonize_eq.
  erewrite bind_Ret by (apply mkdir_ok, Hmt).
  erewrite bind_Ret by (rewrite os_fork_eq, Hf; reflexivity).
  change (Z.of_N 0) with 0. unfold after_fork. change (0 <? 0) with false.
  erewrite bind_Ret by reflexivity. reflexivity.
Qed.

Lemma os_setsid_ok e s :
  setsid_fault e = None -> os_setsid e s = (Ret tt, set_trace (trace s ++ [EvSetsid]) s).
Proof. intros H. unfold os_setsid, bind, emit, modify, ask. simpl. rewrite H. reflexivity. Qed.

Lemma redirect_stdio_ok e s :
  redirect_fault e = None ->
  redirect_stdio e s = (Ret tt, set_trace (trace s ++ [EvRedirectStdio]) s).
Proof.
  intros H. unfold redirect_stdio, bind, emit, modify, ask. simpl. rewrite H. reflexivity.
Qed.

(** The state in which the worker starts to record. *)
Lemma worker_detaches e ps cb (m : M unit) :
  setsid_fault e = None ->
  redirect_fault e = None ->
  bind os_setsid (fun _ => bind (setup_logging true) (fun _ =>
    bind redirect_stdio (fun _ => m)))
    e (set_trace [EvFork] (configured (launch None ps cb)))
  = m e (set_trace [EvFork; EvSetsid; EvRedirectStdio] (configured (launch None ps cb))).
Proof.
  intros H1 H2.
  erewrite bind_Ret by (apply os_setsid_ok, H1).
  erewrite bind_Ret by reflexivity.
  erewrite bind_Ret by (apply redirect_stdio_ok, H2). reflexivity.
Qed.

(** X22: the worker's side of a start.  In the forked child, with a
    stream for none of whose chunks the timer test of the callback
    holds (the float test [time.monotonic() - start_time >=
    S2T_MAX_SECONDS]; or with no maximum set) and which a signal ends,
    the run detaches, records, and returns
    with status 0: the one file it writes is at the path the launcher
    stores in the session, written once from the chunks that arrived
    before the first signal, in order; with no such chunk no file is
    written.  The timer never raises the stop, and the worker leaves
    the state file alone. *)
Theorem worker_records_to_session_path e ps cb evs :
  boots e ->
  fork_outcome e = inr 0%N ->
  setsid_fault e = None ->
  redirect_fault e = None ->
  input_stream e = inr evs ->
  Forall (uncut e) evs ->
  has_signal evs = true ->
  wav_write_fault e = None ->
  let out := run e (launch None ps cb) in
  let appended := chunks_of (before_signal evs) in
  out.1 = Some 0
  ∧ audio_data out.2 = appended
  ∧ only is_wav_write (trace out.2)
    = (if bool_decide (appended = []) then []
       else [EvWavWrite (new_wav_path e) SAMPLE_RATE (concat appended)])
  ∧ only is_timer_stop (trace out.2) = []
  ∧ state_file out.2 = None.
Proof.
  intros Hb Hf H1 H2 Hin F Hsig Hw out appended. subst out appended.
  set (s3 := set_trace [EvFork; EvSetsid; EvRedirectStdio] (configured (launch None ps cb))).
  destruct (record_audio_signalled (new_wav_path e) e s3 evs eq_refl Hin F Hsig Hw)
    as (s' & t & Hrec & Ht & Ha & Hq & Hww).
  pose proof (kept_at state_file _ _ _ _ _
                (steps_record_audio_kept state_file (new_wav_path e)
                   ltac:(reflexivity) ltac:(reflexivity) ltac:(reflexivity)) Hrec) as Hsf.
  erewrite run_of_ret.
  2:{ rewrite (worker_main _ _ _ Hb Hf). apply try_Ret.
      rewrite (worker_detaches _ _ _ _ H1 H2). exact Hrec. }
  simpl. rewrite Ht. simpl. rewrite Hq, Hww. repeat split; assumption.
Qed.

Lemma record_audio_no_stream wav e s x :
  input_stream e = inl x ->
  ∃ s' t, record_audio wav e s = (Exit 1, s')
          ∧ trace s' = trace s ++ t ++ [EvLog ERROR (MsgRecordingError x)]
          ∧ Forall (fun ev => is_log ev = true) t.
Proof.
  intros Hin. unfold record_audio.
  erewrite bind_Ret by reflexivity.
  erewrite bind_Ret by reflexivity. cbv beta zeta. rewrite Hin.
  unfold log_device, try_except, bind, ask, logging, emit, modify, raise, sys_exit.
  destruct (query_devices e) as [y|name]; [|destruct (S2T_AUDIO_DEVICE e)]; simpl;
    eexists _, [_]; (split; [reflexivity|]); simpl; rewrite <- !app_assoc;
    (split; [reflexivity | repeat constructor]).
Qed.

Lemma log_not_wav_write ev : is_log ev = true -> is_wav_write ev = false.
Proof. destruct ev; try discriminate; reflexivity. Qed.

(** X23: a worker that cannot open the input stream logs the recording
    error and exits with status 1; no audio file is written.  The
    launcher has stored the session by then, so the next invocation is
    a stop that finds neither worker nor file. *)
Theorem worker_without_input_stream e ps cb x :
  boots e ->
  fork_outcome e = inr 0%N ->
  setsid_fault e = None ->
  redirect_fault e = None ->
  input_stream e = inl x ->
  let out := run e (launch None ps cb) in
  out.1 = Some 1
  ∧ last (trace out.2) = Some (EvLog ERROR (MsgRecordingError x))
  ∧ only is_wav_write (trace out.2) = []
  ∧ state_file out.2 = None.
Proof.
  intros Hb Hf H1 H2 Hin out. subst out.
  set (s3 := set_trace [EvFork; EvSetsid; EvRedirectStdio] (configured (launch None ps cb))).
  destruct (record_audio_no_stream (new_wav_path e) e s3 x Hin) as (s' & t & Hrec & Ht & Fl).
  pose proof (kept_at state_file _ _ _ _ _
                (steps_record_audio_kept state_file (new_wav_path e)
                   ltac:(reflexivity) ltac:(reflexivity) ltac:(reflexivity)) Hrec) as Hsf.
  erewrite run_of_exit.
  2:{ rewrite (worker_main _ _ _ Hb Hf). apply try_Exit.
      rewrite (worker_detaches _ _ _ _ H1 H2). exact Hrec. }
  cbn [fst snd]. split; [reflexivity|]. split; [|split; [|exact Hsf]].
  - rewrite Ht, app_assoc. apply last_snoc.
  - rewrite Ht, !only_app, (only_none is_wav_write t); [reflexivity|].
    eapply Forall_impl; [exact Fl | exact log_not_wav_write].
Qed.

(** X24: a worker that cannot detach, because [os.setsid] or the
    redirection of the standard streams fails, logs the daemon error
    and exits with status 1 before it opens any stream: these are all
    the events of its run. *)
Theorem worker_detach_failure e ps cb x :
  boots e ->
  fork_outcome e = inr 0%N ->
  setsid_fault e = Some x ∨ (setsid_fault e = None ∧ redirect_fault e = Some x) ->
  let out := run e (launch None ps cb) in
  out.1 = Some 1
  ∧ trace out.2
    = [EvFork; EvSetsid]
      ++ match setsid_fault e with Some _ => [] | None => [EvRedirectStdio] end
      ++ [EvLog ERROR (MsgDaemonError x)]
  ∧ audio_data out.2 = []
  ∧ state_file out.2 = None.
Proof.
  intros Hb Hf Hd out. subst out.
  destruct Hd as [H1|[H1 H2]].
  - erewrite run_of_exit.
    2:{ rewrite (worker_main _ _ _ Hb Hf). erewrite try_Raise.
        2:{ apply bind_Raise. unfold os_setsid, bind, emit, modify, ask. simpl.
            rewrite H1. reflexivity. }
        reflexivity. }
    rewrite H1. repeat split.
  - erewrite run_of_exit.
    2:{ rewrite (worker_main _ _ _ Hb Hf). erewrite try_Raise.
        2:{ erewrite bind_Ret by (apply os_setsid_ok, H1).
            erewrite bind_Ret by reflexivity.
            apply bind_Raise. unfold redirect_stdio, bind, emit, modify, ask. simpl.
            rewrite H2. reflexivity. }
        reflexivity. }
    rewrite H1. repeat split.
Qed.

(** ** The notification script *)

Lemma escape_cons c s :
  escape (c :: s)
  = (if (c =? backslash)%N then [backslash; backslash]
     else if (c =? double_quote)%N then [backslash; double_quote]
     else [c]) ++ escape s.
Proof.
  unfold escape, replace_char. simpl flat_map at 2. rewrite flat_map_app.
  f_equal. destruct (c =? backslash)%N eqn:E; [reflexivity|].
  simpl. rewrite app_nil_r. reflexivity.
Qed.

(** The escaped text, closed by a quote, reads back as the text. *)
Lemma read_literal_escape s rest :
  read_literal (escape s ++ double_quote :: rest) = Some (s, rest).
Proof.
  induction s as [|c s IH]; [reflexivity|].
  rewrite escape_cons.
  destruct (c =? backslash)%N eqn:E1.
  - apply N.eqb_eq in E1. subst c. simpl. rewrite IH. reflexivity.
  - destruct (c =? double_quote)%N eqn:E2.
    + apply N.eqb_eq in E2. subst c. simpl. rewrite IH. reflexivity.
    + simpl. rewrite E1, E2, IH. reflexivity.
Qed.

Lemma expect_app p s : expect p (p ++ s) = Some s.
Proof.
  induction p as [|a p IH]; [destruct s; reflexivity|].
  simpl. rewrite N.eqb_refl. exact IH.
Qed.

(** X25: the escaping of [notify] is right for every title and every
    message: the script it builds, read the way AppleScript reads
    string literals, is the command [display notification] with exactly
    that message and exactly that title.  No backslash or double quote
    in either text can end a literal early or run into the rest of the
    script. *)
Theorem notification_script_round_trip title message :
  read_notification (notify_script title message) = Some (title, message).
Proof.
  unfold read_notification, notify_script.
  rewrite (app_assoc (py "display notification ") [double_quote]), expect_app.
  change ([double_quote] ++ py " with title " ++ [double_quote] ++ escape title
          ++ [double_quote])
    with (double_quote :: (py " with title " ++ [double_quote])
                          ++ escape title ++ [double_quote]).
  rewrite read_literal_escape, expect_app.
  change (escape title ++ [double_quote]) with (escape title ++ double_quote :: []).
  rewrite read_literal_escape. reflexivity.
Qed.

(** ** The transcript *)

Lemma lstrip_spec U s :
  ∃ l, s = l ++ Str.lstrip U s
       ∧ Forall (fun c => Str.isspace U c = true) l
       ∧ ∀ c r, Str.lstrip U s = c :: r -> Str.isspace U c = false.
Proof.
  induction s as [|a s (l & Hl & Fl & Hh)].
  - exists []. repeat split; [constructor | discriminate].
  - simpl. destruct (Str.isspace U a) eqn:Ha.
    + exists (a :: l). split; [simpl; congruence|]. split; [constructor; assumption|].
      exact Hh.
    + exists []. split; [reflexivity|]. split; [constructor|].
      intros c r [= <- _]. exact Ha.
Qed.

(** [s.strip()] cuts white space from both ends, and only that. *)
Lemma strip_spec U s :
  ∃ l r, s = l ++ Str.strip U s ++ r
         ∧ Forall (fun c => Str.isspace U c = true) l
         ∧ Forall (fun c => Str.isspace U c = true) r
         ∧ (∀ c t, Str.strip U s = c :: t -> Str.isspace U c = false)
         ∧ (∀ c, last (Str.strip U s) = Some c -> Str.isspace U c = false).
Proof.
  unfold Str.strip.
  destruct (lstrip_spec U s) as (l & Hl & Fl & Hh).
  destruct (lstrip_spec U (rev (Str.lstrip U s))) as (r' & Hr & Fr & Hhr).
  set (a := Str.lstrip U s) in *. set (b := Str.lstrip U (rev a)) in *.
  assert (Ha : a = rev b ++ rev r').
  { rewrite <- rev_app_distr, <- Hr. symmetry. apply rev_involutive. }
  exists l, (rev r'). split; [rewrite <- Ha; exact Hl|]. split; [exact Fl|].
  split; [apply List.Forall_rev, Fr|]. split.
  - intros c t Hc. apply (Hh c (t ++ rev r')). rewrite Ha, Hc. reflexivity.
  - intros c Hc. destruct b as [|c0 b'] eqn:Hb; [discriminate Hc|].
    simpl in Hc. rewrite last_snoc in Hc. injection Hc as <-.
    apply (Hhr c0 b'). reflexivity.
Qed.

(** X26: what [transcribe] returns and shows.  When the model loads
    and the transcription succeeds, the text returned is the
    concatenation of the segments with the white space cut from both
    ends, and nothing else: it neither begins nor ends with white
    space.  The last log entry shows the text, cut to its first 100
    code points and followed by an ellipsis exactly when it is longer
    than that. *)
Theorem transcript_is_trimmed wav parts e s :
  model_load_fault e = None ->
  whisper e wav = inr parts ->
  ∃ s' text l r,
    transcribe wav e s = (Ret text, s')
    ∧ concat parts = l ++ text ++ r
    ∧ Forall (fun c => Str.isspace (py_unicode e) c = true) l
    ∧ Forall (fun c => Str.isspace (py_unicode e) c = true) r
    ∧ (∀ c t, text = c :: t -> Str.isspace (py_unicode e) c = false)
    ∧ (∀ c, last text = Some c -> Str.isspace (py_unicode e) c = false)
    ∧ last (trace s')
      = Some (EvLog INFO (MsgTranscription (take 100 text) (100 <? length text)%nat))
    ∧ (length (take 100 text) <= 100)%nat.
Proof.
  intros Hl Hw.
  destruct (strip_spec (py_unicode e) (concat parts)) as (l & r & Hs & Fl & Fr & Hh & Ht).
  set (text := Str.strip (py_unicode e) (concat parts)) in *.
  assert (Hrun : ∃ s', transcribe wav e s = (Ret text, s')
                       ∧ last (trace s')
                         = Some (EvLog INFO (MsgTranscription (take 100 text)
                                               (100 <? length text)%nat))).
  { unfold transcribe, bind, emit, logging, emit, modify, ask, attempt. simpl.
    rewrite Hl, Hw. simpl. fold text.
    destruct (100 <? length text)%nat eqn:E; simpl.
    - eexists. split; [reflexivity|]. simpl. apply last_snoc.
    - eexists. split; [reflexivity|]. simpl. rewrite last_snoc.
      rewrite take_ge by (apply Nat.ltb_ge in E; lia). reflexivity. }
  destruct Hrun as (s' & Hrun & Hlast).
  exists s', text, l, r. repeat split; try assumption.
  rewrite length_take. lia.
Qed.

(** ** The blank filter and what it ignores *)

Lemma letters_are_kept U c : Str.isalpha U c = true -> c ∉ blank_deletions.
Proof.
  intros H Hin. unfold blank_deletions in Hin.
  repeat (apply elem_of_cons in Hin as [->|Hin]; [vm_compute in H; discriminate H|]).
  inversion Hin.
Qed.

Lemma filter_letters_of_kept U (text : list N) :
  filter (fun c => Str.isalpha U c = true) (filter (fun c => c ∉ blank_deletions) text)
  = filter (fun c => Str.isalpha U c = true) text.
Proof.
  induction text as [|c text IH]; [reflexivity|].
  rewrite (filter_cons (fun c => c ∉ blank_deletions)).
  destruct (decide (c ∉ blank_deletions)) as [Hk|Hd].
  - rewrite !filter_cons, IH. reflexivity.
  - rewrite IH, filter_cons.
    destruct (decide (Str.isalpha U c = true)) as [Ha|Ha]; [|reflexivity].
    destruct (Hd (letters_are_kept U c Ha)).
Qed.

Lemma filter_kept_twice (text : list N) :
  filter (fun c => c ∉ blank_deletions) (filter (fun c => c ∉ blank_deletions) text)
  = filter (fun c => c ∉ blank_deletions) text.
Proof.
  induction text as [|c text IH]; [reflexivity|].
  rewrite filter_cons. destruct (decide (c ∉ blank_deletions)) as [Hk|Hd].
  - rewrite filter_cons, decide_True by exact Hk. rewrite IH. reflexivity.
  - exact IH.
Qed.

(** X27: the blank filter does not see the twelve characters it
    deletes: a text and the same text with every space, TAB, LF, CR and
    every one of the marks . , ! ? ; : ' and double quote taken out are
    classified alike, whatever the Unicode table.  So no amount of
    punctuation or white space, anywhere in the transcript, changes the
    verdict. *)
Theorem blank_filter_ignores_deleted U text :
  is_blank_audio U text
  = is_blank_audio U (Str.translate (Str.maketrans_delete blank_deletions) text).
Proof.
  unfold is_blank_audio.
  rewrite !translate_delete, filter_kept_twice, filter_letters_of_kept. reflexivity.
Qed.

(** ** The further properties at sample runs *)

Lemma sample_session_well_formed :
  well_formed (session 4242 sample_wav) 4242 sample_wav.
Proof.
  exists [(py "pid", PInt 4242); (py "wav_path", PStr sample_wav)].
  repeat split; discriminate.
Defined.

Lemma clear_state_idempotent_witness :
  fs_fault bare_env UnlinkStateFile = None
  ∧ accessible (launch sample_session ∅ [])
  ∧ bind clear_state (fun _ => clear_state) bare_env (launch sample_session ∅ [])
    = clear_state bare_env (launch sample_session ∅ [])
  ∧ state_file (clear_state bare_env (launch sample_session ∅ [])).2 = None.
Proof.
  assert (Ha : accessible (launch sample_session ∅ [])) by (intros x; discriminate).
  split; [reflexivity|]. split; [exact Ha|].
  pose proof (proj1 (clear_state_idempotent bare_env (launch sample_session ∅ []) eq_refl)
                Ha) as (H1 & H2 & _).
  split; [exact H1 | exact H2].
Defined.

Lemma failed_unlink_keeps_session_witness :
  boots (with_fs sticky_fs stop_env)
  ∧ fs_fault (with_fs sticky_fs stop_env) UnlinkStateFile = Some PermissionError
  ∧ well_formed (session 4242 sample_wav) 4242 sample_wav
  ∧ (let out := run (with_fs sticky_fs stop_env) (launch sample_session sample_table []) in
     state_file out.2 = Some (Parsed (session 4242 sample_wav))
     ∧ EvLog ERROR (MsgFailedToClearState PermissionError) ∈ trace out.2
     ∧ EvProbe sample_wav ∈ trace out.2).
Proof.
  assert (H1 : boots (with_fs sticky_fs stop_env)) by (repeat split).
  assert (H2 : fs_fault (with_fs sticky_fs stop_env) UnlinkStateFile
               = Some PermissionError) by reflexivity.
  split; [exact H1|]. split; [exact H2|]. split; [exact sample_session_well_formed|].
  exact (failed_unlink_keeps_session (with_fs sticky_fs stop_env) sample_table []
           (session 4242 sample_wav) 4242 sample_wav PermissionError
           H1 H2 sample_session_well_formed).
Defined.

Lemma missing_dependency_is_fatal_witness :
  missing_modules (with_modules [py "pyperclip"] bare_env) ≠ []
  ∧ (let out := run (with_modules [py "pyperclip"] bare_env)
                  (launch sample_session sample_table []) in
     out.1 = Some 1
     ∧ trace out.2
       = [EvLog ERROR (MsgMissingDependencies [py "pyperclip"]);
          EvLog ERROR (MsgInstallWith [py "pyperclip"])]
     ∧ state_file out.2 = sample_session
     ∧ procs out.2 = sample_table
     ∧ clipboard out.2 = []).
Proof.
  assert (H1 : missing_modules (with_modules [py "pyperclip"] bare_env) ≠ [])
    by discriminate.
  split; [exact H1|].
  exact (missing_dependency_is_fatal (with_modules [py "pyperclip"] bare_env)
           (launch sample_session sample_table []) H1).
Defined.

Lemma directory_failure_is_fatal_witness :
  missing_modules (with_fs no_tmp_dir_fs bare_env) = []
  ∧ (fs_fault (with_fs no_tmp_dir_fs bare_env) MkdirStateDir = Some PermissionError
     ∨ (fs_fault (with_fs no_tmp_dir_fs bare_env) MkdirStateDir = None
        ∧ fs_fault (with_fs no_tmp_dir_fs bare_env) MkdirTmpDir = Some PermissionError))
  ∧ (let out := run (with_fs no_tmp_dir_fs bare_env)
                  (launch sample_session sample_table []) in
     out.1 = Some 1
     ∧ trace out.2 = [EvLog ERROR (MsgError PermissionError)]
     ∧ state_file out.2 = sample_session
     ∧ procs out.2 = sample_table).
Proof.
  assert (H1 : missing_modules (with_fs no_tmp_dir_fs bare_env) = []) by reflexivity.
  assert (H2 : fs_fault (with_fs no_tmp_dir_fs bare_env) MkdirStateDir
               = Some PermissionError
               ∨ (fs_fault (with_fs no_tmp_dir_fs bare_env) MkdirStateDir = None
                  ∧ fs_fault (with_fs no_tmp_dir_fs bare_env) MkdirTmpDir
                    = Some PermissionError))
    by (right; split; reflexivity).
  split; [exact H1|]. split; [exact H2|].
  exact (directory_failure_is_fatal (with_fs no_tmp_dir_fs bare_env)
           (launch sample_session sample_table []) PermissionError H1 H2).
Defined.

Lemma bare_env_boots : boots bare_env.
Proof. repeat split. Defined.

Lemma start_persists_session_witness :
  boots bare_env
  ∧ fs_fault bare_env WriteStateFile = None
  ∧ fork_outcome bare_env = inr (N.pos 4242)
  ∧ (let out := run bare_env (launch None ∅ (py "before")) in
     out.1 = Some 0
     ∧ state_file out.2 = Some (Parsed (session 4242 (new_wav_path bare_env)))
     ∧ trace out.2 = [EvFork; EvStateWrite 4242 (new_wav_path bare_env)]
                     ++ start_notification bare_env ++ [EvLog INFO MsgRecordingStarted]
     ∧ procs out.2 = ∅
     ∧ clipboard out.2 = py "before").
Proof.
  split; [exact bare_env_boots|]. split; [reflexivity|]. split; [reflexivity|].
  exact (start_persists_session bare_env ∅ (py "before") 4242%positive
           bare_env_boots eq_refl eq_refl).
Defined.

Lemma start_without_store_witness :
  boots (with_fs read_only_fs bare_env)
  ∧ fs_fault (with_fs read_only_fs bare_env) WriteStateFile = Some PermissionError
  ∧ fork_outcome (with_fs read_only_fs bare_env) = inr (N.pos 4242)
  ∧ (let out := run (with_fs read_only_fs bare_env) (launch None ∅ []) in
     out.1 = Some 1
     ∧ state_file out.2 = None
     ∧ trace out.2
       = [EvFork; EvStateWrite 4242 (new_wav_path (with_fs read_only_fs bare_env));
          EvLog ERROR (MsgFailedToWriteState PermissionError)]).
Proof.
  assert (H1 : boots (with_fs read_only_fs bare_env)) by (repeat split).
  split; [exact H1|]. split; [reflexivity|]. split; [reflexivity|].
  exact (start_without_store (with_fs read_only_fs bare_env) ∅ [] 4242%positive
           PermissionError H1 eq_refl eq_refl).
Defined.

Lemma fork_failure_is_fatal_witness :
  boots failed_fork_env
  ∧ fork_outcome failed_fork_env = inl OSError
  ∧ (let out := run failed_fork_env (launch None ∅ []) in
     out.1 = Some 1
     ∧ state_file out.2 = None
     ∧ trace out.2 = [EvFork; EvLog ERROR (MsgError OSError)]).
Proof.
  assert (H1 : boots failed_fork_env) by (repeat split).
  split; [exact H1|]. split; [reflexivity|].
  exact (fork_failure_is_fatal failed_fork_env ∅ [] OSError H1 eq_refl).
Defined.

Lemma corrupt_state_is_overwritten_witness :
  boots bare_env
  ∧ fs_fault bare_env WriteStateFile = None
  ∧ fork_outcome bare_env = inr (N.pos 4242)
  ∧ (let out := run bare_env (launch (Some (Unreadable JSONDecodeError)) ∅ []) in
     out.1 = Some 0
     ∧ state_file out.2 = Some (Parsed (session 4242 (new_wav_path bare_env)))
     ∧ trace out.2 = EvLog ERROR (MsgFailedToReadState JSONDecodeError)
                     :: [EvFork; EvStateWrite 4242 (new_wav_path bare_env)]
                     ++ start_notification bare_env ++ [EvLog INFO MsgRecordingStarted]
     ∧ ∀ e', (read_state e' out.2).1 = Ret (session 4242 (new_wav_path bare_env))).
Proof.
  split; [exact bare_env_boots|]. split; [reflexivity|]. split; [reflexivity|].
  exact (corrupt_state_is_overwritten bare_env ∅ [] 4242%positive JSONDecodeError
           bare_env_boots eq_refl eq_refl).
Defined.

Lemma stop_daemon_deadline_witness :
  fits_pid_t 4242 = true
  ∧ procs (launch None sample_table []) !! 4242 = Some (worker 3)
  ∧ ∃ s',
      stop_daemon (PInt 4242) stop_env (launch None sample_table [])
      = (Ret (bool_decide (3 <= 48)%nat), s')
      ∧ trace s'
        = trace (launch None sample_table []) ++ EvKill 4242 SIGINT
            :: (if bool_decide (3 <= 48)%nat
                then concat (replicate 4 (poll_round_events 4242)) ++ [EvKill 4242 SIG0]
                else concat (replicate 50 (poll_round_events 4242))
                     ++ [EvLog WARNING MsgDaemonDidNotExit]).
Proof.
  assert (H1 : fits_pid_t 4242 = true) by reflexivity.
  assert (H2 : procs (launch None sample_table []) !! 4242 = Some (worker 3))
    by (vm_compute; reflexivity).
  split; [exact H1|]. split; [exact H2|].
  exact (stop_daemon_deadline 4242 3 stop_env (launch None sample_table []) H1 H2).
Defined.

Lemma unsignalable_pid_is_reported_witness :
  (as_index (PStr (py "4242")) = None
   ∨ (∃ z, as_index (PStr (py "4242")) = Some z ∧ fits_pid_t z = false)
   ∨ (∃ z p, PStr (py "4242") = PInt z ∧ fits_pid_t z = true
             ∧ procs (launch None sample_table []) !! z = Some p
             ∧ may_signal p = false))
  ∧ ∃ s' x,
      stop_daemon (PStr (py "4242")) stop_env (launch None sample_table [])
      = (Ret false, s')
      ∧ last (trace s') = Some (EvLog ERROR (MsgFailedToStopDaemon x))
      ∧ only is_existence_check (trace s')
        = only is_existence_check (trace (launch None sample_table []))
      ∧ only is_poll_sleep (trace s')
        = only is_poll_sleep (trace (launch None sample_table []))
      ∧ procs s' = procs (launch None sample_table []).
Proof.
  assert (H1 : as_index (PStr (py "4242")) = None
               ∨ (∃ z, as_index (PStr (py "4242")) = Some z ∧ fits_pid_t z = false)
               ∨ (∃ z p, PStr (py "4242") = PInt z ∧ fits_pid_t z = true
                         ∧ procs (launch None sample_table []) !! z = Some p
                         ∧ may_signal p = false))
    by (left; reflexivity).
  split; [exact H1|].
  exact (unsignalable_pid_is_reported (PStr (py "4242")) stop_env
           (launch None sample_table []) H1).
Defined.

Lemma second_press_env_boots : boots second_press_env.
Proof. repeat split. Defined.

Lemma toggle_round_trip_witness :
  boots bare_env
  ∧ fs_fault bare_env WriteStateFile = None
  ∧ fork_outcome bare_env = inr (N.pos 4242)
  ∧ fits_pid_t 4242 = true
  ∧ boots second_press_env
  ∧ fs_fault second_press_env UnlinkStateFile = None
  ∧ (let out1 := run bare_env (launch None ∅ []) in
     let out2 := run second_press_env (launch (state_file out1.2) sample_table []) in
     out1.1 = Some 0
     ∧ well_formed (session 4242 (new_wav_path bare_env)) 4242 (new_wav_path bare_env)
     ∧ (∃ post, trace out2.2
                = EvLog INFO MsgStoppingRecording :: EvKill 4242 SIGINT :: post
                ∧ EvStateUnlink ∈ post
                ∧ EvProbe (new_wav_path bare_env) ∈ post)
     ∧ state_file out2.2 = None).
Proof.
  split; [exact bare_env_boots|]. split; [reflexivity|]. split; [reflexivity|].
  split; [reflexivity|]. split; [exact second_press_env_boots|]. split; [reflexivity|].
  exact (toggle_round_trip bare_env second_press_env ∅ [] sample_table [] 4242%positive
           bare_env_boots eq_refl eq_refl eq_refl second_press_env_boots eq_refl).
Defined.

Lemma silent_env_boots : boots silent_env.
Proof. repeat split. Defined.

Lemma blank_transcript_skips_delivery_witness :
  boots silent_env
  ∧ well_formed (session 4242 sample_wav) 4242 sample_wav
  ∧ file_size silent_env !! sample_wav = Some 1000%N
  ∧ 1000%N ≠ 0%N
  ∧ model_load_fault silent_env = None
  ∧ whisper silent_env sample_wav = inr [py " [BLANK_AUDIO] "]
  ∧ is_blank_audio (py_unicode silent_env)
      (Str.strip (py_unicode silent_env) (concat [py " [BLANK_AUDIO] "])) = true
  ∧ (let out := run silent_env (launch sample_session sample_table (py "before")) in
     out.1 = Some 0
     ∧ last (trace out.2) = Some (EvLog INFO MsgBlankAudio)
     ∧ only is_delivery (trace out.2) = []
     ∧ clipboard out.2 = py "before").
Proof.
  assert (H3 : file_size silent_env !! sample_wav = Some 1000%N) by reflexivity.
  assert (H4 : 1000%N ≠ 0%N) by discriminate.
  assert (H7 : is_blank_audio (py_unicode silent_env)
                 (Str.strip (py_unicode silent_env) (concat [py " [BLANK_AUDIO] "]))
               = true) by (vm_compute; reflexivity).
  split; [exact silent_env_boots|]. split; [exact sample_session_well_formed|].
  split; [exact H3|]. split; [exact H4|]. split; [reflexivity|]. split; [reflexivity|].
  split; [exact H7|].
  exact (blank_transcript_skips_delivery silent_env sample_table (py "before")
           (session 4242 sample_wav) 4242 sample_wav 1000%N [py " [BLANK_AUDIO] "]
           silent_env_boots sample_session_well_formed H3 H4 eq_refl eq_refl H7).
Defined.

Lemma transcription_failure_is_fatal_witness :
  boots no_model_env
  ∧ well_formed (session 4242 sample_wav) 4242 sample_wav
  ∧ file_size no_model_env !! sample_wav = Some 1000%N
  ∧ 1000%N ≠ 0%N
  ∧ (model_load_fault no_model_env = Some RuntimeError
     ∨ (model_load_fault no_model_env = None
        ∧ whisper no_model_env sample_wav = inl RuntimeError))
  ∧ (let out := run no_model_env (launch sample_session sample_table (py "before")) in
     out.1 = Some 1
     ∧ last (trace out.2) = Some (EvLog ERROR (MsgError RuntimeError))
     ∧ EvTranscribe sample_wav ∈ trace out.2
     ∧ only is_delivery (trace out.2) = []
     ∧ clipboard out.2 = py "before"
     ∧ (fs_fault no_model_env UnlinkStateFile = None -> state_file out.2 = None)).
Proof.
  assert (H1 : boots no_model_env) by (repeat split).
  assert (H3 : file_size no_model_env !! sample_wav = Some 1000%N) by reflexivity.
  assert (H4 : 1000%N ≠ 0%N) by discriminate.
  assert (H5 : model_load_fault no_model_env = Some RuntimeError
               ∨ (model_load_fault no_model_env = None
                  ∧ whisper no_model_env sample_wav = inl RuntimeError))
    by (left; reflexivity).
  split; [exact H1|]. split; [exact sample_session_well_formed|].
  split; [exact H3|]. split; [exact H4|]. split; [exact H5|].
  exact (transcription_failure_is_fatal no_model_env sample_table (py "before")
           (session 4242 sample_wav) 4242 sample_wav 1000%N RuntimeError
           H1 sample_session_well_formed H3 H4 H5).
Defined.

Lemma clipboard_after_delivery_witness :
  boots preserving_env
  ∧ well_formed (session 4242 sample_wav) 4242 sample_wav
  ∧ file_size preserving_env !! sample_wav = Some 1000%N
  ∧ 1000%N ≠ 0%N
  ∧ model_load_fault preserving_env = None
  ∧ whisper preserving_env sample_wav = inr [py " hello there "]
  ∧ is_blank_audio (py_unicode preserving_env)
      (Str.strip (py_unicode preserving_env) (concat [py " hello there "])) = false
  ∧ mjoin (clipboard_copy_faults preserving_env !! 0%nat) = None
  ∧ restore_delay_ok preserving_env
  ∧ (let out := run preserving_env (launch sample_session sample_table (py "before")) in
     let text := Str.strip (py_unicode preserving_env) (concat [py " hello there "]) in
     out.1 = Some 0
     ∧ clipboard out.2 = (if restored preserving_env 0 then py "before" else text)
     ∧ EvClipboardCopy text ∈ trace out.2).
Proof.
  assert (H1 : boots preserving_env) by (repeat split).
  assert (H3 : file_size preserving_env !! sample_wav = Some 1000%N) by reflexivity.
  assert (H4 : 1000%N ≠ 0%N) by discriminate.
  assert (H7 : is_blank_audio (py_unicode preserving_env)
                 (Str.strip (py_unicode preserving_env) (concat [py " hello there "]))
               = false) by (vm_compute; reflexivity).
  assert (H9 : restore_delay_ok preserving_env)
    by (intros _ _; vm_compute; reflexivity).
  split; [exact H1|]. split; [exact sample_session_well_formed|].
  split; [exact H3|]. split; [exact H4|]. split; [reflexivity|]. split; [reflexivity|].
  split; [exact H7|]. split; [reflexivity|]. split; [exact H9|].
  exact (clipboard_after_delivery preserving_env sample_table (py "before")
           (session 4242 sample_wav) 4242 sample_wav 1000%N [py " hello there "]
           H1 sample_session_well_formed H3 H4 eq_refl eq_refl H7 eq_refl H9).
Defined.

Lemma non_object_record_wedges_witness :
  boots bare_env
  ∧ PInt 4242 ≠ PNone
  ∧ (∀ d, PInt 4242 ≠ PDict d)
  ∧ (let out := run bare_env (launch (Some (Parsed (PInt 4242))) sample_table []) in
     out.1 = Some 1
     ∧ state_file out.2 = Some (Parsed (PInt 4242))
     ∧ trace out.2 = [EvLog ERROR (MsgError AttributeError)]
     ∧ procs out.2 = sample_table).
Proof.
  assert (H2 : PInt 4242 ≠ PNone) by discriminate.
  assert (H3 : ∀ d, PInt 4242 ≠ PDict d) by (intros d; discriminate).
  split; [exact bare_env_boots|]. split; [exact H2|]. split; [exact H3|].
  exact (non_object_record_wedges bare_env sample_table [] (PInt 4242)
           bare_env_boots H2 H3).
Defined.

Lemma launcher_exit_status_witness :
  fork_outcome bare_env ≠ inr 0%N
  ∧ ((run bare_env (launch sample_session sample_table [])).1 = Some 0
     ∨ (run bare_env (launch sample_session sample_table [])).1 = Some 1).
Proof.
  assert (H1 : fork_outcome bare_env ≠ inr 0%N) by discriminate.
  split; [exact H1|].
  exact (launcher_exit_status bare_env (launch sample_session sample_table []) H1).
Defined.

Lemma worker_env_boots : boots worker_env.
Proof. repeat split. Defined.

Lemma worker_stream_uncut : Forall (uncut worker_env) worker_stream.
Proof. repeat (constructor; [left; vm_compute; discriminate|]). constructor. Defined.

Lemma worker_records_to_session_path_witness :
  boots worker_env
  ∧ fork_outcome worker_env = inr 0%N
  ∧ setsid_fault worker_env = None
  ∧ redirect_fault worker_env = None
  ∧ input_stream worker_env = inr worker_stream
  ∧ Forall (uncut worker_env) worker_stream
  ∧ has_signal worker_stream = true
  ∧ wav_write_fault worker_env = None
  ∧ (let out := run worker_env (launch None ∅ []) in
     let appended := chunks_of (before_signal worker_stream) in
     out.1 = Some 0
     ∧ audio_data out.2 = appended
     ∧ only is_wav_write (trace out.2)
       = (if bool_decide (appended = []) then []
          else [EvWavWrite (new_wav_path worker_env) SAMPLE_RATE (concat appended)])
     ∧ only is_timer_stop (trace out.2) = []
     ∧ state_file out.2 = None).
Proof.
  split; [exact worker_env_boots|]. split; [reflexivity|]. split; [reflexivity|].
  split; [reflexivity|]. split; [reflexivity|]. split; [exact worker_stream_uncut|].
  split; [reflexivity|]. split; [reflexivity|].
  exact (worker_records_to_session_path worker_env ∅ [] worker_stream
           worker_env_boots eq_refl eq_refl eq_refl eq_refl worker_stream_uncut
           eq_refl eq_refl).
Defined.

Lemma worker_without_input_stream_witness :
  boots no_stream_env
  ∧ fork_outcome no_stream_env = inr 0%N
  ∧ setsid_fault no_stream_env = None
  ∧ redirect_fault no_stream_env = None
  ∧ input_stream no_stream_env = inl PortAudioError
  ∧ (let out := run no_stream_env (launch None ∅ []) in
     out.1 = Some 1
     ∧ last (trace out.2) = Some (EvLog ERROR (MsgRecordingError PortAudioError))
     ∧ only is_wav_write (trace out.2) = []
     ∧ state_file out.2 = None).
Proof.
  assert (H1 : boots no_stream_env) by (repeat split).
  split; [exact H1|]. split; [reflexivity|]. split; [reflexivity|].
  split; [reflexivity|]. split; [reflexivity|].
  exact (worker_without_input_stream no_stream_env ∅ [] PortAudioError
           H1 eq_refl eq_refl eq_refl eq_refl).
Defined.

Lemma worker_detach_failure_witness :
  boots no_setsid_env
  ∧ fork_outcome no_setsid_env = inr 0%N
  ∧ (setsid_fault no_setsid_env = Some OSError
     ∨ (setsid_fault no_setsid_env = None ∧ redirect_fault no_setsid_env = Some OSError))
  ∧ (let out := run no_setsid_env (launch None ∅ []) in
     out.1 = Some 1
     ∧ trace out.2
       = [EvFork; EvSetsid]
         ++ match setsid_fault no_setsid_env with
            | Some _ => []
            | None => [EvRedirectStdio]
            end
         ++ [EvLog ERROR (MsgDaemonError OSError)]
     ∧ audio_data out.2 = []
     ∧ state_file out.2 = None).
Proof.
  assert (H1 : boots no_setsid_env) by (repeat split).
  assert (H3 : setsid_fault no_setsid_env = Some OSError
               ∨ (setsid_fault no_setsid_env = None
                  ∧ redirect_fault no_setsid_env = Some OSError))
    by (left; reflexivity).
  split; [exact H1|]. split; [reflexivity|]. split; [exact H3|].
  exact (worker_detach_failure no_setsid_env ∅ [] OSError H1 eq_refl H3).
Defined.

Lemma transcript_is_trimmed_witness :
  model_load_fault stop_env = None
  ∧ whisper stop_env sample_wav = inr [py " hello there "]
  ∧ ∃ s' text l r,
      transcribe sample_wav stop_env (launch None ∅ []) = (Ret text, s')
      ∧ concat [py " hello there "] = l ++ text ++ r
      ∧ Forall (fun c => Str.isspace (py_unicode stop_env) c = true) l
      ∧ Forall (fun c => Str.isspace (py_unicode stop_env) c = true) r
      ∧ (∀ c t, text = c :: t -> Str.isspace (py_unicode stop_env) c = false)
      ∧ (∀ c, last text = Some c -> Str.isspace (py_unicode stop_env) c = false)
      ∧ last (trace s')
        = Some (EvLog INFO (MsgTranscription (take 100 text) (100 <? length text)%nat))
      ∧ (length (take 100 text) <= 100)%nat.
Proof.
  split; [reflexivity|]. split; [reflexivity|].
  exact (transcript_is_trimmed sample_wav [py " hello there "] stop_env
           (launch None ∅ []) eq_refl eq_refl).
Defined.
